(** * Cloud-Scanner: rule evaluation, scan orchestration and result store

    A shallow embedding of the backend of the scanner
    (aws/*.ts, scanners/*.ts, services/scanService.ts, storage/dynamodb.ts,
    types/index.ts) and the properties of its specification.

    Conventions of the embedding:
    - an [async] function that can reject is a value of [Outcome];
    - the AWS SDK clients are records of canned responses (collectors only
      read);
    - the orchestrator and the result store run in the monad [M] over a
      [World] holding the wall clock, the random source and the DynamoDB
      table;
    - a call that is awaited runs to its end; the one call that is not,
      [saveScanResult] in [runFullScan], leaves its command in flight, and
      the command is answered when the world settles
      ([DynamoDB.settle]);
    - [console.log] / [console.error] have no model. *)

From Stdlib Require Import List String Ascii ZArith Bool Lia Arith DecimalString.
From Stdlib Require Import Permutation Sorted.
Import ListNotations.
Local Open Scope string_scope.
Local Open Scope Z_scope.

(* ================================================================== *)
(** * JavaScript prelude *)
(* ================================================================== *)

(** A thrown value: [errName] is [error.name], [errText] is what
    [`${error}`] prints. *)
Record JsError := mkError { errName : string; errText : string }.

(** The settled state of a promise (or the result of a call that may
    throw). *)
Inductive Outcome (A : Type) : Type :=
| Ok (a : A)
| Throw (e : JsError).
Arguments Ok {A} a.
Arguments Throw {A} e.

Module Js.

Definition bind {A B} (m : Outcome A) (k : A -> Outcome B) : Outcome B :=
  match m with
  | Ok a => k a
  | Throw e => Throw e
  end.

(** [try { m } catch (error) { h error }] *)
Definition tryCatch {A} (m : Outcome A) (h : JsError -> Outcome A) : Outcome A :=
  match m with
  | Ok a => Ok a
  | Throw e => h e
  end.

(** [Promise.all([a, b])]: fulfilled with both values, rejected with the
    reason of the promise that rejects first; [bFirst] tells which one
    does when both reject. *)
Definition promiseAll2 {A B} (bFirst : bool) (a : Outcome A) (b : Outcome B)
  : Outcome (A * B) :=
  match a, b with
  | Ok x, Ok y => Ok (x, y)
  | Throw e, Ok _ => Throw e
  | Ok _, Throw e => Throw e
  | Throw ea, Throw eb => Throw (if bFirst then eb else ea)
  end.

(** [s || d] on an optional string: [undefined] and the empty string are
    falsy. *)
Definition strOr (s : option string) (d : string) : string :=
  match s with
  | Some x => if String.eqb x EmptyString then d else x
  | None => d
  end.

(** [!!s] on an optional string. *)
Definition truthyStr (s : option string) : bool :=
  match s with
  | Some x => negb (String.eqb x EmptyString)
  | None => false
  end.

(** [b || false] on an optional boolean. *)
Definition boolOr (b : option bool) : bool :=
  match b with
  | Some x => x
  | None => false
  end.

(** [n || 0] on an optional integer. *)
Definition numOr0 (n : option Z) : Z :=
  match n with
  | Some x => x
  | None => 0
  end.

(** [l || []] on an optional array. *)
Definition listOr {A} (l : option (list A)) : list A :=
  match l with
  | Some x => x
  | None => []
  end.

(** [n ?? d] *)
Definition nullish (n : option Z) (d : Z) : Z :=
  match n with
  | Some x => x
  | None => d
  end.

(** [a.includes(s)] on an array of strings. *)
Definition includes (a : list string) (s : string) : bool :=
  existsb (String.eqb s) a.

(** [`${s}`] on an optional string. *)
Definition showOptStr (s : option string) : string :=
  match s with
  | Some x => x
  | None => "undefined"
  end.

(** [`${n}`] on an integer. *)
Definition showZ (n : Z) : string :=
  DecimalString.NilZero.string_of_int (Z.to_int n).

(** ** [Date.prototype.toISOString]

    A time value is a number of milliseconds since the epoch, between
    -8.64e15 and 8.64e15.  The date is the proleptic Gregorian one;
    [civilFromDays] computes it by 400-year eras starting on 1 March. *)

Definition msPerDay : Z := 86400000.

Definition civilFromDays (day : Z) : Z * Z * Z :=
  let z := day + 719468 in
  let era := z / 146097 in
  let doe := z mod 146097 in
  let yoe := (doe - doe / 1460 + doe / 36524 - doe / 146096) / 365 in
  let doy := doe - (365 * yoe + yoe / 4 - yoe / 100) in
  let mp := (5 * doy + 2) / 153 in
  let d := doy - (153 * mp + 2) / 5 + 1 in
  let m := if mp <? 10 then mp + 3 else mp - 9 in
  let y := yoe + era * 400 + (if m <=? 2 then 1 else 0) in
  (y, m, d).

Definition digitChar (d : Z) : ascii := ascii_of_nat (48 + Z.to_nat d).

(** The [width] low decimal digits of [n], most significant first. *)
Fixpoint pad (width : nat) (n : Z) : string :=
  match width with
  | O => EmptyString
  | S w => pad w (n / 10) ++ String (digitChar (n mod 10)) EmptyString
  end.

(** Four digits for the years 0 to 9999, a sign and six digits
    otherwise. *)
Definition isoYear (y : Z) : string :=
  if (0 <=? y) && (y <=? 9999) then pad 4 y
  else if y <? 0 then "-" ++ pad 6 (- y)
  else "+" ++ pad 6 y.

Definition toISOString (t : Z) : string :=
  let '(y, m, d) := civilFromDays (t / msPerDay) in
  let ms := t mod msPerDay in
  isoYear y ++ "-" ++ pad 2 m ++ "-" ++ pad 2 d ++ "T" ++
  pad 2 (ms / 3600000) ++ ":" ++ pad 2 (ms / 60000 mod 60) ++ ":" ++
  pad 2 (ms / 1000 mod 60) ++ "." ++ pad 3 (ms mod 1000) ++ "Z".

End Js.

Notation "x <- m ;; k" := (Js.bind m (fun x => k))
  (at level 61, m at next level, right associativity).

(* ================================================================== *)
(** * types/index.ts *)
(* ================================================================== *)

Module Types.

Inductive Severity := LOW | MEDIUM | HIGH | CRITICAL.

Inductive CheckStatus := PASS | FAIL | ERROR.

Inductive ResourceType := S3 | EC2 | IAM | RDS | SECURITY_GROUP.

(** What a date field holds at run time: a [Date] object, whose time
    value is a number of milliseconds or [NaN] (an invalid date, [None]
    here), or a string, which is what the result store hands back.
    [x instanceof Date] is the test for the first constructor. *)
Inductive DateValue :=
| DateObj (timeValue : option Z)
| DateStr (iso : string).

Record SecurityFinding := {
  resourceType : ResourceType;
  resourceId : string;
  checkName : string;
  status : CheckStatus;
  severity : Severity;
  message : string;
  timestamp : option DateValue;
  region : option string
}.

Record ScanSummary := {
  totalResources : nat;
  passed : nat;
  failed : nat;
  errors : nat;
  highSeverity : nat;
  criticalSeverity : nat;
  scanTime : DateValue
}.

Inductive ScanStatus := running | completed | failed_.

(** The identifier is the field [scanId] in every use of the type
    (services/scanService.ts, storage/dynamodb.ts); the status field is
    [scanStatus] here, [status] being taken by [SecurityFinding]. *)
Record ScanResult := {
  scanId : string;
  summary : ScanSummary;
  findings : list SecurityFinding;
  startTime : DateValue;
  endTime : option DateValue;
  scanStatus : ScanStatus
}.

Definition statusEqb (a b : CheckStatus) : bool :=
  match a, b with
  | PASS, PASS | FAIL, FAIL | ERROR, ERROR => true
  | _, _ => false
  end.

Definition severityEqb (a b : Severity) : bool :=
  match a, b with
  | LOW, LOW | MEDIUM, MEDIUM | HIGH, HIGH | CRITICAL, CRITICAL => true
  | _, _ => false
  end.

End Types.

(* ================================================================== *)
(** * aws/ec2.ts *)
(* ================================================================== *)

Module AwsEC2.

(** Shapes of [@aws-sdk/client-ec2] that the collector reads. *)
Record IpRange := { CidrIp : option string }.
Record Ipv6Range := { CidrIpv6 : option string }.
Record IpPermission := {
  IpProtocol : option string;
  FromPort : option Z;
  ToPort : option Z;
  IpRanges : option (list IpRange);
  Ipv6Ranges : option (list Ipv6Range)
}.
Record SecurityGroup := {
  GroupId : option string;
  GroupName : option string;
  Description : option string;
  VpcId : option string;
  IpPermissions : option (list IpPermission)
}.
Record Tag := { Key : option string; Value : option string }.
Record GroupIdentifier := { sgGroupId : option string }.
Record InstanceState := { Name : option string }.
Record Instance := {
  InstanceId : option string;
  Tags : option (list Tag);
  SecurityGroups : option (list GroupIdentifier);
  State : option InstanceState;
  InstanceType : option string;
  PublicIpAddress : option string;
  PrivateIpAddress : option string
}.
Record Reservation := { Instances : option (list Instance) }.

(** The EC2 client: what [ec2Client.send] answers to each command. *)
Record Client := {
  DescribeInstances : Outcome (option (list Reservation));
  DescribeSecurityGroups : Outcome (option (list SecurityGroup));
  (** which of the two listings rejects first when both do *)
  groupsSettleFirst : bool
}.

Record EC2InstanceInfo := {
  instanceId : string;
  name : string;
  state : string;
  instanceType : string;
  publicIp : option string;
  privateIp : option string;
  hasPublicIp : bool;
  securityGroups : list string;
  region : option string
}.

Record SecurityGroupRule := {
  protocol : string;
  fromPort : option Z;
  toPort : option Z;
  source : string;
  isOpenToWorld_ : bool      (* field [isOpenToWorld] *)
}.

Record SecurityGroupInfo := {
  groupId : string;
  groupName : string;
  description : string;
  vpcId : option string;
  inboundRules : list SecurityGroupRule;
  hasOpenSSH : bool;
  hasOpenRDP : bool;
  hasOpenToWorld : bool
}.

Definition tagName (i : Instance) : string :=
  let nameTag :=
    match Tags i with
    | Some ts =>
        find (fun tag => match Key tag with
                         | Some k => String.eqb k "Name"
                         | None => false
                         end) ts
    | None => None
    end in
  Js.strOr (match nameTag with Some t => Value t | None => None end) "Unnamed".

Definition instanceInfo (instance : Instance) (id : string) : EC2InstanceInfo :=
  {| instanceId := id;
     name := tagName instance;
     state := Js.strOr (match State instance with
                        | Some s => Name s
                        | None => None
                        end) "unknown";
     instanceType := Js.strOr (InstanceType instance) "unknown";
     publicIp := PublicIpAddress instance;
     privateIp := PrivateIpAddress instance;
     hasPublicIp := Js.truthyStr (PublicIpAddress instance);
     securityGroups :=
       match SecurityGroups instance with
       | Some sgs => map (fun sg => Js.strOr (sgGroupId sg) "") sgs
       | None => []
       end;
     region := None |}.

Definition listInstances (c : Client) : Outcome (list EC2InstanceInfo) :=
  response <- DescribeInstances c ;;
  Ok (flat_map
        (fun reservation =>
           flat_map
             (fun instance =>
                if Js.truthyStr (InstanceId instance)
                then [instanceInfo instance (Js.strOr (InstanceId instance) "")]
                else [])
             (Js.listOr (Instances reservation)))
        (Js.listOr response)).

Definition isOpenToWorld (cidr : string) : bool :=
  String.eqb cidr "0.0.0.0/0" || String.eqb cidr "::/0".

Definition rulesOfPermission (permission : IpPermission) : list SecurityGroupRule :=
  map (fun ipRange =>
         {| protocol := Js.strOr (IpProtocol permission) "all";
            fromPort := FromPort permission;
            toPort := ToPort permission;
            source := Js.strOr (CidrIp ipRange) "";
            isOpenToWorld_ := isOpenToWorld (Js.strOr (CidrIp ipRange) "") |})
      (Js.listOr (IpRanges permission))
  ++
  map (fun ipv6Range =>
         {| protocol := Js.strOr (IpProtocol permission) "all";
            fromPort := FromPort permission;
            toPort := ToPort permission;
            source := Js.strOr (CidrIpv6 ipv6Range) "";
            isOpenToWorld_ := isOpenToWorld (Js.strOr (CidrIpv6 ipv6Range) "") |})
      (Js.listOr (Ipv6Ranges permission)).

Definition parseInboundRules (permissions : list IpPermission)
  : list SecurityGroupRule :=
  flat_map rulesOfPermission permissions.

Definition ruleOpensPort (port : Z) (rule : SecurityGroupRule) : bool :=
  if negb (isOpenToWorld_ rule) then false
  else if String.eqb (protocol rule) "-1" then true
  else
    let fromPort := Js.nullish (fromPort rule) 0 in
    let toPort := Js.nullish (toPort rule) 65535 in
    (port >=? fromPort) && (port <=? toPort).

Definition hasPortOpenToWorld (rules : list SecurityGroupRule) (port : Z) : bool :=
  existsb (ruleOpensPort port) rules.

Definition securityGroupInfo (sg : SecurityGroup) (id : string) : SecurityGroupInfo :=
  let inboundRules := parseInboundRules (Js.listOr (IpPermissions sg)) in
  {| groupId := id;
     groupName := Js.strOr (GroupName sg) "Unknown";
     description := Js.strOr (Description sg) "";
     vpcId := VpcId sg;
     inboundRules := inboundRules;
     hasOpenSSH := hasPortOpenToWorld inboundRules 22;
     hasOpenRDP := hasPortOpenToWorld inboundRules 3389;
     hasOpenToWorld := existsb isOpenToWorld_ inboundRules |}.

Definition listSecurityGroups (c : Client) : Outcome (list SecurityGroupInfo) :=
  response <- DescribeSecurityGroups c ;;
  Ok (flat_map
        (fun sg =>
           if Js.truthyStr (GroupId sg)
           then [securityGroupInfo sg (Js.strOr (GroupId sg) "")]
           else [])
        (Js.listOr response)).

Definition getEC2SecurityInfo (c : Client)
  : Outcome (list EC2InstanceInfo * list SecurityGroupInfo) :=
  Js.promiseAll2 (groupsSettleFirst c) (listInstances c) (listSecurityGroups c).

End AwsEC2.

(* ================================================================== *)
(** * aws/s3.ts *)
(* ================================================================== *)

Module AwsS3.

(** Shapes of [@aws-sdk/client-s3] that the collector reads. *)
Record Bucket := {
  Name : option string;
  CreationDate : option Types.DateValue
}.
Record ServerSideEncryptionByDefault := { SSEAlgorithm : option string }.
Record ServerSideEncryptionRule := {
  ApplyServerSideEncryptionByDefault : option ServerSideEncryptionByDefault
}.
Record ServerSideEncryptionConfiguration := {
  Rules : option (list ServerSideEncryptionRule)
}.
Record GetBucketVersioningOutput := {
  Status : option string;
  MFADelete : option string
}.
Record PublicAccessBlockConfiguration := {
  BlockPublicAcls : option bool;
  BlockPublicPolicy : option bool;
  IgnorePublicAcls : option bool;
  RestrictPublicBuckets : option bool
}.

(** The S3 client: what [s3Client.send] answers to each command, the
    per-bucket commands by bucket name. *)
Record Client := {
  ListBuckets : Outcome (option (list Bucket));
  GetBucketLocation : string -> Outcome (option string);
  GetBucketEncryption : string -> Outcome (option ServerSideEncryptionConfiguration);
  GetBucketVersioning : string -> Outcome GetBucketVersioningOutput;
  GetPublicAccessBlock : string -> Outcome (option PublicAccessBlockConfiguration)
}.

Record PublicAccess := {
  blockPublicAcls : bool;
  blockPublicPolicy : bool;
  ignorePublicAcls : bool;
  restrictPublicBuckets : bool;
  isFullyBlocked : bool
}.
Record Encryption := { enabled : bool; type : option string }.
Record Versioning := { versioningEnabled : bool; mfaDelete : bool }.

Record S3BucketInfo := {
  name : string;
  region : string;
  creationDate : option Types.DateValue;
  publicAccess : PublicAccess;
  encryption : Encryption;
  versioning : Versioning
}.

Definition listBuckets (c : Client) : Outcome (list Bucket) :=
  response <- ListBuckets c ;;
  Ok (Js.listOr response).

Definition getBucketRegion (c : Client) (bucketName : string) : Outcome string :=
  Js.tryCatch
    (response <- GetBucketLocation c bucketName ;;
     Ok (Js.strOr response "us-east-1"))
    (fun error => Ok "unknown").

Definition getBucketEncryption (c : Client) (bucketName : string)
  : Outcome Encryption :=
  Js.tryCatch
    (response <- GetBucketEncryption c bucketName ;;
     let rules :=
       Js.listOr (match response with
                  | Some config => Rules config
                  | None => None
                  end) in
     match rules with
     | rule0 :: _ =>
         let encryptionType :=
           match ApplyServerSideEncryptionByDefault rule0 with
           | Some d => SSEAlgorithm d
           | None => None
           end in
         Ok {| enabled := true; type := encryptionType |}
     | [] => Ok {| enabled := false; type := None |}
     end)
    (fun error =>
       if String.eqb (errName error) "ServerSideEncryptionConfigurationNotFoundError"
       then Ok {| enabled := false; type := None |}
       else Ok {| enabled := false; type := None |}).

Definition getBucketVersioning (c : Client) (bucketName : string)
  : Outcome Versioning :=
  Js.tryCatch
    (response <- GetBucketVersioning c bucketName ;;
     Ok {| versioningEnabled :=
             match Status response with
             | Some s => String.eqb s "Enabled"
             | None => false
             end;
           mfaDelete :=
             match MFADelete response with
             | Some s => String.eqb s "Enabled"
             | None => false
             end |})
    (fun error => Ok {| versioningEnabled := false; mfaDelete := false |}).

Definition nothingBlocked : PublicAccess :=
  {| blockPublicAcls := false;
     blockPublicPolicy := false;
     ignorePublicAcls := false;
     restrictPublicBuckets := false;
     isFullyBlocked := false |}.

Definition getPublicAccessBlock (c : Client) (bucketName : string)
  : Outcome PublicAccess :=
  Js.tryCatch
    (response <- GetPublicAccessBlock c bucketName ;;
     let flag (get : PublicAccessBlockConfiguration -> option bool) :=
       Js.boolOr (match response with
                  | Some config => get config
                  | None => None
                  end) in
     let blockPublicAcls := flag BlockPublicAcls in
     let blockPublicPolicy := flag BlockPublicPolicy in
     let ignorePublicAcls := flag IgnorePublicAcls in
     let restrictPublicBuckets := flag RestrictPublicBuckets in
     let isFullyBlocked :=
       blockPublicAcls && blockPublicPolicy &&
       ignorePublicAcls && restrictPublicBuckets in
     Ok {| blockPublicAcls := blockPublicAcls;
           blockPublicPolicy := blockPublicPolicy;
           ignorePublicAcls := ignorePublicAcls;
           restrictPublicBuckets := restrictPublicBuckets;
           isFullyBlocked := isFullyBlocked |})
    (fun error =>
       if String.eqb (errName error) "NoSuchPublicAccessBlockConfiguration"
       then Ok nothingBlocked
       else Ok nothingBlocked).

(** The body of the loop of [getAllBucketsInfo] for one bucket with a
    name; the four lookups are joined by [Promise.all]. *)
Definition bucketInfo (c : Client) (bucket : Bucket) (bucketName : string)
  : Outcome S3BucketInfo :=
  region <- getBucketRegion c bucketName ;;
  encryption <- getBucketEncryption c bucketName ;;
  versioning <- getBucketVersioning c bucketName ;;
  publicAccess <- getPublicAccessBlock c bucketName ;;
  Ok {| name := bucketName;
        region := region;
        creationDate := CreationDate bucket;
        publicAccess := publicAccess;
        encryption := encryption;
        versioning := versioning |}.

Fixpoint bucketsInfo (c : Client) (buckets : list Bucket)
  : Outcome (list S3BucketInfo) :=
  match buckets with
  | [] => Ok []
  | bucket :: rest =>
      if Js.truthyStr (Name bucket) then
        info <- bucketInfo c bucket (Js.strOr (Name bucket) "") ;;
        infos <- bucketsInfo c rest ;;
        Ok (info :: infos)
      else bucketsInfo c rest
  end.

Definition getAllBucketsInfo (c : Client) : Outcome (list S3BucketInfo) :=
  buckets <- listBuckets c ;;
  bucketsInfo c buckets.

End AwsS3.

(* ================================================================== *)
(** * aws/iam.ts *)
(* ================================================================== *)

Module AwsIAM.

(** Shapes of [@aws-sdk/client-iam] that the collector reads. *)
Record User := {
  UserName : option string;
  UserId : option string;
  Arn : option string;
  CreateDate : option Types.DateValue;
  PasswordLastUsed : option Types.DateValue
}.
Record AttachedPolicy := { PolicyArn : option string }.
Record MFADevice := { SerialNumber : option string }.

(** The IAM client; [SummaryMap] is an object used as a map from names to
    numbers. *)
Record Client := {
  ListUsers : Outcome (option (list User));
  ListMFADevices : string -> Outcome (option (list MFADevice));
  GetLoginProfile : string -> Outcome unit;
  ListAttachedUserPolicies : string -> Outcome (option (list AttachedPolicy));
  ListUserPolicies : string -> Outcome (option (list string));
  GetAccountSummary : Outcome (option (string -> option Z));
  (** which of the two collections rejects first when both do *)
  summarySettlesFirst : bool
}.

Record IAMUserInfo := {
  userName : string;
  userId : string;
  arn : string;
  createDate : option Types.DateValue;
  hasMFA : bool;
  hasConsoleAccess : bool;
  attachedPolicies : list string;
  hasAdminAccess : bool;
  passwordLastUsed : option Types.DateValue
}.

Record IAMAccountSummary := {
  users : Z;
  groups : Z;
  roles : Z;
  policies : Z;
  mfaDevices : Z;
  accountMFAEnabled : bool
}.

Definition ADMIN_POLICY_ARNS : list string :=
  [ "arn:aws:iam::aws:policy/AdministratorAccess";
    "arn:aws:iam::aws:policy/PowerUserAccess";
    "arn:aws:iam::aws:policy/IAMFullAccess" ].

Definition isAdminPolicy (policyArn : string) : bool :=
  Js.includes ADMIN_POLICY_ARNS policyArn.

Definition listUsers (c : Client) : Outcome (list User) :=
  response <- ListUsers c ;;
  Ok (Js.listOr response).

Definition userHasMFA (c : Client) (userName : string) : Outcome bool :=
  Js.tryCatch
    (response <- ListMFADevices c userName ;;
     Ok (match response with
         | Some devices => (0 <? Z.of_nat (List.length devices))
         | None => false
         end))
    (fun error => Ok false).

Definition userHasConsoleAccess (c : Client) (userName : string) : Outcome bool :=
  Js.tryCatch
    (_ <- GetLoginProfile c userName ;;
     Ok true)
    (fun error =>
       if String.eqb (errName error) "NoSuchEntityException"
       then Ok false
       else Ok false).

Definition getUserAttachedPolicies (c : Client) (userName : string)
  : Outcome (list AttachedPolicy) :=
  Js.tryCatch
    (response <- ListAttachedUserPolicies c userName ;;
     Ok (Js.listOr response))
    (fun error => Ok []).

Definition getUserInlinePolicies (c : Client) (userName : string)
  : Outcome (list string) :=
  Js.tryCatch
    (response <- ListUserPolicies c userName ;;
     Ok (Js.listOr response))
    (fun error => Ok []).

Definition getAccountSummary (c : Client) : Outcome IAMAccountSummary :=
  response <- GetAccountSummary c ;;
  let summary (key : string) : option Z :=
    match response with
    | Some m => m key
    | None => None
    end in
  Ok {| users := Js.numOr0 (summary "Users");
        groups := Js.numOr0 (summary "Groups");
        roles := Js.numOr0 (summary "Roles");
        policies := Js.numOr0 (summary "Policies");
        mfaDevices := Js.numOr0 (summary "MFADevices");
        accountMFAEnabled := (Js.numOr0 (summary "AccountMFAEnabled") =? 1) |}.

(** The body of the loop of [getAllUsersInfo] for one user with a
    name. *)
Definition userInfo (c : Client) (user : User) (userName : string)
  : Outcome IAMUserInfo :=
  hasMFA <- userHasMFA c userName ;;
  hasConsoleAccess <- userHasConsoleAccess c userName ;;
  attachedPolicies <- getUserAttachedPolicies c userName ;;
  let policyArns := map (fun p => Js.strOr (PolicyArn p) "") attachedPolicies in
  let hasAdminAccess := existsb isAdminPolicy policyArns in
  Ok {| userName := userName;
        userId := Js.strOr (UserId user) "";
        arn := Js.strOr (Arn user) "";
        createDate := CreateDate user;
        hasMFA := hasMFA;
        hasConsoleAccess := hasConsoleAccess;
        attachedPolicies := policyArns;
        hasAdminAccess := hasAdminAccess;
        passwordLastUsed := PasswordLastUsed user |}.

Fixpoint usersInfo (c : Client) (users : list User) : Outcome (list IAMUserInfo) :=
  match users with
  | [] => Ok []
  | user :: rest =>
      if Js.truthyStr (UserName user) then
        info <- userInfo c user (Js.strOr (UserName user) "") ;;
        infos <- usersInfo c rest ;;
        Ok (info :: infos)
      else usersInfo c rest
  end.

Definition getAllUsersInfo (c : Client) : Outcome (list IAMUserInfo) :=
  users <- listUsers c ;;
  usersInfo c users.

End AwsIAM.

(* ================================================================== *)
(** * aws/rds.ts *)
(* ================================================================== *)

Module AwsRDS.

(** Shapes of [@aws-sdk/client-rds] that the collector reads. *)
Record VpcSecurityGroupMembership := { VpcSecurityGroupId : option string }.
Record Endpoint := { Address : option string; Port : option Z }.
Record DBInstance := {
  DBInstanceIdentifier : option string;
  DBInstanceClass : option string;
  Engine : option string;
  EngineVersion : option string;
  DBInstanceStatus : option string;
  PubliclyAccessible : option bool;
  StorageEncrypted : option bool;
  BackupRetentionPeriod : option Z;
  MultiAZ : option bool;
  VpcSecurityGroups : option (list VpcSecurityGroupMembership);
  Endpoint_ : option Endpoint          (* field [Endpoint] *)
}.

Record Client := {
  DescribeDBInstances : Outcome (option (list DBInstance))
}.

Record RDSInstanceInfo := {
  dbInstanceId : string;
  dbInstanceClass : string;
  engine : string;
  engineVersion : string;
  status : string;
  isPubliclyAccessible : bool;
  isEncrypted : bool;
  hasBackupEnabled : bool;
  backupRetentionPeriod : Z;
  multiAZ : bool;
  vpcSecurityGroups : list string;
  endpoint : option string;
  port : option Z
}.

Definition listDBInstances (c : Client) : Outcome (list DBInstance) :=
  response <- DescribeDBInstances c ;;
  Ok (Js.listOr response).

Definition instanceInfo (instance : DBInstance) (id : string) : RDSInstanceInfo :=
  {| dbInstanceId := id;
     dbInstanceClass := Js.strOr (DBInstanceClass instance) "unknown";
     engine := Js.strOr (Engine instance) "unknown";
     engineVersion := Js.strOr (EngineVersion instance) "";
     status := Js.strOr (DBInstanceStatus instance) "unknown";
     isPubliclyAccessible := Js.boolOr (PubliclyAccessible instance);
     isEncrypted := Js.boolOr (StorageEncrypted instance);
     hasBackupEnabled := (Js.numOr0 (BackupRetentionPeriod instance) >? 0);
     backupRetentionPeriod := Js.numOr0 (BackupRetentionPeriod instance);
     multiAZ := Js.boolOr (MultiAZ instance);
     vpcSecurityGroups :=
       match VpcSecurityGroups instance with
       | Some sgs => map (fun sg => Js.strOr (VpcSecurityGroupId sg) "") sgs
       | None => []
       end;
     endpoint := match Endpoint_ instance with
                 | Some e => Address e
                 | None => None
                 end;
     port := match Endpoint_ instance with
             | Some e => Port e
             | None => None
             end |}.

Definition getAllRDSInfo (c : Client) : Outcome (list RDSInstanceInfo) :=
  instances <- listDBInstances c ;;
  Ok (flat_map
        (fun instance =>
           if Js.truthyStr (DBInstanceIdentifier instance)
           then [instanceInfo instance (Js.strOr (DBInstanceIdentifier instance) "")]
           else [])
        instances).

End AwsRDS.

(* ================================================================== *)
(** * scanners/s3Scanner.ts *)
(* ================================================================== *)

Module S3Scanner.

Import Types.

Definition checkPublicAccess (bucket : AwsS3.S3BucketInfo) : SecurityFinding :=
  let isBlocked := AwsS3.isFullyBlocked (AwsS3.publicAccess bucket) in
  {| resourceType := S3;
     resourceId := AwsS3.name bucket;
     checkName := "Public Access Block";
     status := if isBlocked then PASS else FAIL;
     severity := if isBlocked then LOW else HIGH;
     message :=
       if isBlocked
       then "Public access is fully blocked for this bucket"
       else "Public access is NOT fully blocked. This bucket may be publicly accessible";
     timestamp := None;
     region := Some (AwsS3.region bucket) |}.

Definition checkEncryption (bucket : AwsS3.S3BucketInfo) : SecurityFinding :=
  let isEncrypted := AwsS3.enabled (AwsS3.encryption bucket) in
  let encryptionType := Js.strOr (AwsS3.type (AwsS3.encryption bucket)) "None" in
  {| resourceType := S3;
     resourceId := AwsS3.name bucket;
     checkName := "Server-Side Encryption";
     status := if isEncrypted then PASS else FAIL;
     severity := if isEncrypted then LOW else MEDIUM;
     message :=
       if isEncrypted
       then "Encryption is enabled using " ++ encryptionType
       else "Server-side encryption is NOT enabled. Data at rest is not protected";
     timestamp := None;
     region := Some (AwsS3.region bucket) |}.

Definition checkVersioning (bucket : AwsS3.S3BucketInfo) : SecurityFinding :=
  let isEnabled := AwsS3.versioningEnabled (AwsS3.versioning bucket) in
  {| resourceType := S3;
     resourceId := AwsS3.name bucket;
     checkName := "Versioning";
     status := if isEnabled then PASS else FAIL;
     severity := if isEnabled then LOW else LOW;
     message :=
       if isEnabled
       then "Versioning is enabled - objects can be recovered if deleted"
       else "Versioning is NOT enabled. Consider enabling for data protection";
     timestamp := None;
     region := Some (AwsS3.region bucket) |}.

Definition scanError (error : JsError) : SecurityFinding :=
  {| resourceType := S3;
     resourceId := "S3-SCANNER";
     checkName := "S3 Scan";
     status := ERROR;
     severity := HIGH;
     message := "Error scanning S3 buckets: " ++ errText error;
     timestamp := None;
     region := None |}.

Definition scanS3Buckets (c : AwsS3.Client) : Outcome (list SecurityFinding) :=
  Js.tryCatch
    (buckets <- AwsS3.getAllBucketsInfo c ;;
     Ok (flat_map
           (fun bucket =>
              [checkPublicAccess bucket; checkEncryption bucket; checkVersioning bucket])
           buckets))
    (fun error => Ok [scanError error]).

End S3Scanner.

(* ================================================================== *)
(** * scanners/ec2Scanner.ts *)
(* ================================================================== *)

Module EC2Scanner.

Import Types.

Definition sgResourceId (sg : AwsEC2.SecurityGroupInfo) : string :=
  AwsEC2.groupName sg ++ " (" ++ AwsEC2.groupId sg ++ ")".

Definition checkSSHExposure (sg : AwsEC2.SecurityGroupInfo) : SecurityFinding :=
  {| resourceType := SECURITY_GROUP;
     resourceId := sgResourceId sg;
     checkName := "SSH Port Exposure (22)";
     status := if AwsEC2.hasOpenSSH sg then FAIL else PASS;
     severity := if AwsEC2.hasOpenSSH sg then HIGH else LOW;
     message :=
       if AwsEC2.hasOpenSSH sg
       then "SSH port 22 is open to the world (0.0.0.0/0). Restrict to specific IPs"
       else "SSH port 22 is not exposed to the world";
     timestamp := None;
     region := None |}.

Definition checkRDPExposure (sg : AwsEC2.SecurityGroupInfo) : SecurityFinding :=
  {| resourceType := SECURITY_GROUP;
     resourceId := sgResourceId sg;
     checkName := "RDP Port Exposure (3389)";
     status := if AwsEC2.hasOpenRDP sg then FAIL else PASS;
     severity := if AwsEC2.hasOpenRDP sg then HIGH else LOW;
     message :=
       if AwsEC2.hasOpenRDP sg
       then "RDP port 3389 is open to the world (0.0.0.0/0). Restrict to specific IPs"
       else "RDP port 3389 is not exposed to the world";
     timestamp := None;
     region := None |}.

Definition checkOpenToWorld (sg : AwsEC2.SecurityGroupInfo) : SecurityFinding :=
  let openRules := filter AwsEC2.isOpenToWorld_ (AwsEC2.inboundRules sg) in
  {| resourceType := SECURITY_GROUP;
     resourceId := sgResourceId sg;
     checkName := "Unrestricted Inbound Access";
     status := if AwsEC2.hasOpenToWorld sg then FAIL else PASS;
     severity := if AwsEC2.hasOpenToWorld sg then MEDIUM else LOW;
     message :=
       if AwsEC2.hasOpenToWorld sg
       then Js.showZ (Z.of_nat (List.length openRules))
            ++ " inbound rule(s) allow traffic from 0.0.0.0/0"
       else "No inbound rules allow unrestricted access";
     timestamp := None;
     region := None |}.

Definition checkPublicIPExposure (instance : AwsEC2.EC2InstanceInfo) : SecurityFinding :=
  {| resourceType := EC2;
     resourceId := AwsEC2.name instance ++ " (" ++ AwsEC2.instanceId instance ++ ")";
     checkName := "Public IP Exposure";
     status := if AwsEC2.hasPublicIp instance then FAIL else PASS;
     severity := if AwsEC2.hasPublicIp instance then MEDIUM else LOW;
     message :=
       if AwsEC2.hasPublicIp instance
       then "Instance has a public IP: " ++ Js.showOptStr (AwsEC2.publicIp instance)
            ++ ". Ensure this is intentional"
       else "Instance does not have a public IP";
     timestamp := None;
     region := None |}.

Definition scanError (error : JsError) : SecurityFinding :=
  {| resourceType := EC2;
     resourceId := "EC2-SCANNER";
     checkName := "EC2 Scan";
     status := ERROR;
     severity := HIGH;
     message := "Error scanning EC2: " ++ errText error;
     timestamp := None;
     region := None |}.

Definition scanEC2 (c : AwsEC2.Client) : Outcome (list SecurityFinding) :=
  Js.tryCatch
    (info <- AwsEC2.getEC2SecurityInfo c ;;
     let '(instances, securityGroups) := info in
     Ok (flat_map
           (fun sg => [checkSSHExposure sg; checkRDPExposure sg; checkOpenToWorld sg])
           securityGroups
         ++
         flat_map
           (fun instance =>
              if String.eqb (AwsEC2.state instance) "running"
                 || String.eqb (AwsEC2.state instance) "stopped"
              then [checkPublicIPExposure instance]
              else [])
           instances)%list)
    (fun error => Ok [scanError error]).

End EC2Scanner.

(* ================================================================== *)
(** * scanners/iamScanner.ts *)
(* ================================================================== *)

Module IAMScanner.

Import Types.

Definition checkMFAEnabled (user : AwsIAM.IAMUserInfo) : SecurityFinding :=
  if negb (AwsIAM.hasConsoleAccess user) then
    {| resourceType := IAM;
       resourceId := AwsIAM.userName user;
       checkName := "MFA Enabled";
       status := PASS;
       severity := LOW;
       message := "User does not have console access, MFA not required";
       timestamp := None;
       region := None |}
  else
    {| resourceType := IAM;
       resourceId := AwsIAM.userName user;
       checkName := "MFA Enabled";
       status := if AwsIAM.hasMFA user then PASS else FAIL;
       severity := if AwsIAM.hasMFA user then LOW else HIGH;
       message :=
         if AwsIAM.hasMFA user
         then "MFA is enabled for this user"
         else "MFA is NOT enabled. User with console access should have MFA";
       timestamp := None;
       region := None |}.

Definition checkAdminAccess (user : AwsIAM.IAMUserInfo) : SecurityFinding :=
  {| resourceType := IAM;
     resourceId := AwsIAM.userName user;
     checkName := "Admin Access Check";
     status := if AwsIAM.hasAdminAccess user then FAIL else PASS;
     severity := if AwsIAM.hasAdminAccess user then HIGH else LOW;
     message :=
       if AwsIAM.hasAdminAccess user
       then "User has admin-level permissions. Ensure this is necessary"
       else "User does not have admin-level permissions";
     timestamp := None;
     region := None |}.

Definition checkRootMFA (accountMFAEnabled : bool) : SecurityFinding :=
  {| resourceType := IAM;
     resourceId := "ROOT-ACCOUNT";
     checkName := "Root Account MFA";
     status := if accountMFAEnabled then PASS else FAIL;
     severity := if accountMFAEnabled then LOW else CRITICAL;
     message :=
       if accountMFAEnabled
       then "Root account has MFA enabled"
       else "Root account does NOT have MFA enabled. This is a critical security risk";
     timestamp := None;
     region := None |}.

Definition scanError (error : JsError) : SecurityFinding :=
  {| resourceType := IAM;
     resourceId := "IAM-SCANNER";
     checkName := "IAM Scan";
     status := ERROR;
     severity := HIGH;
     message := "Error scanning IAM: " ++ errText error;
     timestamp := None;
     region := None |}.

(** [Promise.all([getAllUsersInfo(), getAccountSummary()])] *)
Definition collect (c : AwsIAM.Client)
  : Outcome (list AwsIAM.IAMUserInfo * AwsIAM.IAMAccountSummary) :=
  Js.promiseAll2 (AwsIAM.summarySettlesFirst c)
    (AwsIAM.getAllUsersInfo c) (AwsIAM.getAccountSummary c).

Definition scanIAM (c : AwsIAM.Client) : Outcome (list SecurityFinding) :=
  Js.tryCatch
    (collected <- collect c ;;
     let '(users, accountSummary) := collected in
     Ok (checkRootMFA (AwsIAM.accountMFAEnabled accountSummary)
         :: flat_map (fun user => [checkMFAEnabled user; checkAdminAccess user]) users))
    (fun error => Ok [scanError error]).

End IAMScanner.

(* ================================================================== *)
(** * scanners/rdsScanner.ts *)
(* ================================================================== *)

Module RDSScanner.

Import Types.

Definition checkPublicAccessibility (db : AwsRDS.RDSInstanceInfo) : SecurityFinding :=
  {| resourceType := RDS;
     resourceId := AwsRDS.dbInstanceId db;
     checkName := "Public Accessibility";
     status := if AwsRDS.isPubliclyAccessible db then FAIL else PASS;
     severity := if AwsRDS.isPubliclyAccessible db then HIGH else LOW;
     message :=
       if AwsRDS.isPubliclyAccessible db
       then "RDS instance is publicly accessible. This exposes your database to the internet"
       else "RDS instance is not publicly accessible";
     timestamp := None;
     region := None |}.

Definition checkEncryption (db : AwsRDS.RDSInstanceInfo) : SecurityFinding :=
  {| resourceType := RDS;
     resourceId := AwsRDS.dbInstanceId db;
     checkName := "Encryption at Rest";
     status := if AwsRDS.isEncrypted db then PASS else FAIL;
     severity := if AwsRDS.isEncrypted db then LOW else MEDIUM;
     message :=
       if AwsRDS.isEncrypted db
       then "Storage encryption is enabled"
       else "Storage encryption is NOT enabled. Data at rest is not protected";
     timestamp := None;
     region := None |}.

Definition checkBackupEnabled (db : AwsRDS.RDSInstanceInfo) : SecurityFinding :=
  {| resourceType := RDS;
     resourceId := AwsRDS.dbInstanceId db;
     checkName := "Automated Backups";
     status := if AwsRDS.hasBackupEnabled db then PASS else FAIL;
     severity := if AwsRDS.hasBackupEnabled db then LOW else MEDIUM;
     message :=
       if AwsRDS.hasBackupEnabled db
       then "Automated backups enabled with "
            ++ Js.showZ (AwsRDS.backupRetentionPeriod db) ++ " day retention"
       else "Automated backups are NOT enabled. Enable for disaster recovery";
     timestamp := None;
     region := None |}.

Definition checkMultiAZ (db : AwsRDS.RDSInstanceInfo) : SecurityFinding :=
  {| resourceType := RDS;
     resourceId := AwsRDS.dbInstanceId db;
     checkName := "Multi-AZ Deployment";
     status := if AwsRDS.multiAZ db then PASS else FAIL;
     severity := if AwsRDS.multiAZ db then LOW else LOW;
     message :=
       if AwsRDS.multiAZ db
       then "Multi-AZ deployment is enabled for high availability"
       else "Multi-AZ deployment is NOT enabled. Consider for production workloads";
     timestamp := None;
     region := None |}.

Definition scanError (error : JsError) : SecurityFinding :=
  {| resourceType := RDS;
     resourceId := "RDS-SCANNER";
     checkName := "RDS Scan";
     status := ERROR;
     severity := HIGH;
     message := "Error scanning RDS: " ++ errText error;
     timestamp := None;
     region := None |}.

Definition scanRDS (c : AwsRDS.Client) : Outcome (list SecurityFinding) :=
  Js.tryCatch
    (instances <- AwsRDS.getAllRDSInfo c ;;
     Ok (flat_map
           (fun db =>
              [checkPublicAccessibility db; checkEncryption db;
               checkBackupEnabled db; checkMultiAZ db])
           instances))
    (fun error => Ok [scanError error]).

End RDSScanner.

(* ================================================================== *)
(** * The world of the orchestrator and of the result store *)
(* ================================================================== *)

Module Storage.

(** The record written to the table [CloudPostureResults]: the fields of
    the scan result ([scan], with the dates replaced by strings) and the
    three attributes that [prepareForStorage] adds. *)
Record StorageItem := {
  scan : Types.ScanResult;
  recordType : string;
  createdAt : Types.DateValue;
  resourceId : string
}.

(** The commands sent through [ddbClient.send]. *)
Inductive Command :=
| PutItemCommand (Item : StorageItem)
| GetItemCommand (scanId resourceId : string)
| QueryCommand (IndexName recordType : string).

End Storage.

(** The four SDK clients of the collectors. *)
Record Cloud := {
  s3Client : AwsS3.Client;
  ec2Client : AwsEC2.Client;
  iamClient : AwsIAM.Client;
  rdsClient : AwsRDS.Client
}.

Record World := {
  (** successive readings of the wall clock, in milliseconds *)
  clock : nat -> Z;
  ticks : nat;
  (** successive values of [Math.random().toString(36).substring(2, 9)] *)
  random : nat -> string;
  draws : nat;
  (** an exception raised by the runtime at the given step of the [try]
      block of [runFullScan]; none in a normal run *)
  abort : option (nat * JsError);
  (** the table, oldest write first *)
  table : list Storage.StorageItem;
  (** the commands sent so far, newest first *)
  sent : list Storage.Command;
  (** the [n]-th command sent fails with this error *)
  ddbFault : nat -> option JsError;
  (** the commands sent by calls that nobody awaits and not answered yet,
      oldest first, each with its number among the commands sent *)
  inFlight : list (nat * Storage.Command)
}.

Definition withTicks (w : World) (n : nat) : World :=
  {| clock := clock w; ticks := n; random := random w; draws := draws w;
     abort := abort w; table := table w; sent := sent w; ddbFault := ddbFault w;
     inFlight := inFlight w |}.

Definition withDraws (w : World) (n : nat) : World :=
  {| clock := clock w; ticks := ticks w; random := random w; draws := n;
     abort := abort w; table := table w; sent := sent w; ddbFault := ddbFault w;
     inFlight := inFlight w |}.

Definition withTable (w : World) (t : list Storage.StorageItem) : World :=
  {| clock := clock w; ticks := ticks w; random := random w; draws := draws w;
     abort := abort w; table := t; sent := sent w; ddbFault := ddbFault w;
     inFlight := inFlight w |}.

Definition withSent (w : World) (s : list Storage.Command) : World :=
  {| clock := clock w; ticks := ticks w; random := random w; draws := draws w;
     abort := abort w; table := table w; sent := s; ddbFault := ddbFault w;
     inFlight := inFlight w |}.

Definition withDdbFault (w : World) (f : nat -> option JsError) : World :=
  {| clock := clock w; ticks := ticks w; random := random w; draws := draws w;
     abort := abort w; table := table w; sent := sent w; ddbFault := f;
     inFlight := inFlight w |}.

Definition withInFlight (w : World) (l : list (nat * Storage.Command)) : World :=
  {| clock := clock w; ticks := ticks w; random := random w; draws := draws w;
     abort := abort w; table := table w; sent := sent w; ddbFault := ddbFault w;
     inFlight := l |}.

(** Computations that read and change a state [S] and may throw; the state
    reached when an exception is thrown is kept, as in JavaScript. *)
Definition M (S A : Type) : Type := S -> Outcome A * S.

Module Run.

Definition ret {S A} (a : A) : M S A := fun s => (Ok a, s).

Definition bind {S A B} (m : M S A) (k : A -> M S B) : M S B :=
  fun s =>
    match m s with
    | (Ok a, s') => k a s'
    | (Throw e, s') => (Throw e, s')
    end.

Definition tryCatch {S A} (m : M S A) (h : JsError -> M S A) : M S A :=
  fun s =>
    match m s with
    | (Ok a, s') => (Ok a, s')
    | (Throw e, s') => h e s'
    end.

(** An [await] on a promise that settles as [o]. *)
Definition await {S A} (o : Outcome A) : M S A := fun s => (o, s).

(** [p.catch(h)] *)
Definition catch {A} (p : Outcome A) (h : JsError -> A) : Outcome A :=
  match p with
  | Ok a => Ok a
  | Throw e => Ok (h e)
  end.

(** A computation on the world, run where a local variable [L] is also
    in scope. *)
Definition onWorld {L A} (m : M World A) : M (World * L) A :=
  fun '(w, l) => let (o, w') := m w in (o, (w', l)).

(** A block in which the local variable starts as [l]; its final value
    comes out with the result. *)
Definition withLocal {L A} (l : L) (m : M (World * L) A) : M World (A * L) :=
  fun w =>
    match m (w, l) with
    | (Ok a, (w', l')) => (Ok (a, l'), w')
    | (Throw e, (w', _)) => (Throw e, w')
    end.

(** A call of an async function without [await], its promise dropped.
    [started] is the part of the body that runs at the call, up to the
    first [await] that has to wait; the caller goes on from there, and
    what the call throws reaches nobody. *)
Definition detach {A} (started : M World A) : M World unit :=
  fun w => let (_, w') := started w in (Ok tt, w').

Definition getLocal {L} : M (World * L) L := fun '(w, l) => (Ok l, (w, l)).

Definition setLocal {L} (l : L) : M (World * L) unit :=
  fun '(w, _) => (Ok tt, (w, l)).

(** [Date.now()] *)
Definition dateNow : M World Z :=
  fun w => (Ok (clock w (ticks w)), withTicks w (S (ticks w))).

(** [new Date()] *)
Definition newDate : M World Types.DateValue :=
  fun w => (Ok (Types.DateObj (Some (clock w (ticks w)))),
            withTicks w (S (ticks w))).

(** [Math.random().toString(36).substring(2, 9)] *)
Definition randomSuffix : M World string :=
  fun w => (Ok (random w (draws w)), withDraws w (S (draws w))).

(** Step [n] of the [try] block of [runFullScan]. *)
Definition step (n : nat) : M World unit :=
  fun w =>
    match abort w with
    | Some (k, e) => if Nat.eqb k n then (Throw e, w) else (Ok tt, w)
    | None => (Ok tt, w)
    end.

End Run.

Notation "x <~ m ;; k" := (Run.bind m (fun x => k))
  (at level 61, m at next level, right associativity).

(* ================================================================== *)
(** * storage/dynamodb.ts *)
(* ================================================================== *)

Module DynamoDB.

Import Types.

Definition TABLE_NAME : string := "CloudPostureResults".
Definition GSI_NAME : string := "ScanHistoryIndex".

Definition invalidTime : JsError :=
  {| errName := "RangeError"; errText := "RangeError: Invalid time value" |}.

(** [d instanceof Date ? d.toISOString() : d] *)
Definition isoIfDate (d : DateValue) : Outcome DateValue :=
  match d with
  | DateObj (Some t) => Ok (DateStr (Js.toISOString t))
  | DateObj None => Throw invalidTime
  | DateStr s => Ok (DateStr s)
  end.

Definition isoIfDateOpt (d : option DateValue) : Outcome (option DateValue) :=
  match d with
  | Some x => y <- isoIfDate x ;; Ok (Some y)
  | None => Ok None
  end.

Definition storeFinding (f : SecurityFinding) : Outcome SecurityFinding :=
  ts <- isoIfDateOpt (timestamp f) ;;
  Ok {| resourceType := Types.resourceType f;
        resourceId := Types.resourceId f;
        checkName := checkName f;
        status := status f;
        severity := severity f;
        message := message f;
        timestamp := ts;
        region := region f |}.

Fixpoint storeFindings (fs : list SecurityFinding) : Outcome (list SecurityFinding) :=
  match fs with
  | [] => Ok []
  | f :: rest =>
      f' <- storeFinding f ;;
      rest' <- storeFindings rest ;;
      Ok (f' :: rest')
  end.

Definition prepareForStorage (scanResult : ScanResult) : Outcome Storage.StorageItem :=
  startTime' <- isoIfDate (startTime scanResult) ;;
  endTime' <- isoIfDateOpt (endTime scanResult) ;;
  scanTime' <- isoIfDate (scanTime (summary scanResult)) ;;
  findings' <- storeFindings (findings scanResult) ;;
  Ok {| Storage.scan :=
          {| scanId := scanId scanResult;
             summary :=
               {| totalResources := totalResources (summary scanResult);
                  passed := passed (summary scanResult);
                  failed := failed (summary scanResult);
                  errors := errors (summary scanResult);
                  highSeverity := highSeverity (summary scanResult);
                  criticalSeverity := criticalSeverity (summary scanResult);
                  scanTime := scanTime' |};
             findings := findings';
             startTime := startTime';
             endTime := endTime';
             scanStatus := scanStatus scanResult |};
        Storage.recordType := "SCAN";
        Storage.createdAt := startTime';
        Storage.resourceId := "METADATA" |}.

(** ** The table

    The primary key is the pair ([scanId], [resourceId]); a put replaces
    the item that has the same key. *)

Definition hasKey (id rid : string) (it : Storage.StorageItem) : bool :=
  String.eqb (scanId (Storage.scan it)) id && String.eqb (Storage.resourceId it) rid.

Definition putItem (it : Storage.StorageItem) (tbl : list Storage.StorageItem) : list Storage.StorageItem :=
  (filter (fun x => negb (hasKey (scanId (Storage.scan it)) (Storage.resourceId it) x)) tbl ++ [it])%list.

Definition getItem (id rid : string) (tbl : list Storage.StorageItem) : option Storage.StorageItem :=
  find (hasKey id rid) tbl.

(** The sort key of an item in the index: the string in [createdAt]. *)
Definition sortKey (it : Storage.StorageItem) : string :=
  match Storage.createdAt it with
  | DateStr s => s
  | DateObj _ => EmptyString
  end.

(** Modelled from the spec: the key schema of the index
    [ScanHistoryIndex] is not in the sources.  The spec gives it a
    partition on the record type and "a secondary sort dimension for
    latest queries keyed by creation time descending", with
    "ties broken by insertion order": of the items with the greatest
    [createdAt], in the order of strings, the one written last comes
    first. *)
Fixpoint newest (items : list Storage.StorageItem) : option Storage.StorageItem :=
  match items with
  | [] => None
  | x :: rest =>
      match newest rest with
      | Some y => if String.ltb (sortKey y) (sortKey x) then Some x else Some y
      | None => Some x
      end
  end.

(** [Items] of the query [recordType = :pk], [ScanIndexForward: false],
    [Limit: 1]. *)
Definition queryNewest (pk : string) (tbl : list Storage.StorageItem) : list Storage.StorageItem :=
  match newest (filter (fun it => String.eqb (Storage.recordType it) pk) tbl) with
  | Some x => [x]
  | None => []
  end.

(** [ddbClient.send(command)]: the command is logged; it fails when the
    world says so, and otherwise acts on the table. *)
Definition send {A} (command : Storage.Command) (act : list Storage.StorageItem -> A * list Storage.StorageItem)
  : M World A :=
  fun w =>
    let w' := withSent w (command :: sent w) in
    match ddbFault w (List.length (sent w)) with
    | Some e => (Throw e, w')
    | None => let (a, tbl) := act (table w) in (Ok a, withTable w' tbl)
    end.

(** [ddbClient.send(command)] in a call that nobody awaits: the command
    is sent and logged, and the answer comes after the caller has gone
    on. *)
Definition sendLater (command : Storage.Command) : M World unit :=
  fun w =>
    (Ok tt,
     withInFlight (withSent w (command :: sent w))
       (inFlight w ++ [(List.length (sent w), command)])%list).

(** What a command does to the table when the store accepts it. *)
Definition effect (command : Storage.Command) (tbl : list Storage.StorageItem)
  : list Storage.StorageItem :=
  match command with
  | Storage.PutItemCommand item => putItem item tbl
  | Storage.GetItemCommand _ _ => tbl
  | Storage.QueryCommand _ _ => tbl
  end.

(** The answer to a command in flight: nothing when the command fails,
    its effect on the table otherwise. *)
Definition answered (fault : nat -> option JsError) (tbl : list Storage.StorageItem)
    (c : nat * Storage.Command) : list Storage.StorageItem :=
  match fault (fst c) with
  | Some _ => tbl
  | None => effect (snd c) tbl
  end.

(** The commands in flight are answered, in the order in which they were
    sent.  The client does not fix when this happens with respect to
    the commands that it sends later: a statement says so by where it
    puts [settle]. *)
Definition settle (w : World) : World :=
  withInFlight
    (withTable w (fold_left (answered (ddbFault w)) (inFlight w) (table w)))
    [].

(** [await saveScanResult(scanResult)].  [marshall] with
    [removeUndefinedValues] and [unmarshall] are the identity on items:
    an absent optional field stays absent. *)
Definition saveScanResult (scanResult : ScanResult) : M World unit :=
  Run.tryCatch
    (item <~ Run.await (prepareForStorage scanResult) ;;
     send (Storage.PutItemCommand item) (fun tbl => (tt, putItem item tbl)))
    (fun err => Run.ret tt).

(** [saveScanResult(scanResult)] called without [await], as
    [runFullScan] calls it: the body runs up to its [await], where the
    put has been sent.  The rest of the body runs when the answer comes
    ([settle]); it only logs, and a rejection is caught there. *)
Definition saveScanResultStarted (scanResult : ScanResult) : M World unit :=
  Run.tryCatch
    (item <~ Run.await (prepareForStorage scanResult) ;;
     sendLater (Storage.PutItemCommand item))
    (fun err => Run.ret tt).

Definition getLatestScanResult : M World (option Storage.StorageItem) :=
  Run.tryCatch
    (Items <~ send (Storage.QueryCommand GSI_NAME "SCAN")
                   (fun tbl => (queryNewest "SCAN" tbl, tbl)) ;;
     match Items with
     | [] => Run.ret None
     | item0 :: _ => Run.ret (Some item0)
     end)
    (fun err => Run.ret None).

Definition getScanResult (scanId : string) : M World (option Storage.StorageItem) :=
  Run.tryCatch
    (Item <~ send (Storage.GetItemCommand scanId "METADATA")
                  (fun tbl => (getItem scanId "METADATA" tbl, tbl)) ;;
     match Item with
     | None => Run.ret None
     | Some item => Run.ret (Some item)
     end)
    (fun err => Run.ret None).

End DynamoDB.

(* ================================================================== *)
(** * services/scanService.ts *)
(* ================================================================== *)

Module ScanService.

Import Types.

Definition generateScanId : M World string :=
  now <~ Run.dateNow ;;
  suffix <~ Run.randomSuffix ;;
  Run.ret ("scan-" ++ Js.showZ now ++ "-" ++ suffix).

Definition calculateSummary (findings : list SecurityFinding) : M World ScanSummary :=
  let passed :=
    List.length (filter (fun f => statusEqb (status f) PASS) findings) in
  let failed :=
    List.length (filter (fun f => statusEqb (status f) FAIL) findings) in
  let errors :=
    List.length (filter (fun f => statusEqb (status f) ERROR) findings) in
  let highSeverity :=
    List.length (filter (fun f => statusEqb (status f) FAIL
                                  && severityEqb (severity f) HIGH) findings) in
  let criticalSeverity :=
    List.length (filter (fun f => statusEqb (status f) FAIL
                                  && severityEqb (severity f) CRITICAL) findings) in
  scanTime <~ Run.newDate ;;
  Run.ret {| totalResources := List.length findings;
             passed := passed;
             failed := failed;
             errors := errors;
             highSeverity := highSeverity;
             criticalSeverity := criticalSeverity;
             scanTime := scanTime |}.

(** [finding.timestamp = timestamp] *)
Definition setTimestamp (timestamp : DateValue) (finding : SecurityFinding)
  : SecurityFinding :=
  {| resourceType := resourceType finding;
     resourceId := resourceId finding;
     checkName := checkName finding;
     status := status finding;
     severity := severity finding;
     message := message finding;
     timestamp := Some timestamp;
     region := region finding |}.

Definition setFindings (r : ScanResult) (fs : list SecurityFinding) : ScanResult :=
  {| scanId := scanId r; summary := summary r; findings := fs;
     startTime := startTime r; endTime := endTime r; scanStatus := scanStatus r |}.

Definition setSummary (r : ScanResult) (s : ScanSummary) : ScanResult :=
  {| scanId := scanId r; summary := s; findings := findings r;
     startTime := startTime r; endTime := endTime r; scanStatus := scanStatus r |}.

Definition setEndTime (r : ScanResult) (d : DateValue) : ScanResult :=
  {| scanId := scanId r; summary := summary r; findings := findings r;
     startTime := startTime r; endTime := Some d; scanStatus := scanStatus r |}.

Definition setStatus (r : ScanResult) (s : ScanStatus) : ScanResult :=
  {| scanId := scanId r; summary := summary r; findings := findings r;
     startTime := startTime r; endTime := endTime r; scanStatus := s |}.

(** [Promise.all] of the four scanner promises, each with its [.catch]
    handler, so that none of the four rejects. *)
Definition scanAll (cloud : Cloud)
  : Outcome (list SecurityFinding * list SecurityFinding
             * list SecurityFinding * list SecurityFinding) :=
  s3Findings <- Run.catch (S3Scanner.scanS3Buckets (s3Client cloud)) (fun err => []) ;;
  ec2Findings <- Run.catch (EC2Scanner.scanEC2 (ec2Client cloud)) (fun err => []) ;;
  iamFindings <- Run.catch (IAMScanner.scanIAM (iamClient cloud)) (fun err => []) ;;
  rdsFindings <- Run.catch (RDSScanner.scanRDS (rdsClient cloud)) (fun err => []) ;;
  Ok (s3Findings, ec2Findings, iamFindings, rdsFindings).

(** The [try] block of [runFullScan]; the local variable is
    [scanResult].  The steps 0, 1 and 2 are the places where the world
    may raise: while the scanners are awaited, while the findings are
    combined and counted, and while the completed scan is logged. *)
Definition scanBody (cloud : Cloud) : M (World * ScanResult) unit :=
  _ <~ Run.onWorld (Run.step 0) ;;
  all <~ Run.await (scanAll cloud) ;;
  let '(s3Findings, ec2Findings, iamFindings, rdsFindings) := all in
  let allFindings :=
    (s3Findings ++ ec2Findings ++ iamFindings ++ rdsFindings)%list in
  timestamp <~ Run.onWorld Run.newDate ;;
  let allFindings := map (setTimestamp timestamp) allFindings in
  _ <~ Run.onWorld (Run.step 1) ;;
  summary <~ Run.onWorld (calculateSummary allFindings) ;;
  scanResult <~ Run.getLocal ;;
  _ <~ Run.setLocal (setFindings scanResult allFindings) ;;
  scanResult <~ Run.getLocal ;;
  _ <~ Run.setLocal (setSummary scanResult summary) ;;
  endTime <~ Run.onWorld Run.newDate ;;
  scanResult <~ Run.getLocal ;;
  _ <~ Run.setLocal (setEndTime scanResult endTime) ;;
  scanResult <~ Run.getLocal ;;
  _ <~ Run.setLocal (setStatus scanResult completed) ;;
  Run.onWorld (Run.step 2).

(** The [catch] block of [runFullScan]. *)
Definition scanFailed (error : JsError) : M (World * ScanResult) unit :=
  scanResult <~ Run.getLocal ;;
  _ <~ Run.setLocal (setStatus scanResult failed_) ;;
  endTime <~ Run.onWorld Run.newDate ;;
  scanResult <~ Run.getLocal ;;
  Run.setLocal (setEndTime scanResult endTime).

Definition runFullScan (cloud : Cloud) : M World ScanResult :=
  scanId <~ generateScanId ;;
  startTime <~ Run.newDate ;;
  let scanResult :=
    {| scanId := scanId;
       summary := {| totalResources := 0;
                     passed := 0;
                     failed := 0;
                     errors := 0;
                     highSeverity := 0;
                     criticalSeverity := 0;
                     scanTime := startTime |};
       findings := [];
       startTime := startTime;
       endTime := None;
       scanStatus := running |} in
  done <~ Run.withLocal scanResult
            (Run.tryCatch (scanBody cloud) scanFailed) ;;
  let scanResult := snd done in
  _ <~ Run.detach (DynamoDB.saveScanResultStarted scanResult) ;;
  Run.ret scanResult.

Definition getLatestScan : M World (option Storage.StorageItem) :=
  latestScanResult <~ DynamoDB.getLatestScanResult ;;
  match latestScanResult with
  | None => Run.ret None
  | Some r => Run.ret (Some r)
  end.

Definition getLatestSummary : M World (option ScanSummary) :=
  latest <~ getLatestScan ;;
  Run.ret (match latest with
           | Some r => Some (summary (Storage.scan r))
           | None => None
           end).

End ScanService.

(* ================================================================== *)
(** * Views of a run used by the statements *)
(* ================================================================== *)

Section Views.

Import Types.

(** What a scanner hands to the orchestrator once its [.catch] handler
    is attached. *)
Definition settled (o : Outcome (list SecurityFinding)) : list SecurityFinding :=
  match o with
  | Ok fs => fs
  | Throw _ => []
  end.

Definition collected (cloud : Cloud) : list SecurityFinding :=
  (settled (S3Scanner.scanS3Buckets (s3Client cloud))
   ++ settled (EC2Scanner.scanEC2 (ec2Client cloud))
   ++ settled (IAMScanner.scanIAM (iamClient cloud))
   ++ settled (RDSScanner.scanRDS (rdsClient cloud)))%list.

Definition countStatus (s : CheckStatus) (fs : list SecurityFinding) : nat :=
  List.length (filter (fun f => statusEqb (status f) s) fs).

Definition countFailedWith (v : Severity) (fs : list SecurityFinding) : nat :=
  List.length
    (filter (fun f => statusEqb (status f) FAIL && severityEqb (severity f) v) fs).

Definition summaryOf (fs : list SecurityFinding) (t : DateValue) : ScanSummary :=
  {| totalResources := List.length fs;
     passed := countStatus PASS fs;
     failed := countStatus FAIL fs;
     errors := countStatus ERROR fs;
     highSeverity := countFailedWith HIGH fs;
     criticalSeverity := countFailedWith CRITICAL fs;
     scanTime := t |}.

(** The [k]-th next reading of the clock, as a date. *)
Definition reading (w : World) (k : nat) : DateValue :=
  DateObj (Some (clock w (k + ticks w))).

Definition stamped (cloud : Cloud) (w : World) : list SecurityFinding :=
  map (ScanService.setTimestamp (reading w 0)) (collected cloud).

Definition completedScan (cloud : Cloud) (w : World) (r0 : ScanResult) : ScanResult :=
  ScanService.setStatus
    (ScanService.setEndTime
       (ScanService.setSummary
          (ScanService.setFindings r0 (stamped cloud w))
          (summaryOf (stamped cloud w) (reading w 1)))
       (reading w 2))
    completed.

Definition failedScan (r : ScanResult) (t : DateValue) : ScanResult :=
  ScanService.setEndTime (ScanService.setStatus r failed_) t.

(** The scan result left by the [try] / [catch] of [runFullScan], and
    the number of clock readings it takes. *)
Definition tryOutcome (cloud : Cloud) (w : World) (r0 : ScanResult)
  : ScanResult * nat :=
  match abort w with
  | Some (0%nat, _) => (failedScan r0 (reading w 0), 1%nat)
  | Some (1%nat, _) => (failedScan r0 (reading w 1), 2%nat)
  | Some (2%nat, _) => (failedScan (completedScan cloud w r0) (reading w 3), 4%nat)
  | _ => (completedScan cloud w r0, 3%nat)
  end.

(** The scan result with which [runFullScan] enters its [try] block. *)
Definition initialScan (w : World) : ScanResult :=
  {| scanId := "scan-" ++ Js.showZ (clock w (ticks w)) ++ "-" ++ random w (draws w);
     summary := {| totalResources := 0;
                   passed := 0;
                   failed := 0;
                   errors := 0;
                   highSeverity := 0;
                   criticalSeverity := 0;
                   scanTime := reading w 1 |};
     findings := [];
     startTime := reading w 1;
     endTime := None;
     scanStatus := running |}.

(** The world in which the [try] block starts: one reading for the
    identifier, one for the start time, one random draw. *)
Definition started (w : World) : World :=
  withTicks (withDraws w (S (draws w))) (2 + ticks w).

Definition scanOf (cloud : Cloud) (w : World) : ScanResult :=
  fst (tryOutcome cloud (started w) (initialScan w)).

Definition beforeSave (cloud : Cloud) (w : World) : World :=
  withTicks (started w)
    (snd (tryOutcome cloud (started w) (initialScan w)) + ticks (started w)).

(** ** The store's side of a save *)

Definition afterPut (item : Storage.StorageItem) (w : World) : World :=
  let w' := withSent w (Storage.PutItemCommand item :: sent w) in
  match ddbFault w (List.length (sent w)) with
  | Some _ => w'
  | None => withTable w' (DynamoDB.putItem item (table w))
  end.

(** The world in which the put of [item] has been sent by a call that
    nobody awaits, and is not answered yet. *)
Definition putPending (item : Storage.StorageItem) (w : World) : World :=
  withInFlight (withSent w (Storage.PutItemCommand item :: sent w))
    (inFlight w ++ [(List.length (sent w), Storage.PutItemCommand item)])%list.

(** No date field holds an invalid [Date]. *)
Definition dateOk (d : DateValue) : bool :=
  match d with
  | DateObj None => false
  | _ => true
  end.

Definition dateOptOk (d : option DateValue) : bool :=
  match d with
  | Some x => dateOk x
  | None => true
  end.

Definition storable (r : ScanResult) : bool :=
  dateOk (startTime r) && dateOptOk (endTime r) && dateOk (scanTime (summary r))
  && forallb (fun f => dateOptOk (timestamp f)) (findings r).

(** ** Dates

    The instants whose ISO year has four digits: from the first instant
    of year 0 up to the first instant of year 10000. *)
Definition isoFirst : Z := -62167219200000.

Definition isoLimit : Z := 253402300800000.

Definition fourDigitYear (t : Z) : Prop := isoFirst <= t < isoLimit.

(** The steps of [Js.civilFromDays], one by one. *)
Definition eraOf (day : Z) : Z := (day + 719468) / 146097.

Definition doeOf (day : Z) : Z := (day + 719468) mod 146097.

Definition yoeOf (doe : Z) : Z :=
  (doe - doe / 1460 + doe / 36524 - doe / 146096) / 365.

Definition doyOf (doe : Z) : Z :=
  doe - (365 * yoeOf doe + yoeOf doe / 4 - yoeOf doe / 100).

Definition mpOf (doy : Z) : Z := (5 * doy + 2) / 153.

Definition domOf (doy : Z) : Z := doy - (153 * mpOf doy + 2) / 5 + 1.

Definition monthOf (mp : Z) : Z := if mp <? 10 then mp + 3 else mp - 9.

Definition carryOf (mp : Z) : Z := if monthOf mp <=? 2 then 1 else 0.

Definition yearOfDay (day : Z) : Z :=
  yoeOf (doeOf day) + eraOf day * 400 + carryOf (mpOf (doyOf (doeOf day))).

Definition monthOfDay (day : Z) : Z := monthOf (mpOf (doyOf (doeOf day))).

Definition dateOfDay (day : Z) : Z := domOf (doyOf (doeOf day)).

(** The order of dates. *)
Definition dateLt (a b : Z * Z * Z) : Prop :=
  let '(y, m, d) := a in
  let '(y', m', d') := b in
  y < y' \/ (y = y' /\ (m < m' \/ (m = m' /\ d < d'))).

(** A field of fixed width, and a separator, in front of the rest of a
    string. *)
Definition field (width : nat) (n : Z) (rest : string) : string :=
  Js.pad width n ++ rest.

Definition sep (c : ascii) (rest : string) : string := String c rest.

(** ** The stored form of a scan result

    What [prepareForStorage] makes of a date, of a finding and of a scan
    result when no date is invalid. *)
Definition isoView (d : DateValue) : DateValue :=
  match d with
  | DateObj (Some t) => DateStr (Js.toISOString t)
  | other => other
  end.

Definition storedFinding (f : SecurityFinding) : SecurityFinding :=
  {| resourceType := resourceType f;
     resourceId := Types.resourceId f;
     checkName := checkName f;
     status := status f;
     severity := severity f;
     message := message f;
     timestamp := option_map isoView (timestamp f);
     region := region f |}.

Definition storedForm (r : ScanResult) : ScanResult :=
  {| scanId := scanId r;
     summary :=
       {| totalResources := totalResources (summary r);
          passed := passed (summary r);
          failed := failed (summary r);
          errors := errors (summary r);
          highSeverity := highSeverity (summary r);
          criticalSeverity := criticalSeverity (summary r);
          scanTime := isoView (scanTime (summary r)) |};
     findings := map storedFinding (findings r);
     startTime := isoView (startTime r);
     endTime := option_map isoView (endTime r);
     scanStatus := scanStatus r |}.

Definition storedItem (r : ScanResult) : Storage.StorageItem :=
  {| Storage.scan := storedForm r;
     Storage.recordType := "SCAN";
     Storage.createdAt := isoView (startTime r);
     Storage.resourceId := "METADATA" |}.

(** The time values of the valid dates: at most 8.64e15 milliseconds
    from the epoch, the years -271821 to 275760. *)
Definition validTime (t : Z) : Prop :=
  -8640000000000000 <= t <= 8640000000000000.

(** A date field that holds a valid [Date] object. *)
Definition validDate (d : DateValue) : Prop :=
  exists t, d = DateObj (Some t) /\ validTime t.

Definition validDateOpt (d : option DateValue) : Prop :=
  match d with
  | Some x => validDate x
  | None => True
  end.

(** Every date field of the scan result holds a valid [Date] object. *)
Definition validDates (r : ScanResult) : Prop :=
  validDate (startTime r)
  /\ validDateOpt (endTime r)
  /\ validDate (scanTime (summary r))
  /\ Forall (fun f => validDateOpt (timestamp f)) (findings r).

(** The item was written for a scan started at the instant [t] of a
    four-digit year. *)
Definition startedAt (it : Storage.StorageItem) (t : Z) : Prop :=
  Storage.recordType it = "SCAN"
  /\ Storage.createdAt it = DateStr (Js.toISOString t)
  /\ startTime (Storage.scan it) = DateStr (Js.toISOString t)
  /\ fourDigitYear t.

(** [saveScanResult a] and then [b] *)
Definition saveThen {A} (r : ScanResult) (k : M World A) : M World A :=
  Run.bind (DynamoDB.saveScanResult r) (fun _ => k).

(** No command among the next [n] fails. *)
Definition storeUp (w : World) (n : nat) : Prop :=
  forall k, (k < n)%nat -> ddbFault w (k + List.length (sent w)) = None.

(** The four providers, and the provider that a finding belongs to by
    its resource type: the EC2 scanner reports on instances and on
    security groups. *)
Inductive Provider := ProvS3 | ProvEC2 | ProvIAM | ProvRDS.

Definition providerOf (f : SecurityFinding) : Provider :=
  match resourceType f with
  | S3 => ProvS3
  | EC2 | SECURITY_GROUP => ProvEC2
  | IAM => ProvIAM
  | RDS => ProvRDS
  end.

Definition providerEqb (a b : Provider) : bool :=
  match a, b with
  | ProvS3, ProvS3 | ProvEC2, ProvEC2 | ProvIAM, ProvIAM | ProvRDS, ProvRDS => true
  | _, _ => false
  end.

(** The findings of a scan that belong to provider [p]. *)
Definition contributed (p : Provider) (fs : list SecurityFinding)
  : list SecurityFinding :=
  filter (fun f => providerEqb (providerOf f) p) fs.

(** The collection step of the scanner of [p] rejects with [e]. *)
Definition collectionRaises (cloud : Cloud) (p : Provider) (e : JsError) : Prop :=
  match p with
  | ProvS3 => AwsS3.getAllBucketsInfo (s3Client cloud) = Throw e
  | ProvEC2 => AwsEC2.getEC2SecurityInfo (ec2Client cloud) = Throw e
  | ProvIAM => IAMScanner.collect (iamClient cloud) = Throw e
  | ProvRDS => AwsRDS.getAllRDSInfo (rdsClient cloud) = Throw e
  end.

Definition scanner (p : Provider) (cloud : Cloud) : Outcome (list SecurityFinding) :=
  match p with
  | ProvS3 => S3Scanner.scanS3Buckets (s3Client cloud)
  | ProvEC2 => EC2Scanner.scanEC2 (ec2Client cloud)
  | ProvIAM => IAMScanner.scanIAM (iamClient cloud)
  | ProvRDS => RDSScanner.scanRDS (rdsClient cloud)
  end.

Definition scanError (p : Provider) (e : JsError) : SecurityFinding :=
  match p with
  | ProvS3 => S3Scanner.scanError e
  | ProvEC2 => EC2Scanner.scanError e
  | ProvIAM => IAMScanner.scanError e
  | ProvRDS => RDSScanner.scanError e
  end.

Definition sentinel (p : Provider) : string :=
  match p with
  | ProvS3 => "S3-SCANNER"
  | ProvEC2 => "EC2-SCANNER"
  | ProvIAM => "IAM-SCANNER"
  | ProvRDS => "RDS-SCANNER"
  end.

(** Two clouds that answer alike to every provider but [p]. *)
Definition sameElsewhere (p : Provider) (a b : Cloud) : Prop :=
  (p <> ProvS3 -> s3Client a = s3Client b)
  /\ (p <> ProvEC2 -> ec2Client a = ec2Client b)
  /\ (p <> ProvIAM -> iamClient a = iamClient b)
  /\ (p <> ProvRDS -> rdsClient a = rdsClient b).

(** The world raises before the orchestrator has combined the
    findings. *)
Definition abortsEarly (w : World) : bool :=
  match abort w with
  | Some (0%nat, _) | Some (1%nat, _) => true
  | _ => false
  end.

(** [s] occurs in [t]. *)
Definition contains (t s : string) : Prop :=
  exists pre post, t = pre ++ s ++ post.

(** A finding that passes has the lowest severity. *)
Definition passLow (f : SecurityFinding) : Prop :=
  status f = PASS -> severity f = LOW.

End Views.

(* ================================================================== *)
(** * A sample account and sample worlds *)
(* ================================================================== *)

Section Samples.

Import Types.

Definition accessDenied : JsError :=
  {| errName := "AccessDenied"; errText := "AccessDenied: not authorized" |}.

(** One bucket with every public-access flag set, no encryption lookup
    allowed, versioning on. *)
Definition sampleS3 : AwsS3.Client :=
  {| AwsS3.ListBuckets :=
       Ok (Some [ {| AwsS3.Name := Some "logs"; AwsS3.CreationDate := None |} ]);
     AwsS3.GetBucketLocation := fun _ => Ok (Some "eu-west-1");
     AwsS3.GetBucketEncryption := fun _ => Throw accessDenied;
     AwsS3.GetBucketVersioning :=
       fun _ => Ok {| AwsS3.Status := Some "Enabled"; AwsS3.MFADelete := None |};
     AwsS3.GetPublicAccessBlock :=
       fun _ => Ok (Some {| AwsS3.BlockPublicAcls := Some true;
                            AwsS3.BlockPublicPolicy := Some true;
                            AwsS3.IgnorePublicAcls := Some true;
                            AwsS3.RestrictPublicBuckets := Some true |}) |}.

(** SSH open to the world over IPv4, everything open to a private
    range. *)
Definition samplePermissions : list AwsEC2.IpPermission :=
  [ {| AwsEC2.IpProtocol := Some "tcp";
       AwsEC2.FromPort := Some 22;
       AwsEC2.ToPort := Some 22;
       AwsEC2.IpRanges := Some [ {| AwsEC2.CidrIp := Some "0.0.0.0/0" |} ];
       AwsEC2.Ipv6Ranges := None |};
    {| AwsEC2.IpProtocol := Some "-1";
       AwsEC2.FromPort := None;
       AwsEC2.ToPort := None;
       AwsEC2.IpRanges := Some [ {| AwsEC2.CidrIp := Some "10.0.0.0/8" |} ];
       AwsEC2.Ipv6Ranges := None |} ].

Definition privateRule : AwsEC2.SecurityGroupRule :=
  {| AwsEC2.protocol := "-1";
     AwsEC2.fromPort := None;
     AwsEC2.toPort := None;
     AwsEC2.source := "10.0.0.0/8";
     AwsEC2.isOpenToWorld_ := false |}.


Definition sampleEC2 : AwsEC2.Client :=
  {| AwsEC2.DescribeInstances := Ok None;
     AwsEC2.DescribeSecurityGroups :=
       Ok (Some [ {| AwsEC2.GroupId := Some "sg-1";
                     AwsEC2.GroupName := Some "web";
                     AwsEC2.Description := None;
                     AwsEC2.VpcId := None;
                     AwsEC2.IpPermissions := Some samplePermissions |} ]);
     AwsEC2.groupsSettleFirst := false |}.

(** The listing of users is refused. *)
Definition sampleIAM : AwsIAM.Client :=
  {| AwsIAM.ListUsers := Throw accessDenied;
     AwsIAM.ListMFADevices := fun _ => Ok None;
     AwsIAM.GetLoginProfile := fun _ => Ok tt;
     AwsIAM.ListAttachedUserPolicies := fun _ => Ok None;
     AwsIAM.ListUserPolicies := fun _ => Ok None;
     AwsIAM.GetAccountSummary := Ok None;
     AwsIAM.summarySettlesFirst := false |}.

Definition sampleRDS : AwsRDS.Client :=
  {| AwsRDS.DescribeDBInstances := Ok None |}.

Definition sampleCloud : Cloud :=
  {| s3Client := sampleS3;
     ec2Client := sampleEC2;
     iamClient := sampleIAM;
     rdsClient := sampleRDS |}.

(** A world with an empty table and a store that answers; the clock
    starts on 14 November 2023 and gains a millisecond per reading. *)
Definition sampleWorld : World :=
  {| clock := fun n => 1700000000000 + Z.of_nat n;
     ticks := 0;
     random := fun _ => "k3x9q2a";
     draws := 0;
     abort := None;
     table := [];
     sent := [];
     ddbFault := fun _ => None;
     inFlight := [] |}.

(** The same world, in which the runtime raises while the findings are
    combined. *)
Definition abortedWorld : World :=
  {| clock := clock sampleWorld;
     ticks := 0;
     random := random sampleWorld;
     draws := 0;
     abort := Some (1%nat, accessDenied);
     table := [];
     sent := [];
     ddbFault := fun _ => None;
     inFlight := [] |}.

Definition emptySummary (t : DateValue) : ScanSummary :=
  {| totalResources := 0;
     passed := 0;
     failed := 0;
     errors := 0;
     highSeverity := 0;
     criticalSeverity := 0;
     scanTime := t |}.

(** A scan with no finding, started at the instant [t]. *)
Definition scanStartedAt (id : string) (t : Z) (s : ScanStatus) : ScanResult :=
  {| scanId := id;
     summary := emptySummary (DateObj (Some t));
     findings := [];
     startTime := DateObj (Some t);
     endTime := Some (DateObj (Some t));
     scanStatus := s |}.

(** 14 November 2023, and the first instant of the year 10000. *)
Definition scanOf2023 : ScanResult :=
  scanStartedAt "scan-1700000000000-k3x9q2a" 1700000000000 completed.

Definition scanOf10000 : ScanResult :=
  scanStartedAt "scan-253402300800000-k3x9q2a" 253402300800000 failed_.

Definition laterScan : ScanResult :=
  scanStartedAt "scan-1700000000500-k3x9q2a" 1700000000500 failed_.

(** A world whose table holds one scan and whose store refuses every
    command. *)
Definition storeDownWorld : World :=
  {| clock := clock sampleWorld;
     ticks := 0;
     random := random sampleWorld;
     draws := 0;
     abort := None;
     table := [storedItem scanOf2023];
     sent := [];
     ddbFault := fun _ => Some accessDenied;
     inFlight := [] |}.

End Samples.

(* ================================================================== *)
(** * routes/scanRoutes.ts *)
(* ================================================================== *)

Module ScanRoutes.

Import Types.

(** What a handler sends: [res.status(statusCode).json(body)], the body
    with the fields [success], [message], [data] and [error]. *)
Record Response (A : Type) := {
  statusCode : Z;
  success : bool;
  message : option string;
  data : option A;
  error : option string
}.
Arguments statusCode {A} _.
Arguments success {A} _.
Arguments message {A} _.
Arguments data {A} _.
Arguments error {A} _.

(** [POST /scan] *)
Definition postScan (cloud : Cloud) : M World (Response ScanResult) :=
  Run.tryCatch
    (result <~ ScanService.runFullScan cloud ;;
     Run.ret {| statusCode := 200;
                success := true;
                message := Some "Scan completed successfully";
                data := Some result;
                error := None |})
    (fun err =>
       Run.ret {| statusCode := 500;
                  success := false;
                  message := Some "Failed to run security scan";
                  data := None;
                  error := Some (errText err) |}).

(** [GET /results] *)
Definition getResults : M World (Response Storage.StorageItem) :=
  Run.tryCatch
    (result <~ ScanService.getLatestScan ;;
     match result with
     | None =>
         Run.ret {| statusCode := 404;
                    success := false;
                    message := Some "No scan results found. Run a scan first.";
                    data := None;
                    error := None |}
     | Some r =>
         Run.ret {| statusCode := 200;
                    success := true;
                    message := None;
                    data := Some r;
                    error := None |}
     end)
    (fun err =>
       Run.ret {| statusCode := 500;
                  success := false;
                  message := Some "Failed to get scan results";
                  data := None;
                  error := Some (errText err) |}).

End ScanRoutes.

(* ================================================================== *)
(** * The catalog of rules (CIS_RULES) *)
(* ================================================================== *)

Module Rules.

Import Types.

Record SecurityRule := {
  id : string;
  name : string;
  description : string;
  resourceType : ResourceType;
  severity : Severity;
  category : string;
  recommendation : string
}.

Definition CIS_RULES : list SecurityRule :=
  [ {| id := "CIS-1.5";
       name := "Root Account MFA";
       description := "Ensure MFA is enabled for the root user account";
       resourceType := IAM;
       severity := CRITICAL;
       category := "Identity and Access Management";
       recommendation := "Enable MFA for the root account in the IAM console" |};
    {| id := "CIS-1.10";
       name := "IAM User MFA";
       description := "Ensure MFA is enabled for all IAM users with console access";
       resourceType := IAM;
       severity := HIGH;
       category := "Identity and Access Management";
       recommendation := "Enable MFA for all IAM users through the IAM console" |};
    {| id := "CIS-1.16";
       name := "Admin Access Review";
       description := "Ensure IAM policies are attached only to groups or roles";
       resourceType := IAM;
       severity := MEDIUM;
       category := "Identity and Access Management";
       recommendation :=
         "Review users with admin access and use least privilege principle" |};
    {| id := "CIS-2.1.1";
       name := "S3 Public Access";
       description := "Ensure S3 bucket public access is blocked";
       resourceType := S3;
       severity := HIGH;
       category := "Storage";
       recommendation := "Enable 'Block all public access' setting on S3 buckets" |};
    {| id := "CIS-2.1.2";
       name := "S3 Encryption";
       description := "Ensure S3 bucket server-side encryption is enabled";
       resourceType := S3;
       severity := MEDIUM;
       category := "Storage";
       recommendation :=
         "Enable default encryption on S3 buckets using SSE-S3 or SSE-KMS" |};
    {| id := "CIS-2.1.3";
       name := "S3 Versioning";
       description := "Ensure S3 bucket versioning is enabled";
       resourceType := S3;
       severity := LOW;
       category := "Storage";
       recommendation := "Enable versioning on S3 buckets for data protection" |};
    {| id := "CIS-5.1";
       name := "Security Group SSH Restriction";
       description :=
         "Ensure no security groups allow ingress from 0.0.0.0/0 to port 22";
       resourceType := SECURITY_GROUP;
       severity := HIGH;
       category := "Networking";
       recommendation := "Restrict SSH access to specific IP addresses" |};
    {| id := "CIS-5.2";
       name := "Security Group RDP Restriction";
       description :=
         "Ensure no security groups allow ingress from 0.0.0.0/0 to port 3389";
       resourceType := SECURITY_GROUP;
       severity := HIGH;
       category := "Networking";
       recommendation := "Restrict RDP access to specific IP addresses" |};
    {| id := "CIS-5.3";
       name := "Security Group Unrestricted Access";
       description := "Ensure security groups do not allow unrestricted ingress";
       resourceType := SECURITY_GROUP;
       severity := MEDIUM;
       category := "Networking";
       recommendation :=
         "Review and restrict ingress rules to specific IPs and ports" |};
    {| id := "CIS-2.3.1";
       name := "RDS Public Accessibility";
       description := "Ensure RDS instances are not publicly accessible";
       resourceType := RDS;
       severity := HIGH;
       category := "Database";
       recommendation := "Disable public accessibility for RDS instances" |};
    {| id := "CIS-2.3.2";
       name := "RDS Encryption";
       description := "Ensure RDS instances have encryption at rest enabled";
       resourceType := RDS;
       severity := MEDIUM;
       category := "Database";
       recommendation := "Enable encryption when creating RDS instances" |};
    {| id := "CIS-2.3.3";
       name := "RDS Automated Backups";
       description := "Ensure RDS instances have automated backups enabled";
       resourceType := RDS;
       severity := MEDIUM;
       category := "Database";
       recommendation :=
         "Enable automated backups with appropriate retention period" |} ].

Definition resourceTypeEqb (a b : ResourceType) : bool :=
  match a, b with
  | S3, S3 | EC2, EC2 | IAM, IAM | RDS, RDS | SECURITY_GROUP, SECURITY_GROUP => true
  | _, _ => false
  end.

Definition getRuleById (ruleId : string) : option SecurityRule :=
  find (fun rule => String.eqb (id rule) ruleId) CIS_RULES.

Definition getRulesByResourceType (resourceType0 : ResourceType) : list SecurityRule :=
  filter (fun rule => resourceTypeEqb (resourceType rule) resourceType0) CIS_RULES.

Definition getRulesByCategory (category0 : string) : list SecurityRule :=
  filter (fun rule => String.eqb (category rule) category0) CIS_RULES.

End Rules.

(* ================================================================== *)
(** * The table of findings (FindingsTable) *)
(* ================================================================== *)

Module FindingsTable.

Import Types.

(** A filter is ['ALL'] ([None]) or a value. *)
Definition keeps (severityFilter : option Severity)
    (serviceFilter : option ResourceType) (statusFilter : option CheckStatus)
    (finding : SecurityFinding) : bool :=
  if match severityFilter with
     | Some s => negb (severityEqb (severity finding) s)
     | None => false
     end then false
  else if match serviceFilter with
          | Some s => negb (Rules.resourceTypeEqb (resourceType finding) s)
          | None => false
          end then false
  else if match statusFilter with
          | Some s => negb (statusEqb (status finding) s)
          | None => false
          end then false
  else true.

Definition filteredFindings (severityFilter : option Severity)
    (serviceFilter : option ResourceType) (statusFilter : option CheckStatus)
    (findings : list SecurityFinding) : list SecurityFinding :=
  filter (keeps severityFilter serviceFilter statusFilter) findings.

Definition severityOrder (s : Severity) : Z :=
  match s with
  | CRITICAL => 0
  | HIGH => 1
  | MEDIUM => 2
  | LOW => 3
  end.

Definition statusOrder (s : CheckStatus) : Z :=
  match s with
  | FAIL => 0
  | ERROR => 1
  | PASS => 2
  end.

(** The comparator given to [sort]. *)
Definition compareFindings (a b : SecurityFinding) : Z :=
  if negb (statusEqb (status a) (status b))
  then statusOrder (status a) - statusOrder (status b)
  else severityOrder (severity a) - severityOrder (severity b).

(** [Array.prototype.sort] with a comparator: a stable sort, here by
    insertion.  An element, which stood before the ones already sorted,
    goes in front of the first of them that the comparator does not put
    before it. *)
Fixpoint insertBy {A} (cmp : A -> A -> Z) (x : A) (l : list A) : list A :=
  match l with
  | [] => [x]
  | y :: rest => if cmp y x <? 0 then y :: insertBy cmp x rest else x :: l
  end.

Fixpoint sortBy {A} (cmp : A -> A -> Z) (l : list A) : list A :=
  match l with
  | [] => []
  | x :: rest => insertBy cmp x (sortBy cmp rest)
  end.

Definition sortedFindings (severityFilter : option Severity)
    (serviceFilter : option ResourceType) (statusFilter : option CheckStatus)
    (findings : list SecurityFinding) : list SecurityFinding :=
  sortBy compareFindings
    (filteredFindings severityFilter serviceFilter statusFilter findings).

End FindingsTable.

(* ================================================================== *)
(** * Views of the collectors used by the statements *)
(* ================================================================== *)

Section CollectorViews.

Import Types.

(** The names that a listing gives, the absent and the empty ones left
    out. *)
Definition named {A} (nameOf : A -> option string) (l : list A) : list string :=
  flat_map (fun x => if Js.truthyStr (nameOf x) then [Js.strOr (nameOf x) ""] else []) l.

(** What is known of a record of [getAllBucketsInfo]: each part is the
    answer of its lookup for the name of the record. *)
Definition bucketFrom (c : AwsS3.Client) (b : AwsS3.S3BucketInfo) : Prop :=
  AwsS3.name b <> ""
  /\ AwsS3.getBucketRegion c (AwsS3.name b) = Ok (AwsS3.region b)
  /\ AwsS3.getBucketEncryption c (AwsS3.name b) = Ok (AwsS3.encryption b)
  /\ AwsS3.getBucketVersioning c (AwsS3.name b) = Ok (AwsS3.versioning b)
  /\ AwsS3.getPublicAccessBlock c (AwsS3.name b) = Ok (AwsS3.publicAccess b).

(** What is known of a record of [getAllUsersInfo]: each part is the
    answer of its lookup for the name of the record. *)
Definition userFrom (c : AwsIAM.Client) (u : AwsIAM.IAMUserInfo) : Prop :=
  AwsIAM.userName u <> ""
  /\ AwsIAM.userHasMFA c (AwsIAM.userName u) = Ok (AwsIAM.hasMFA u)
  /\ AwsIAM.userHasConsoleAccess c (AwsIAM.userName u)
     = Ok (AwsIAM.hasConsoleAccess u)
  /\ (exists attached,
         AwsIAM.getUserAttachedPolicies c (AwsIAM.userName u) = Ok attached
         /\ AwsIAM.attachedPolicies u
            = map (fun p => Js.strOr (AwsIAM.PolicyArn p) "") attached)
  /\ AwsIAM.hasAdminAccess u
     = existsb AwsIAM.isAdminPolicy (AwsIAM.attachedPolicies u).

(** The resource and the check that a finding is about. *)
Definition findingKey (f : SecurityFinding) : string * string :=
  (Types.resourceId f, checkName f).

Definition s3Keys (bucketName : string) : list (string * string) :=
  [ (bucketName, "Public Access Block");
    (bucketName, "Server-Side Encryption");
    (bucketName, "Versioning") ].

Definition iamKeys (userName : string) : list (string * string) :=
  [ (userName, "MFA Enabled"); (userName, "Admin Access Check") ].

Definition rdsKeys (dbInstanceId : string) : list (string * string) :=
  [ (dbInstanceId, "Public Accessibility");
    (dbInstanceId, "Encryption at Rest");
    (dbInstanceId, "Automated Backups");
    (dbInstanceId, "Multi-AZ Deployment") ].

(** The instance is in one of the two states that the EC2 scanner looks
    at. *)
Definition scanned (i : AwsEC2.EC2InstanceInfo) : bool :=
  String.eqb (AwsEC2.state i) "running" || String.eqb (AwsEC2.state i) "stopped".

(** The permission names no address range, of either family. *)
Definition noRanges (p : AwsEC2.IpPermission) : Prop :=
  Js.listOr (AwsEC2.IpRanges p) = [] /\ Js.listOr (AwsEC2.Ipv6Ranges p) = [].

(** The number of items of the table with the key ([id], [rid]). *)
Definition copies (id rid : string) (tbl : list Storage.StorageItem) : nat :=
  List.length (filter (DynamoDB.hasKey id rid) tbl).

(** The place of a finding in the table of findings: its status first,
    its severity second. *)
Definition rank (f : SecurityFinding) : Z :=
  4 * FindingsTable.statusOrder (status f)
  + FindingsTable.severityOrder (severity f).

(** The finding has this status and this severity. *)
Definition ofClass (s : CheckStatus) (v : Severity) (f : SecurityFinding) : bool :=
  statusEqb (status f) s && severityEqb (severity f) v.

(** What a filter of the table lets through. *)
Definition selects {A} (eqb : A -> A -> bool) (choice : option A) (x : A) : bool :=
  match choice with
  | Some c => eqb x c
  | None => true
  end.

End CollectorViews.

(* ================================================================== *)
(** * A second sample account *)
(* ================================================================== *)

Section MoreSamples.

Import Types.

(** One user who signs in to the console, has no MFA device and holds
    the administrator policy. *)
Definition auditIAM : AwsIAM.Client :=
  {| AwsIAM.ListUsers :=
       Ok (Some [ {| AwsIAM.UserName := Some "alice";
                     AwsIAM.UserId := Some "AIDA1";
                     AwsIAM.Arn := Some "arn:aws:iam::1:user/alice";
                     AwsIAM.CreateDate := None;
                     AwsIAM.PasswordLastUsed := None |} ]);
     AwsIAM.ListMFADevices := fun _ => Ok None;
     AwsIAM.GetLoginProfile := fun _ => Ok tt;
     AwsIAM.ListAttachedUserPolicies :=
       fun _ => Ok (Some [ {| AwsIAM.PolicyArn :=
                                Some "arn:aws:iam::aws:policy/AdministratorAccess" |} ]);
     AwsIAM.ListUserPolicies := fun _ => Ok None;
     AwsIAM.GetAccountSummary := Ok None;
     AwsIAM.summarySettlesFirst := false |}.

(** One database, public and not encrypted, with a week of backups. *)
Definition auditRDS : AwsRDS.Client :=
  {| AwsRDS.DescribeDBInstances :=
       Ok (Some [ {| AwsRDS.DBInstanceIdentifier := Some "orders";
                     AwsRDS.DBInstanceClass := Some "db.t3.micro";
                     AwsRDS.Engine := Some "postgres";
                     AwsRDS.EngineVersion := Some "15.4";
                     AwsRDS.DBInstanceStatus := Some "available";
                     AwsRDS.PubliclyAccessible := Some true;
                     AwsRDS.StorageEncrypted := None;
                     AwsRDS.BackupRetentionPeriod := Some 7;
                     AwsRDS.MultiAZ := Some false;
                     AwsRDS.VpcSecurityGroups := None;
                     AwsRDS.Endpoint_ := None |} ]) |}.

Definition sampleInstance (id state : string) (ip : option string)
  : AwsEC2.Instance :=
  {| AwsEC2.InstanceId := Some id;
     AwsEC2.Tags := None;
     AwsEC2.SecurityGroups := None;
     AwsEC2.State := Some {| AwsEC2.Name := Some state |};
     AwsEC2.InstanceType := Some "t3.micro";
     AwsEC2.PublicIpAddress := ip;
     AwsEC2.PrivateIpAddress := None |}.

(** A running instance with a public address, a terminated one, and the
    security group of the first sample. *)
Definition auditEC2 : AwsEC2.Client :=
  {| AwsEC2.DescribeInstances :=
       Ok (Some [ {| AwsEC2.Instances :=
                       Some [ sampleInstance "i-1" "running" (Some "203.0.113.7");
                              sampleInstance "i-2" "terminated" None ] |} ]);
     AwsEC2.DescribeSecurityGroups := AwsEC2.DescribeSecurityGroups sampleEC2;
     AwsEC2.groupsSettleFirst := false |}.

Definition auditCloud : Cloud :=
  {| s3Client := sampleS3;
     ec2Client := auditEC2;
     iamClient := auditIAM;
     rdsClient := auditRDS |}.

(** What the collectors return for the two accounts. *)
Definition logsInfo : AwsS3.S3BucketInfo :=
  {| AwsS3.name := "logs";
     AwsS3.region := "eu-west-1";
     AwsS3.creationDate := None;
     AwsS3.publicAccess :=
       {| AwsS3.blockPublicAcls := true;
          AwsS3.blockPublicPolicy := true;
          AwsS3.ignorePublicAcls := true;
          AwsS3.restrictPublicBuckets := true;
          AwsS3.isFullyBlocked := true |};
     AwsS3.encryption := {| AwsS3.enabled := false; AwsS3.type := None |};
     AwsS3.versioning :=
       {| AwsS3.versioningEnabled := true; AwsS3.mfaDelete := false |} |}.

Definition aliceInfo : AwsIAM.IAMUserInfo :=
  {| AwsIAM.userName := "alice";
     AwsIAM.userId := "AIDA1";
     AwsIAM.arn := "arn:aws:iam::1:user/alice";
     AwsIAM.createDate := None;
     AwsIAM.hasMFA := false;
     AwsIAM.hasConsoleAccess := true;
     AwsIAM.attachedPolicies := ["arn:aws:iam::aws:policy/AdministratorAccess"];
     AwsIAM.hasAdminAccess := true;
     AwsIAM.passwordLastUsed := None |}.

Definition ordersInfo : AwsRDS.RDSInstanceInfo :=
  {| AwsRDS.dbInstanceId := "orders";
     AwsRDS.dbInstanceClass := "db.t3.micro";
     AwsRDS.engine := "postgres";
     AwsRDS.engineVersion := "15.4";
     AwsRDS.status := "available";
     AwsRDS.isPubliclyAccessible := true;
     AwsRDS.isEncrypted := false;
     AwsRDS.hasBackupEnabled := true;
     AwsRDS.backupRetentionPeriod := 7;
     AwsRDS.multiAZ := false;
     AwsRDS.vpcSecurityGroups := [];
     AwsRDS.endpoint := None;
     AwsRDS.port := None |}.

Definition webGroup : AwsEC2.SecurityGroupInfo :=
  {| AwsEC2.groupId := "sg-1";
     AwsEC2.groupName := "web";
     AwsEC2.description := "";
     AwsEC2.vpcId := None;
     AwsEC2.inboundRules :=
       [ {| AwsEC2.protocol := "tcp";
            AwsEC2.fromPort := Some 22;
            AwsEC2.toPort := Some 22;
            AwsEC2.source := "0.0.0.0/0";
            AwsEC2.isOpenToWorld_ := true |};
         privateRule ];
     AwsEC2.hasOpenSSH := true;
     AwsEC2.hasOpenRDP := false;
     AwsEC2.hasOpenToWorld := true |}.

Definition runningInfo : AwsEC2.EC2InstanceInfo :=
  {| AwsEC2.instanceId := "i-1";
     AwsEC2.name := "Unnamed";
     AwsEC2.state := "running";
     AwsEC2.instanceType := "t3.micro";
     AwsEC2.publicIp := Some "203.0.113.7";
     AwsEC2.privateIp := None;
     AwsEC2.hasPublicIp := true;
     AwsEC2.securityGroups := [];
     AwsEC2.region := None |}.

Definition terminatedInfo : AwsEC2.EC2InstanceInfo :=
  {| AwsEC2.instanceId := "i-2";
     AwsEC2.name := "Unnamed";
     AwsEC2.state := "terminated";
     AwsEC2.instanceType := "t3.micro";
     AwsEC2.publicIp := None;
     AwsEC2.privateIp := None;
     AwsEC2.hasPublicIp := false;
     AwsEC2.securityGroups := [];
     AwsEC2.region := None |}.

(** A permission that names no address range. *)
Definition emptyPermission : AwsEC2.IpPermission :=
  {| AwsEC2.IpProtocol := Some "tcp";
     AwsEC2.FromPort := Some 22;
     AwsEC2.ToPort := Some 22;
     AwsEC2.IpRanges := None;
     AwsEC2.Ipv6Ranges := Some [] |}.

(** The scan of 2023 run again under the same identifier, and failed. *)
Definition rerunOf2023 : ScanResult :=
  scanStartedAt "scan-1700000000000-k3x9q2a" 1700000000000 failed_.

(** A scan whose start time is an invalid date. *)
Definition undatedScan : ScanResult :=
  {| scanId := "scan-0-k3x9q2a";
     summary := emptySummary (DateObj (Some 0));
     findings := [];
     startTime := DateObj None;
     endTime := None;
     scanStatus := running |}.


End MoreSamples.

(* ================================================================== *)
(** * Strings *)
(* ================================================================== *)

Section Strings.

Lemma append_empty_r (s : string) : s ++ EmptyString = s.
Proof. induction s as [| c s IH]; simpl; [| rewrite IH]; reflexivity. Qed.

Lemma append_assoc (a b c : string) : (a ++ b) ++ c = a ++ (b ++ c).
Proof. induction a as [| x a IH]; simpl; [| rewrite IH]; reflexivity. Qed.

End Strings.

(* ================================================================== *)
(** * ISO dates ([Date.prototype.toISOString]) *)
(* ================================================================== *)

Section IsoDates.

(** ** Comparing strings field by field *)

Lemma ascii_compare_refl (c : ascii) : Ascii.compare c c = Eq.
Proof. apply N.compare_refl. Qed.

Lemma compare_refl (s : string) : String.compare s s = Eq.
Proof.
  induction s as [| c s IH]; simpl; [reflexivity |].
  rewrite ascii_compare_refl. exact IH.
Qed.

Lemma compare_app_same (p s s' : string) :
  String.compare (p ++ s) (p ++ s') = String.compare s s'.
Proof.
  induction p as [| c p IH]; simpl; [reflexivity |].
  rewrite ascii_compare_refl. exact IH.
Qed.

Lemma digit_compare (x y : Z) :
  0 <= x < y -> y <= 9 ->
  Ascii.compare (Js.digitChar x) (Js.digitChar y) = Lt.
Proof.
  intros Hx Hy. unfold Ascii.compare, Js.digitChar, ascii_of_nat.
  rewrite !N_ascii_embedding by lia.
  apply N.compare_lt_iff. lia.
Qed.

Lemma pad_lt (w : nat) :
  forall (a b : Z) (s s' : string),
    0 <= a < b -> b < 10 ^ Z.of_nat w ->
    String.compare (Js.pad w a ++ s) (Js.pad w b ++ s') = Lt.
Proof.
  induction w as [| w IH]; intros a b s s' Hab Hb.
  - change (10 ^ Z.of_nat 0) with 1 in Hb. lia.
  - rewrite Nat2Z.inj_succ, Z.pow_succ_r in Hb by lia.
    simpl Js.pad. rewrite !append_assoc.
    destruct (Z.eq_dec (a / 10) (b / 10)) as [E | E].
    + rewrite E, compare_app_same. cbn [String.compare append].
      rewrite digit_compare; [reflexivity | |];
        Z.div_mod_to_equations; lia.
    + apply IH; Z.div_mod_to_equations; lia.
Qed.

Lemma field_lt (w : nat) (a b : Z) (s s' : string) :
  0 <= a < b -> b < 10 ^ Z.of_nat w ->
  String.compare (field w a s) (field w b s') = Lt.
Proof. apply pad_lt. Qed.

Lemma field_same (w : nat) (a : Z) (s s' : string) :
  String.compare (field w a s) (field w a s') = String.compare s s'.
Proof. apply compare_app_same. Qed.

Lemma sep_same (c : ascii) (s s' : string) :
  String.compare (sep c s) (sep c s') = String.compare s s'.
Proof. unfold sep. simpl. rewrite ascii_compare_refl. reflexivity. Qed.

(** ** The calendar *)

Lemma civil_fields (day : Z) :
  Js.civilFromDays day = (yearOfDay day, monthOfDay day, dateOfDay day).
Proof. reflexivity. Qed.

Lemma doe_range (day : Z) : 0 <= doeOf day <= 146096.
Proof. unfold doeOf. Z.div_mod_to_equations. lia. Qed.

Lemma doy_range (doe : Z) :
  0 <= doe <= 146096 -> 0 <= yoeOf doe <= 399 /\ 0 <= doyOf doe <= 365.
Proof. unfold doyOf, yoeOf. intros H. Z.div_mod_to_equations. lia. Qed.

Lemma year_tight (doe : Z) :
  0 <= doe < 146096 ->
  doe < 365 * (yoeOf doe + 1) + (yoeOf doe + 1) / 4 - (yoeOf doe + 1) / 100.
Proof. unfold yoeOf. intros H. Z.div_mod_to_equations. lia. Qed.

Lemma month_range (doy : Z) :
  0 <= doy <= 365 ->
  1 <= monthOf (mpOf doy) <= 12 /\ 1 <= domOf doy <= 31
  /\ 0 <= carryOf (mpOf doy) <= 1
  /\ (carryOf (mpOf doy) = 1 -> monthOf (mpOf doy) <= 2)
  /\ (carryOf (mpOf doy) = 0 -> 3 <= monthOf (mpOf doy)).
Proof.
  intros H. unfold carryOf, monthOf, domOf.
  assert (Hmp : 0 <= mpOf doy <= 11)
    by (unfold mpOf; Z.div_mod_to_equations; lia).
  assert (Hd : 1 <= doy - (153 * mpOf doy + 2) / 5 + 1 <= 31)
    by (unfold mpOf; Z.div_mod_to_equations; lia).
  destruct (mpOf doy <? 10) eqn:E1;
    [apply Z.ltb_lt in E1 | apply Z.ltb_ge in E1];
    match goal with |- context [?x <=? 2] => destruct (x <=? 2) eqn:E2 end;
    [apply Z.leb_le in E2 | apply Z.leb_gt in E2
     | apply Z.leb_le in E2 | apply Z.leb_gt in E2]; lia.
Qed.

(** Within a year of the era, a later day has a later month, or the same
    month and a later day of the month; the months January and February
    close the year. *)
Lemma month_mono (doy doy' : Z) :
  0 <= doy < doy' -> doy' <= 365 ->
  dateLt (carryOf (mpOf doy), monthOf (mpOf doy), domOf doy)
         (carryOf (mpOf doy'), monthOf (mpOf doy'), domOf doy').
Proof.
  intros H H'. unfold dateLt, carryOf, monthOf, domOf.
  assert (Hmp : 0 <= mpOf doy <= mpOf doy' /\ mpOf doy' <= 11)
    by (unfold mpOf; Z.div_mod_to_equations; lia).
  assert (Hd : mpOf doy = mpOf doy' ->
               doy - (153 * mpOf doy + 2) / 5 + 1
               < doy' - (153 * mpOf doy' + 2) / 5 + 1)
    by (intros ->; lia).
  destruct (mpOf doy <? 10) eqn:E1;
    [apply Z.ltb_lt in E1 | apply Z.ltb_ge in E1];
    destruct (mpOf doy' <? 10) eqn:E1';
    [apply Z.ltb_lt in E1' | apply Z.ltb_ge in E1'
     | apply Z.ltb_lt in E1' | apply Z.ltb_ge in E1'];
    repeat match goal with
      | |- context [?x <=? 2] =>
          let E := fresh "E" in
          destruct (x <=? 2) eqn:E;
          [apply Z.leb_le in E | apply Z.leb_gt in E]
      end; lia.
Qed.

Lemma yearStart_mono (y y' : Z) :
  y <= y' -> 365 * y + y / 4 - y / 100 <= 365 * y' + y' / 4 - y' / 100.
Proof. intros H. Z.div_mod_to_equations. lia. Qed.

Lemma yoe_mono (doe doe' : Z) :
  0 <= doe < doe' -> doe' <= 146096 -> yoeOf doe <= yoeOf doe'.
Proof.
  intros H H'.
  pose proof (doy_range doe ltac:(lia)) as [Hy Hdoy].
  pose proof (doy_range doe' ltac:(lia)) as [Hy' Hdoy'].
  destruct (Z.eq_dec doe' 146096) as [-> | Hne].
  - change (yoeOf 146096) with 399. lia.
  - pose proof (year_tight doe' ltac:(lia)) as Ht'.
    destruct (Z_le_gt_dec (yoeOf doe) (yoeOf doe')) as [Hle | Hgt]; [exact Hle |].
    pose proof (yearStart_mono (yoeOf doe' + 1) (yoeOf doe) ltac:(lia)) as Hm.
    unfold doyOf in Hdoy. lia.
Qed.

Lemma era_mono (doe doe' : Z) :
  0 <= doe < doe' -> doe' <= 146096 ->
  dateLt (yoeOf doe + carryOf (mpOf (doyOf doe)),
          monthOf (mpOf (doyOf doe)), domOf (doyOf doe))
         (yoeOf doe' + carryOf (mpOf (doyOf doe')),
          monthOf (mpOf (doyOf doe')), domOf (doyOf doe')).
Proof.
  intros H H'.
  pose proof (doy_range doe ltac:(lia)) as [Hy Hdoy].
  pose proof (doy_range doe' ltac:(lia)) as [Hy' Hdoy'].
  pose proof (month_range _ Hdoy) as [Hm [_ [Hc [Hc1 Hc0]]]].
  pose proof (month_range _ Hdoy') as [Hm' [_ [Hc' [Hc1' Hc0']]]].
  pose proof (yoe_mono _ _ H H') as Hle.
  destruct (Z.eq_dec (yoeOf doe) (yoeOf doe')) as [E | E].
  - assert (Hlt : doyOf doe < doyOf doe') by (unfold doyOf; rewrite E; lia).
    pose proof (month_mono _ _ (conj (proj1 Hdoy) Hlt) (proj2 Hdoy')) as Hmm.
    unfold dateLt in *. rewrite E. lia.
  - unfold dateLt. lia.
Qed.

Lemma civil_mono (day day' : Z) :
  day < day' ->
  dateLt (Js.civilFromDays day) (Js.civilFromDays day').
Proof.
  intros H. rewrite !civil_fields. unfold yearOfDay, monthOfDay, dateOfDay.
  pose proof (doe_range day) as Hd. pose proof (doe_range day') as Hd'.
  pose proof (doy_range _ Hd) as [Hy Hdoy].
  pose proof (doy_range _ Hd') as [Hy' Hdoy'].
  pose proof (month_range _ Hdoy) as [Hm [_ [Hc [Hc1 Hc0]]]].
  pose proof (month_range _ Hdoy') as [Hm' [_ [Hc' [Hc1' Hc0']]]].
  assert (He : eraOf day <= eraOf day')
    by (unfold eraOf; Z.div_mod_to_equations; lia).
  destruct (Z.eq_dec (eraOf day) (eraOf day')) as [E | E].
  - assert (Hlt : doeOf day < doeOf day').
    { revert E. unfold eraOf, doeOf. Z.div_mod_to_equations. lia. }
    pose proof (era_mono _ _ (conj (proj1 Hd) Hlt) (proj2 Hd')) as Hmm.
    unfold dateLt in *. rewrite E. lia.
  - unfold dateLt. lia.
Qed.

Lemma civil_ranges (day : Z) :
  1 <= monthOfDay day <= 12 /\ 1 <= dateOfDay day <= 31.
Proof.
  unfold monthOfDay, dateOfDay.
  pose proof (doy_range _ (doe_range day)) as [_ Hdoy].
  pose proof (month_range _ Hdoy). tauto.
Qed.

(** The days of the years 0 to 9999. *)
Lemma year_four_digits (day : Z) :
  -719528 <= day < 2932897 -> 0 <= yearOfDay day <= 9999.
Proof.
  intros H. pose proof (civil_ranges day) as [Hm Hd].
  assert (H0 : 0 <= yearOfDay day).
  { destruct (Z.eq_dec day (-719528)) as [-> | Hne]; [vm_compute; discriminate |].
    pose proof (civil_mono (-719528) day ltac:(lia)) as Hlt.
    rewrite (civil_fields day) in Hlt.
    change (Js.civilFromDays (-719528)) with (0, 1, 1) in Hlt.
    unfold dateLt in Hlt. lia. }
  pose proof (civil_mono day 2932897 ltac:(lia)) as Hlt.
  rewrite (civil_fields day) in Hlt.
  change (Js.civilFromDays 2932897) with (10000, 1, 1) in Hlt.
  unfold dateLt in Hlt. lia.
Qed.

(** ** The string of an instant *)

Lemma day_of_four_digit_year (t : Z) :
  fourDigitYear t -> -719528 <= t / Js.msPerDay < 2932897.
Proof.
  unfold fourDigitYear, isoFirst, isoLimit, Js.msPerDay. intros H.
  Z.div_mod_to_equations. lia.
Qed.

Lemma toISOString_fields (t : Z) :
  fourDigitYear t ->
  let day := t / Js.msPerDay in
  let ms := t mod Js.msPerDay in
  Js.toISOString t =
  field 4 (yearOfDay day)
    (sep "-" (field 2 (monthOfDay day)
    (sep "-" (field 2 (dateOfDay day)
    (sep "T" (field 2 (ms / 3600000)
    (sep ":" (field 2 (ms / 60000 mod 60)
    (sep ":" (field 2 (ms / 1000 mod 60)
    (sep "." (field 3 (ms mod 1000) "Z")))))))))))).
Proof.
  intros H. cbv zeta.
  pose proof (year_four_digits _ (day_of_four_digit_year t H)) as Hy.
  unfold Js.toISOString. rewrite civil_fields.
  unfold Js.isoYear.
  replace ((0 <=? yearOfDay (t / Js.msPerDay))
           && (yearOfDay (t / Js.msPerDay) <=? 9999)) with true
    by (symmetry; apply andb_true_iff; split; apply Z.leb_le; lia).
  reflexivity.
Qed.

(** Closes the two side conditions of [field_lt] by arithmetic. *)
Ltac earlier_field :=
  apply field_lt;
  [| match goal with
     | |- _ < 10 ^ Z.of_nat ?w =>
         let v := eval vm_compute in (10 ^ Z.of_nat w) in
         change (10 ^ Z.of_nat w) with v
     end];
  Z.div_mod_to_equations; lia.

(** Of two instants of four-digit years, the earlier has the smaller
    string. *)
Lemma toISOString_lt (a b : Z) :
  fourDigitYear a -> fourDigitYear b -> a < b ->
  String.compare (Js.toISOString a) (Js.toISOString b) = Lt.
Proof.
  intros Ha Hb Hab.
  rewrite (toISOString_fields a Ha), (toISOString_fields b Hb). cbv zeta.
  pose proof (day_of_four_digit_year a Ha) as Hda.
  pose proof (day_of_four_digit_year b Hb) as Hdb.
  pose proof (year_four_digits _ Hda) as Hya.
  pose proof (year_four_digits _ Hdb) as Hyb.
  pose proof (civil_ranges (a / Js.msPerDay)) as [Hma Hdda].
  pose proof (civil_ranges (b / Js.msPerDay)) as [Hmb Hddb].
  destruct (Z.eq_dec (a / Js.msPerDay) (b / Js.msPerDay)) as [E | E].
  - rewrite E. rewrite !field_same, !sep_same.
    rewrite field_same, sep_same, field_same, sep_same.
    assert (Hms : 0 <= a mod Js.msPerDay < b mod Js.msPerDay
                  /\ b mod Js.msPerDay < 86400000).
    { revert E. unfold Js.msPerDay. Z.div_mod_to_equations. lia. }
    revert Hms.
    generalize (a mod Js.msPerDay) as x, (b mod Js.msPerDay) as y.
    intros x y Hms.
    destruct (Z.eq_dec (x / 3600000) (y / 3600000)) as [E1 | E1];
      [rewrite E1, field_same, sep_same
      | earlier_field].
    destruct (Z.eq_dec (x / 60000 mod 60) (y / 60000 mod 60)) as [E2 | E2];
      [rewrite E2, field_same, sep_same
      | earlier_field].
    destruct (Z.eq_dec (x / 1000 mod 60) (y / 1000 mod 60)) as [E3 | E3];
      [rewrite E3, field_same, sep_same
      | earlier_field].
    earlier_field.
  - assert (Hlt : a / Js.msPerDay < b / Js.msPerDay)
      by (unfold Js.msPerDay in *; Z.div_mod_to_equations; lia).
    pose proof (civil_mono _ _ Hlt) as Hc. rewrite !civil_fields in Hc.
    unfold dateLt in Hc.
    destruct (Z.eq_dec (yearOfDay (a / Js.msPerDay)) (yearOfDay (b / Js.msPerDay)))
      as [E1 | E1];
      [rewrite E1, field_same, sep_same
      | earlier_field].
    destruct (Z.eq_dec (monthOfDay (a / Js.msPerDay)) (monthOfDay (b / Js.msPerDay)))
      as [E2 | E2];
      [rewrite E2, field_same, sep_same
      | earlier_field].
    earlier_field.
Qed.

Lemma toISOString_ltb (a b : Z) :
  fourDigitYear a -> fourDigitYear b ->
  String.ltb (Js.toISOString a) (Js.toISOString b) = (a <? b).
Proof.
  intros Ha Hb. unfold String.ltb.
  destruct (Z.ltb_spec a b) as [H | H].
  - rewrite (toISOString_lt a b Ha Hb H). reflexivity.
  - destruct (Z.eq_dec a b) as [-> | Hne].
    + rewrite compare_refl. reflexivity.
    + rewrite String.compare_antisym.
      rewrite (toISOString_lt b a Hb Ha) by lia. reflexivity.
Qed.

Lemma toISOString_inj (a b : Z) :
  fourDigitYear a -> fourDigitYear b ->
  Js.toISOString a = Js.toISOString b -> a = b.
Proof.
  intros Ha Hb E.
  destruct (Z.lt_trichotomy a b) as [H | [H | H]]; [| exact H |].
  - pose proof (toISOString_lt a b Ha Hb H) as C.
    rewrite E, compare_refl in C. discriminate.
  - pose proof (toISOString_lt b a Hb Ha H) as C.
    rewrite E, compare_refl in C. discriminate.
Qed.

(** ** Nothing is lost: the string determines the instant *)

Lemma append_inv_head (p s s' : string) : p ++ s = p ++ s' -> s = s'.
Proof.
  induction p as [| c p IH]; simpl; intros E; [exact E |].
  injection E as E. apply IH, E.
Qed.

Lemma field_inj (w : nat) (a b : Z) (s s' : string) :
  0 <= a < 10 ^ Z.of_nat w -> 0 <= b < 10 ^ Z.of_nat w ->
  field w a s = field w b s' -> a = b /\ s = s'.
Proof.
  intros Ha Hb E.
  assert (Hab : a = b).
  { destruct (Z.lt_trichotomy a b) as [H | [H | H]]; [| exact H |].
    - pose proof (field_lt w a b s s' ltac:(lia) ltac:(lia)) as C.
      rewrite E, compare_refl in C. discriminate.
    - pose proof (field_lt w b a s' s ltac:(lia) ltac:(lia)) as C.
      rewrite E, compare_refl in C. discriminate. }
  split; [exact Hab |]. subst b. unfold field in E.
  apply append_inv_head in E. exact E.
Qed.

Lemma sep_inj (c : ascii) (s s' : string) : sep c s = sep c s' -> s = s'.
Proof. unfold sep. intros E. injection E as E. exact E. Qed.

(** A field of one digit or more starts with a digit. *)
Lemma field_head (w : nat) :
  forall (n : Z) (s : string),
    exists d rest, 0 <= d <= 9 /\ field (S w) n s = String (Js.digitChar d) rest.
Proof.
  unfold field. induction w as [| w IH]; intros n s.
  - exists (n mod 10), s. split; [Z.div_mod_to_equations; lia | reflexivity].
  - change (Js.pad (S (S w)) n)
      with (Js.pad (S w) (n / 10) ++ String (Js.digitChar (n mod 10)) EmptyString).
    rewrite append_assoc. apply IH.
Qed.

Lemma digit_not_sign (d : Z) (c : ascii) :
  0 <= d <= 9 -> c = "-"%char \/ c = "+"%char -> Js.digitChar d <> c.
Proof.
  intros Hd Hc E. apply (f_equal nat_of_ascii) in E.
  unfold Js.digitChar in E. rewrite nat_ascii_embedding in E by lia.
  destruct Hc as [-> | ->]; vm_compute in E; lia.
Qed.

Lemma isoYear_inj (y y' : Z) (s s' : string) :
  -999999 <= y <= 999999 -> -999999 <= y' <= 999999 ->
  Js.isoYear y ++ s = Js.isoYear y' ++ s' -> y = y' /\ s = s'.
Proof.
  intros Hy Hy'. unfold Js.isoYear.
  assert (P6 : 10 ^ Z.of_nat 6 = 1000000) by reflexivity.
  assert (P4 : 10 ^ Z.of_nat 4 = 10000) by reflexivity.
  destruct ((0 <=? y) && (y <=? 9999)) eqn:C;
    destruct ((0 <=? y') && (y' <=? 9999)) eqn:C';
    try (apply andb_true_iff in C as [C1 C2];
         apply Z.leb_le in C1; apply Z.leb_le in C2);
    try (apply andb_true_iff in C' as [C1' C2'];
         apply Z.leb_le in C1'; apply Z.leb_le in C2').
  - intros E. apply (field_inj 4); [lia | lia | exact E].
  - intros E. exfalso.
    destruct (field_head 3 y s) as [d [rest [Hd Hf]]].
    unfold field in Hf. rewrite Hf in E.
    destruct (y' <? 0);
      [ change (String (Js.digitChar d) rest = String "-" (field 6 (- y') s')) in E
      | change (String (Js.digitChar d) rest = String "+" (field 6 y' s')) in E ];
      injection E as E _;
      apply (digit_not_sign d _ Hd) in E; [exact E | auto | exact E | auto].
  - intros E. exfalso.
    destruct (field_head 3 y' s') as [d [rest [Hd Hf]]].
    unfold field in Hf. rewrite Hf in E.
    destruct (y <? 0);
      [ change (String "-" (field 6 (- y) s) = String (Js.digitChar d) rest) in E
      | change (String "+" (field 6 y s) = String (Js.digitChar d) rest) in E ];
      injection E as E _;
      symmetry in E;
      apply (digit_not_sign d _ Hd) in E; [exact E | auto | exact E | auto].
  - apply andb_false_iff in C. apply andb_false_iff in C'.
    destruct (Z.ltb_spec y 0) as [N | N]; destruct (Z.ltb_spec y' 0) as [N' | N'];
      intros E.
    + change (sep "-" (field 6 (- y) s) = sep "-" (field 6 (- y') s')) in E.
      apply sep_inj in E.
      destruct (field_inj 6 (- y) (- y') s s' ltac:(lia) ltac:(lia) E) as [H1 H2].
      split; [lia | exact H2].
    + change (String "-" (field 6 (- y) s) = String "+" (field 6 y' s')) in E.
      discriminate.
    + change (String "+" (field 6 y s) = String "-" (field 6 (- y') s')) in E.
      discriminate.
    + change (sep "+" (field 6 y s) = sep "+" (field 6 y' s')) in E.
      apply sep_inj in E.
      destruct (field_inj 6 y y' s s' ltac:(lia) ltac:(lia) E) as [H1 H2].
      split; [exact H1 | exact H2].
Qed.

(** The days of the valid dates, and their years. *)
Lemma day_of_valid_time (t : Z) :
  validTime t -> -100000000 <= t / Js.msPerDay <= 100000000.
Proof.
  unfold validTime, Js.msPerDay. intros H. Z.div_mod_to_equations. lia.
Qed.

Lemma year_of_valid_day (day : Z) :
  -100000000 <= day <= 100000000 -> -271821 <= yearOfDay day <= 275760.
Proof.
  intros H. pose proof (civil_ranges day) as [Hm Hd]. split.
  - destruct (Z.eq_dec day (-100000000)) as [-> | Hne]; [vm_compute; discriminate |].
    pose proof (civil_mono (-100000000) day ltac:(lia)) as Hlt.
    rewrite (civil_fields day) in Hlt.
    change (Js.civilFromDays (-100000000)) with (-271821, 4, 20) in Hlt.
    unfold dateLt in Hlt. lia.
  - destruct (Z.eq_dec day 100000000) as [-> | Hne]; [vm_compute; discriminate |].
    pose proof (civil_mono day 100000000 ltac:(lia)) as Hlt.
    rewrite (civil_fields day) in Hlt.
    change (Js.civilFromDays 100000000) with (275760, 9, 13) in Hlt.
    unfold dateLt in Hlt. lia.
Qed.

Lemma toISOString_shape (t : Z) :
  let day := t / Js.msPerDay in
  let ms := t mod Js.msPerDay in
  Js.toISOString t =
  Js.isoYear (yearOfDay day) ++
    sep "-" (field 2 (monthOfDay day)
    (sep "-" (field 2 (dateOfDay day)
    (sep "T" (field 2 (ms / 3600000)
    (sep ":" (field 2 (ms / 60000 mod 60)
    (sep ":" (field 2 (ms / 1000 mod 60)
    (sep "." (field 3 (ms mod 1000) "Z"))))))))))).
Proof. cbv zeta. unfold Js.toISOString. rewrite civil_fields. reflexivity. Qed.

(** Two valid dates with the same ISO string are the same instant. *)
Lemma toISOString_valid_inj (a b : Z) :
  validTime a -> validTime b ->
  Js.toISOString a = Js.toISOString b -> a = b.
Proof.
  intros Ha Hb E.
  rewrite (toISOString_shape a), (toISOString_shape b) in E. cbv zeta in E.
  pose proof (day_of_valid_time a Ha) as Hda.
  pose proof (day_of_valid_time b Hb) as Hdb.
  pose proof (year_of_valid_day _ Hda) as Hya.
  pose proof (year_of_valid_day _ Hdb) as Hyb.
  pose proof (civil_ranges (a / Js.msPerDay)) as [Hma Hdda].
  pose proof (civil_ranges (b / Js.msPerDay)) as [Hmb Hddb].
  assert (P2 : 10 ^ Z.of_nat 2 = 100) by reflexivity.
  assert (P3 : 10 ^ Z.of_nat 3 = 1000) by reflexivity.
  assert (Hxa : 0 <= a mod Js.msPerDay < 86400000)
    by (unfold Js.msPerDay; Z.div_mod_to_equations; lia).
  assert (Hxb : 0 <= b mod Js.msPerDay < 86400000)
    by (unfold Js.msPerDay; Z.div_mod_to_equations; lia).
  apply isoYear_inj in E as [Ey E]; [| lia | lia].
  apply sep_inj, field_inj in E as [Em E]; [| lia | lia].
  apply sep_inj, field_inj in E as [Ed E]; [| lia | lia].
  assert (Eday : a / Js.msPerDay = b / Js.msPerDay).
  { destruct (Z.lt_trichotomy (a / Js.msPerDay) (b / Js.msPerDay))
      as [H | [H | H]]; [| exact H |];
      apply civil_mono in H; rewrite !civil_fields in H; unfold dateLt in H; lia. }
  assert (Ems : a mod Js.msPerDay = b mod Js.msPerDay).
  { revert E Hxa Hxb.
    generalize (a mod Js.msPerDay) as x, (b mod Js.msPerDay) as y.
    intros x y E Hx Hy.
    apply sep_inj, field_inj in E as [E1 E];
      [| rewrite P2; Z.div_mod_to_equations; lia
       | rewrite P2; Z.div_mod_to_equations; lia].
    apply sep_inj, field_inj in E as [E2 E];
      [| rewrite P2; Z.div_mod_to_equations; lia
       | rewrite P2; Z.div_mod_to_equations; lia].
    apply sep_inj, field_inj in E as [E3 E];
      [| rewrite P2; Z.div_mod_to_equations; lia
       | rewrite P2; Z.div_mod_to_equations; lia].
    apply sep_inj, field_inj in E as [E4 _];
      [| rewrite P3; Z.div_mod_to_equations; lia
       | rewrite P3; Z.div_mod_to_equations; lia].
    clear - E1 E2 E3 E4 Hx Hy. Z.div_mod_to_equations. lia. }
  assert (Hm : Js.msPerDay <> 0) by (unfold Js.msPerDay; lia).
  rewrite (Z.div_mod a Js.msPerDay Hm), (Z.div_mod b Js.msPerDay Hm).
  rewrite Eday, Ems. reflexivity.
Qed.

End IsoDates.

(* ================================================================== *)
(** * Firewall rules (aws/ec2.ts) *)
(* ================================================================== *)

Section FirewallRules.

Import AwsEC2.

Lemma isOpenToWorld_spec (cidr : string) :
  isOpenToWorld cidr = true <-> cidr = "0.0.0.0/0" \/ cidr = "::/0".
Proof.
  unfold isOpenToWorld.
  rewrite orb_true_iff, !String.eqb_eq. reflexivity.
Qed.

Lemma parsed_rule_flag (permissions : list IpPermission) (r : SecurityGroupRule) :
  In r (parseInboundRules permissions) ->
  isOpenToWorld_ r = isOpenToWorld (source r).
Proof.
  unfold parseInboundRules. rewrite in_flat_map.
  intros [p [_ Hr]]. unfold rulesOfPermission in Hr.
  apply in_app_or in Hr. rewrite !in_map_iff in Hr.
  destruct Hr as [[x [<- _]] | [x [<- _]]]; reflexivity.
Qed.

(** C4. Every rule produced by [parseInboundRules] is flagged open to the
    world exactly when its source is the string [0.0.0.0/0] or the string
    [::/0]; a parsed rule whose source is [10.0.0.0/8] is not flagged, and
    no port is reported open because of it, whatever its protocol and
    port bounds. *)
Theorem open_to_world_iff_wildcard_cidr
    (permissions : list IpPermission) (r : SecurityGroupRule) :
  In r (parseInboundRules permissions) ->
  (isOpenToWorld_ r = true <-> source r = "0.0.0.0/0" \/ source r = "::/0")
  /\ (source r = "10.0.0.0/8" ->
      isOpenToWorld_ r = false /\ forall port, ruleOpensPort port r = false).
Proof.
  intros Hin. rewrite (parsed_rule_flag _ _ Hin). split.
  - apply isOpenToWorld_spec.
  - intros Hs.
    assert (Hf : isOpenToWorld_ r = false)
      by (rewrite (parsed_rule_flag _ _ Hin), Hs; reflexivity).
    split.
    + rewrite Hs. reflexivity.
    + intros port. unfold ruleOpensPort. rewrite Hf. reflexivity.
Qed.



End FirewallRules.

(* ================================================================== *)
(** * The stored form of a scan result ([prepareForStorage]) *)
(* ================================================================== *)

Section StoredForms.

Import Types.

Lemma isoIfDate_view (d : DateValue) :
  dateOk d = true -> DynamoDB.isoIfDate d = Ok (isoView d).
Proof. destruct d as [[t|]|s]; simpl; intros H; try discriminate; reflexivity. Qed.

Lemma isoIfDateOpt_view (d : option DateValue) :
  dateOptOk d = true -> DynamoDB.isoIfDateOpt d = Ok (option_map isoView d).
Proof.
  destruct d as [d|]; simpl; intros H; [| reflexivity].
  rewrite (isoIfDate_view d H). reflexivity.
Qed.

Lemma storeFindings_view (fs : list SecurityFinding) :
  forallb (fun f => dateOptOk (timestamp f)) fs = true ->
  DynamoDB.storeFindings fs = Ok (map storedFinding fs).
Proof.
  induction fs as [| f fs IH]; simpl; intros H; [reflexivity |].
  apply andb_true_iff in H as [Hf Hfs].
  unfold DynamoDB.storeFinding. rewrite (isoIfDateOpt_view _ Hf). simpl.
  rewrite (IH Hfs). reflexivity.
Qed.

Lemma prepareForStorage_view (r : ScanResult) :
  storable r = true -> DynamoDB.prepareForStorage r = Ok (storedItem r).
Proof.
  unfold storable. rewrite !andb_true_iff. intros [[[H1 H2] H3] H4].
  unfold DynamoDB.prepareForStorage.
  rewrite (isoIfDate_view _ H1). simpl.
  rewrite (isoIfDateOpt_view _ H2). simpl.
  rewrite (isoIfDate_view _ H3). simpl.
  rewrite (storeFindings_view _ H4). reflexivity.
Qed.

End StoredForms.

(* ================================================================== *)
(** * The orchestrator (services/scanService.ts) *)
(* ================================================================== *)

Section Orchestrator.

Import Types.

Lemma scanAll_settles (cloud : Cloud) :
  ScanService.scanAll cloud =
  Ok (settled (S3Scanner.scanS3Buckets (s3Client cloud)),
      settled (EC2Scanner.scanEC2 (ec2Client cloud)),
      settled (IAMScanner.scanIAM (iamClient cloud)),
      settled (RDSScanner.scanRDS (rdsClient cloud))).
Proof.
  unfold ScanService.scanAll.
  destruct (S3Scanner.scanS3Buckets _), (EC2Scanner.scanEC2 _),
    (IAMScanner.scanIAM _), (RDSScanner.scanRDS _); reflexivity.
Qed.

Lemma calculateSummary_run (fs : list SecurityFinding) (w : World) :
  ScanService.calculateSummary fs w =
  (Ok (summaryOf fs (reading w 0)), withTicks w (S (ticks w))).
Proof. reflexivity. Qed.

Lemma try_run (cloud : Cloud) (w : World) (r0 : ScanResult) :
  Run.tryCatch (ScanService.scanBody cloud) ScanService.scanFailed (w, r0) =
  (Ok tt, (withTicks w (snd (tryOutcome cloud w r0) + ticks w),
           fst (tryOutcome cloud w r0))).
Proof.
  unfold tryOutcome, ScanService.scanBody, ScanService.scanFailed.
  rewrite scanAll_settles.
  unfold Run.tryCatch, Run.bind, Run.onWorld, Run.step, Run.await, Run.newDate,
    Run.getLocal, Run.setLocal, Run.ret.
  destruct (abort w) as [[[|[|[|n]]] e]|] eqn:Ha;
    cbn -[ScanService.calculateSummary];
    repeat (rewrite ?Ha, ?calculateSummary_run; cbn -[ScanService.calculateSummary]);
    reflexivity.
Qed.

Lemma saveScanResult_run (r : ScanResult) (w : World) :
  DynamoDB.saveScanResult r w =
  (Ok tt, match DynamoDB.prepareForStorage r with
          | Ok item => afterPut item w
          | Throw _ => w
          end).
Proof.
  unfold DynamoDB.saveScanResult, Run.tryCatch, Run.bind, Run.await, DynamoDB.send,
    Run.ret, afterPut.
  destruct (DynamoDB.prepareForStorage r) as [item | e]; [| reflexivity].
  destruct (ddbFault w (List.length (sent w))); reflexivity.
Qed.

Lemma isoIfDate_ok (d : DateValue) :
  dateOk d = true -> exists d', DynamoDB.isoIfDate d = Ok d'.
Proof. destruct d as [[t|]|s]; simpl; intros H; try discriminate; eauto. Qed.

Lemma isoIfDateOpt_ok (d : option DateValue) :
  dateOptOk d = true -> exists d', DynamoDB.isoIfDateOpt d = Ok d'.
Proof.
  destruct d as [d|]; simpl; intros H; [| eauto].
  destruct (isoIfDate_ok d H) as [d' ->]. simpl. eauto.
Qed.

Lemma storeFindings_ok (fs : list SecurityFinding) :
  forallb (fun f => dateOptOk (timestamp f)) fs = true ->
  exists fs', DynamoDB.storeFindings fs = Ok fs'.
Proof.
  induction fs as [| f fs IH]; simpl; intros H; [eauto |].
  apply andb_true_iff in H as [Hf Hfs].
  unfold DynamoDB.storeFinding.
  destruct (isoIfDateOpt_ok _ Hf) as [d' ->]. simpl.
  destruct (IH Hfs) as [fs' ->]. simpl. eauto.
Qed.

Lemma prepareForStorage_ok (r : ScanResult) :
  storable r = true -> exists item, DynamoDB.prepareForStorage r = Ok item.
Proof.
  unfold storable. rewrite !andb_true_iff. intros [[[H1 H2] H3] H4].
  unfold DynamoDB.prepareForStorage.
  destruct (isoIfDate_ok _ H1) as [d1 ->]. simpl.
  destruct (isoIfDateOpt_ok _ H2) as [d2 ->]. simpl.
  destruct (isoIfDate_ok _ H3) as [d3 ->]. simpl.
  destruct (storeFindings_ok _ H4) as [fs ->]. simpl. eauto.
Qed.

Lemma stamped_ok (cloud : Cloud) (w : World) :
  forallb (fun f => dateOptOk (timestamp f)) (stamped cloud w) = true.
Proof.
  unfold stamped. apply forallb_forall. intros f Hf.
  apply in_map_iff in Hf as [g [<- _]]. reflexivity.
Qed.

Lemma scanOf_storable (cloud : Cloud) (w : World) : storable (scanOf cloud w) = true.
Proof.
  unfold scanOf, tryOutcome, storable.
  destruct (abort (started w)) as [[[|[|[|n]]] e]|]; cbn;
    rewrite ?stamped_ok; reflexivity.
Qed.

Lemma saveScanResultStarted_run (r : ScanResult) (w : World) :
  DynamoDB.saveScanResultStarted r w =
  (Ok tt, match DynamoDB.prepareForStorage r with
          | Ok item => putPending item w
          | Throw _ => w
          end).
Proof.
  unfold DynamoDB.saveScanResultStarted, Run.tryCatch, Run.bind, Run.await,
    DynamoDB.sendLater, Run.ret, putPending.
  destruct (DynamoDB.prepareForStorage r) as [item | e]; reflexivity.
Qed.

Lemma runFullScan_run (cloud : Cloud) (w : World) :
  ScanService.runFullScan cloud w =
  (Ok (scanOf cloud w),
   putPending (storedItem (scanOf cloud w)) (beforeSave cloud w)).
Proof.
  unfold ScanService.runFullScan, ScanService.generateScanId.
  unfold Run.bind at 1 2 3. unfold Run.dateNow, Run.randomSuffix, Run.ret.
  unfold Run.bind at 1. unfold Run.newDate at 1.
  unfold Run.bind at 1. unfold Run.withLocal.
  match goal with
  | |- context [Run.tryCatch _ _ (?w0, ?r0)] =>
      change w0 with (started w); change r0 with (initialScan w)
  end.
  rewrite try_run. cbn [snd fst].
  unfold Run.bind, Run.detach, Run.ret.
  fold (scanOf cloud w). fold (beforeSave cloud w).
  rewrite saveScanResultStarted_run,
    (prepareForStorage_view _ (scanOf_storable cloud w)).
  reflexivity.
Qed.

Lemma scanOf_fault_blind (cloud : Cloud) (w : World) (fault : nat -> option JsError) :
  scanOf cloud (withDdbFault w fault) = scanOf cloud w.
Proof. reflexivity. Qed.

Lemma countStatus_partition (fs : list SecurityFinding) :
  (countStatus PASS fs + countStatus FAIL fs + countStatus ERROR fs
   = List.length fs)%nat.
Proof.
  unfold countStatus.
  induction fs as [| f fs IH]; [reflexivity |].
  simpl. destruct (status f); simpl; lia.
Qed.

Lemma statusEqb_eq (a b : CheckStatus) : statusEqb a b = true <-> a = b.
Proof. destruct a, b; simpl; split; intros H; congruence. Qed.

Lemma severityEqb_eq (a b : Severity) : severityEqb a b = true <-> a = b.
Proof. destruct a, b; simpl; split; intros H; congruence. Qed.

Lemma scanOf_summary (cloud : Cloud) (w : World) :
  (passed (summary (scanOf cloud w)) + failed (summary (scanOf cloud w))
   + errors (summary (scanOf cloud w))
   = totalResources (summary (scanOf cloud w)))%nat.
Proof.
  unfold scanOf, tryOutcome.
  destruct (abort (started w)) as [[[|[|[|n]]] e]|]; cbn;
    try reflexivity; apply countStatus_partition.
Qed.

(** C1. The summary computed from any list of findings counts every
    finding once: [passed], [failed] and [errors] count the findings of
    status PASS, FAIL and ERROR and add up to [totalResources], the
    number of findings; [highSeverity] and [criticalSeverity] count the
    FAIL findings of severity HIGH and CRITICAL.  The same sum holds for
    the summary of every scan result that [runFullScan] returns. *)
Theorem summary_counts_add_up :
  (forall (fs : list SecurityFinding) (w : World),
      exists s w',
        ScanService.calculateSummary fs w = (Ok s, w')
        /\ (passed s + failed s + errors s = totalResources s)%nat
        /\ totalResources s = List.length fs
        /\ passed s = List.length (filter (fun f => statusEqb (status f) PASS) fs)
        /\ failed s = List.length (filter (fun f => statusEqb (status f) FAIL) fs)
        /\ errors s = List.length (filter (fun f => statusEqb (status f) ERROR) fs)
        /\ highSeverity s =
           List.length (filter (fun f => statusEqb (status f) FAIL
                                         && severityEqb (severity f) HIGH) fs)
        /\ criticalSeverity s =
           List.length (filter (fun f => statusEqb (status f) FAIL
                                         && severityEqb (severity f) CRITICAL) fs))
  /\ (forall (cloud : Cloud) (w : World),
         exists r w',
           ScanService.runFullScan cloud w = (Ok r, w')
           /\ (passed (summary r) + failed (summary r) + errors (summary r)
               = totalResources (summary r))%nat).
Proof.
  split.
  - intros fs w. rewrite calculateSummary_run.
    eexists; eexists; split; [reflexivity |].
    split; [apply countStatus_partition |].
    repeat split.
  - intros cloud w. rewrite runFullScan_run.
    eexists; eexists; split; [reflexivity | apply scanOf_summary].
Qed.

Lemma scanOf_status (cloud : Cloud) (w : World) :
  match abort w with
  | Some (n, _) =>
      if (n <=? 2)%nat
      then scanStatus (scanOf cloud w) = failed_
      else scanStatus (scanOf cloud w) = completed
  | None => scanStatus (scanOf cloud w) = completed
  end
  /\ exists t, endTime (scanOf cloud w) = Some (DateObj (Some t)).
Proof.
  unfold scanOf, tryOutcome. change (abort (started w)) with (abort w).
  destruct (abort w) as [[[|[|[|n]]] e]|]; cbn;
    (split; [reflexivity | eexists; reflexivity]).
Qed.

Lemma settle_putPending (item : Storage.StorageItem) (w : World) :
  table (DynamoDB.settle (putPending item w)) =
  match ddbFault w (List.length (sent w)) with
  | Some _ => table (DynamoDB.settle w)
  | None => DynamoDB.putItem item (table (DynamoDB.settle w))
  end.
Proof.
  unfold DynamoDB.settle, putPending. cbn [table inFlight ddbFault withInFlight
    withTable withSent]. rewrite fold_left_app. cbn [fold_left].
  unfold DynamoDB.answered at 1. cbn [fst snd DynamoDB.effect].
  destruct (ddbFault w (List.length (sent w))); reflexivity.
Qed.

(** C2. [runFullScan] returns a scan result in every world.  When the
    world raises inside the [try] block (at step 0, 1 or 2) the scan
    result has status [failed] and an end time.  In either case exactly
    one command is sent to the store, a put of the stored form of the
    returned scan result: the record with its identifier, its status,
    its counts and its findings, the dates as ISO strings.  The put is
    not awaited: when [runFullScan] returns, the table is as it was and
    the put is in flight; once the commands in flight are answered the
    table holds the record, or is as it would be without the scan when
    the store refuses the put.  Whatever the store does, the returned
    scan result is the same. *)
Theorem runFullScan_never_raises (cloud : Cloud) (w : World) :
  exists (r : ScanResult) (w' : World) (item : Storage.StorageItem),
    ScanService.runFullScan cloud w = (Ok r, w')
    /\ (forall n e, abort w = Some (n, e) -> (n <= 2)%nat ->
          scanStatus r = failed_
          /\ exists t, endTime r = Some (DateObj (Some t)))
    /\ (abort w = None ->
          scanStatus r = completed
          /\ exists t, endTime r = Some (DateObj (Some t)))
    /\ sent w' = Storage.PutItemCommand item :: sent w
    /\ item = storedItem r
    /\ DynamoDB.prepareForStorage r = Ok item
    /\ scanId (Storage.scan item) = scanId r
    /\ scanStatus (Storage.scan item) = scanStatus r
    /\ findings (Storage.scan item) = map storedFinding (findings r)
    /\ totalResources (summary (Storage.scan item)) = totalResources (summary r)
    /\ passed (summary (Storage.scan item)) = passed (summary r)
    /\ failed (summary (Storage.scan item)) = failed (summary r)
    /\ errors (summary (Storage.scan item)) = errors (summary r)
    /\ (exists t, startTime r = DateObj (Some t)
                  /\ startTime (Storage.scan item) = DateStr (Js.toISOString t)
                  /\ Storage.createdAt item = DateStr (Js.toISOString t))
    /\ Storage.recordType item = "SCAN"
    /\ Storage.resourceId item = "METADATA"
    /\ table w' = table w
    /\ inFlight w'
       = (inFlight w ++ [(List.length (sent w), Storage.PutItemCommand item)])%list
    /\ (ddbFault w (List.length (sent w)) = None ->
          table (DynamoDB.settle w')
          = DynamoDB.putItem item (table (DynamoDB.settle w)))
    /\ (forall e, ddbFault w (List.length (sent w)) = Some e ->
          table (DynamoDB.settle w') = table (DynamoDB.settle w))
    /\ (forall fault : nat -> option JsError,
          exists w'',
            ScanService.runFullScan cloud (withDdbFault w fault) = (Ok r, w'')).
Proof.
  exists (scanOf cloud w).
  exists (putPending (storedItem (scanOf cloud w)) (beforeSave cloud w)).
  exists (storedItem (scanOf cloud w)).
  split; [apply runFullScan_run |].
  pose proof (scanOf_status cloud w) as [Hst Hend].
  split.
  { intros n e Ha Hn. rewrite Ha in Hst.
    apply Nat.leb_le in Hn. rewrite Hn in Hst. auto. }
  split.
  { intros Ha. rewrite Ha in Hst. auto. }
  split; [reflexivity |].
  split; [reflexivity |].
  split; [apply prepareForStorage_view, scanOf_storable |].
  split; [reflexivity |].
  split; [reflexivity |].
  split; [reflexivity |].
  split; [reflexivity |].
  split; [reflexivity |].
  split; [reflexivity |].
  split; [reflexivity |].
  split.
  { exists (clock w (1 + ticks w)).
    assert (Hstart : startTime (scanOf cloud w)
                     = DateObj (Some (clock w (1 + ticks w)))).
    { unfold scanOf, tryOutcome.
      destruct (abort (started w)) as [[[|[|[|n]]] e]|]; reflexivity. }
    split; [exact Hstart |].
    cbn [storedItem Storage.scan Storage.createdAt storedForm startTime].
    rewrite Hstart. split; reflexivity. }
  split; [reflexivity |].
  split; [reflexivity |].
  split; [reflexivity |].
  split; [reflexivity |].
  pose proof (settle_putPending (storedItem (scanOf cloud w)) (beforeSave cloud w))
    as Hs.
  change (sent (beforeSave cloud w)) with (sent w) in Hs.
  change (ddbFault (beforeSave cloud w)) with (ddbFault w) in Hs.
  change (table (DynamoDB.settle (beforeSave cloud w)))
    with (table (DynamoDB.settle w)) in Hs.
  split; [intros Hf; rewrite Hs, Hf; reflexivity |].
  split; [intros e Hf; rewrite Hs, Hf; reflexivity |].
  intros fault. rewrite runFullScan_run. rewrite scanOf_fault_blind.
  eexists. reflexivity.
Qed.

Lemma scanOf_findings (cloud : Cloud) (w : World) (f : SecurityFinding) :
  In f (findings (scanOf cloud w)) -> timestamp f = Some (reading w 2).
Proof.
  unfold scanOf, tryOutcome.
  destruct (abort (started w)) as [[[|[|[|n]]] e]|]; cbn;
    try contradiction; unfold stamped; rewrite in_map_iff;
    intros [g [<- _]]; reflexivity.
Qed.

(** C6. Every finding of the scan result returned by [runFullScan]
    carries the same timestamp: the reading of the clock that the
    orchestrator takes once the scanners have settled and their findings
    are concatenated, after the readings for the identifier and the start
    time; in a completed scan it is followed by the readings for the
    summary and for the end time. *)
Theorem findings_share_one_timestamp
    (cloud : Cloud) (w w' : World) (r : ScanResult) :
  ScanService.runFullScan cloud w = (Ok r, w') ->
  (forall f, In f (findings r) -> timestamp f = Some (reading w 2))
  /\ (scanStatus r = completed ->
      findings r = map (ScanService.setTimestamp (reading w 2)) (collected cloud)
      /\ startTime r = reading w 1
      /\ scanTime (summary r) = reading w 3
      /\ endTime r = Some (reading w 4)).
Proof.
  rewrite runFullScan_run. intros H. injection H as <- _.
  split; [apply scanOf_findings |].
  unfold scanOf, tryOutcome.
  destruct (abort (started w)) as [[[|[|[|n]]] e]|]; cbn;
    intros Hs; try discriminate; repeat split.
Qed.

End Orchestrator.

(* ================================================================== *)
(** * The scanners (scanners/*.ts) *)
(* ================================================================== *)

Section Scanners.

Import Types.

Lemma s3_checks_passLow (b : AwsS3.S3BucketInfo) :
  passLow (S3Scanner.checkPublicAccess b)
  /\ passLow (S3Scanner.checkEncryption b)
  /\ passLow (S3Scanner.checkVersioning b).
Proof.
  unfold passLow; repeat split; simpl;
    [ destruct (AwsS3.isFullyBlocked _)
    | destruct (AwsS3.enabled _)
    | destruct (AwsS3.versioningEnabled _) ]; intros; congruence.
Qed.

Lemma ec2_checks_passLow :
  (forall sg, passLow (EC2Scanner.checkSSHExposure sg)
              /\ passLow (EC2Scanner.checkRDPExposure sg)
              /\ passLow (EC2Scanner.checkOpenToWorld sg))
  /\ (forall i, passLow (EC2Scanner.checkPublicIPExposure i)).
Proof.
  unfold passLow; split; [intros sg; repeat split | intros i]; simpl;
    [ destruct (AwsEC2.hasOpenSSH _)
    | destruct (AwsEC2.hasOpenRDP _)
    | destruct (AwsEC2.hasOpenToWorld _)
    | destruct (AwsEC2.hasPublicIp _) ]; intros; congruence.
Qed.

Lemma iam_checks_passLow :
  (forall u, passLow (IAMScanner.checkMFAEnabled u)
             /\ passLow (IAMScanner.checkAdminAccess u))
  /\ (forall m, passLow (IAMScanner.checkRootMFA m)).
Proof.
  unfold passLow; split; [intros u; split | intros m].
  - unfold IAMScanner.checkMFAEnabled.
    destruct (AwsIAM.hasConsoleAccess u), (AwsIAM.hasMFA u); simpl; congruence.
  - simpl. destruct (AwsIAM.hasAdminAccess u); congruence.
  - simpl. destruct m; congruence.
Qed.

Lemma rds_checks_passLow (db : AwsRDS.RDSInstanceInfo) :
  passLow (RDSScanner.checkPublicAccessibility db)
  /\ passLow (RDSScanner.checkEncryption db)
  /\ passLow (RDSScanner.checkBackupEnabled db)
  /\ passLow (RDSScanner.checkMultiAZ db).
Proof.
  unfold passLow; repeat split; simpl;
    [ destruct (AwsRDS.isPubliclyAccessible _)
    | destruct (AwsRDS.isEncrypted _)
    | destruct (AwsRDS.hasBackupEnabled _)
    | destruct (AwsRDS.multiAZ _) ]; intros; congruence.
Qed.

(** What the scanner of each provider returns: the findings of its
    checks, or the one finding that reports the failed collection. *)
Lemma scanS3Buckets_cases (c : AwsS3.Client) :
  (exists buckets,
      AwsS3.getAllBucketsInfo c = Ok buckets
      /\ S3Scanner.scanS3Buckets c =
         Ok (flat_map (fun b => [S3Scanner.checkPublicAccess b;
                                 S3Scanner.checkEncryption b;
                                 S3Scanner.checkVersioning b]) buckets))
  \/ (exists e,
         AwsS3.getAllBucketsInfo c = Throw e
         /\ S3Scanner.scanS3Buckets c = Ok [S3Scanner.scanError e]).
Proof.
  unfold S3Scanner.scanS3Buckets.
  destruct (AwsS3.getAllBucketsInfo c) as [bs | e]; simpl; eauto.
Qed.

Lemma scanEC2_cases (c : AwsEC2.Client) :
  (exists instances groups,
      AwsEC2.getEC2SecurityInfo c = Ok (instances, groups)
      /\ EC2Scanner.scanEC2 c =
         Ok (flat_map (fun sg => [EC2Scanner.checkSSHExposure sg;
                                  EC2Scanner.checkRDPExposure sg;
                                  EC2Scanner.checkOpenToWorld sg]) groups
             ++ flat_map
                  (fun i => if String.eqb (AwsEC2.state i) "running"
                               || String.eqb (AwsEC2.state i) "stopped"
                            then [EC2Scanner.checkPublicIPExposure i]
                            else []) instances)%list)
  \/ (exists e,
         AwsEC2.getEC2SecurityInfo c = Throw e
         /\ EC2Scanner.scanEC2 c = Ok [EC2Scanner.scanError e]).
Proof.
  unfold EC2Scanner.scanEC2.
  destruct (AwsEC2.getEC2SecurityInfo c) as [[ins gs] | e]; simpl; eauto.
Qed.

Lemma scanIAM_cases (c : AwsIAM.Client) :
  (exists users summary,
      IAMScanner.collect c = Ok (users, summary)
      /\ IAMScanner.scanIAM c =
         Ok (IAMScanner.checkRootMFA (AwsIAM.accountMFAEnabled summary)
             :: flat_map (fun u => [IAMScanner.checkMFAEnabled u;
                                    IAMScanner.checkAdminAccess u]) users))
  \/ (exists e,
         IAMScanner.collect c = Throw e
         /\ IAMScanner.scanIAM c = Ok [IAMScanner.scanError e]).
Proof.
  unfold IAMScanner.scanIAM.
  destruct (IAMScanner.collect c) as [[us sm] | e]; simpl; eauto.
Qed.

Lemma scanRDS_cases (c : AwsRDS.Client) :
  (exists instances,
      AwsRDS.getAllRDSInfo c = Ok instances
      /\ RDSScanner.scanRDS c =
         Ok (flat_map (fun db => [RDSScanner.checkPublicAccessibility db;
                                  RDSScanner.checkEncryption db;
                                  RDSScanner.checkBackupEnabled db;
                                  RDSScanner.checkMultiAZ db]) instances))
  \/ (exists e,
         AwsRDS.getAllRDSInfo c = Throw e
         /\ RDSScanner.scanRDS c = Ok [RDSScanner.scanError e]).
Proof.
  unfold RDSScanner.scanRDS.
  destruct (AwsRDS.getAllRDSInfo c) as [ins | e]; simpl; eauto.
Qed.

(** A property of every check and of every error report holds of every
    finding a scanner returns. *)
Ltac each_finding :=
  repeat match goal with
    | H : In _ (flat_map _ _) |- _ => apply in_flat_map in H as [? [_ H]]
    | H : In _ (_ ++ _) |- _ => apply in_app_or in H as [H | H]
    | H : In _ (if ?c then _ else _) |- _ => destruct c
    | H : In _ (_ :: _) |- _ => destruct H as [<- | H]
    | H : In _ [] |- _ => destruct H
    | H : _ = _ \/ _ |- _ => destruct H as [<- | H]
    | H : False |- _ => destruct H
    end.

Lemma scanner_findings
    (P : Provider -> SecurityFinding -> Prop) (p : Provider) (cloud : Cloud) :
  (forall b, P ProvS3 (S3Scanner.checkPublicAccess b)
             /\ P ProvS3 (S3Scanner.checkEncryption b)
             /\ P ProvS3 (S3Scanner.checkVersioning b)) ->
  (forall sg, P ProvEC2 (EC2Scanner.checkSSHExposure sg)
              /\ P ProvEC2 (EC2Scanner.checkRDPExposure sg)
              /\ P ProvEC2 (EC2Scanner.checkOpenToWorld sg)) ->
  (forall i, P ProvEC2 (EC2Scanner.checkPublicIPExposure i)) ->
  (forall u, P ProvIAM (IAMScanner.checkMFAEnabled u)
             /\ P ProvIAM (IAMScanner.checkAdminAccess u)) ->
  (forall m, P ProvIAM (IAMScanner.checkRootMFA m)) ->
  (forall db, P ProvRDS (RDSScanner.checkPublicAccessibility db)
              /\ P ProvRDS (RDSScanner.checkEncryption db)
              /\ P ProvRDS (RDSScanner.checkBackupEnabled db)
              /\ P ProvRDS (RDSScanner.checkMultiAZ db)) ->
  (forall q e, P q (scanError q e)) ->
  forall f, In f (settled (scanner p cloud)) -> P p f.
Proof.
  intros Hs3 Hsg Hi Hu Hm Hdb Herr f Hf.
  destruct p; simpl in Hf.
  - destruct (scanS3Buckets_cases (s3Client cloud)) as [[bs [_ E]] | [e [_ E]]];
      rewrite E in Hf; simpl in Hf; each_finding;
      try apply Hs3; apply (Herr ProvS3).
  - destruct (scanEC2_cases (ec2Client cloud)) as [[ins [gs [_ E]]] | [e [_ E]]];
      rewrite E in Hf; simpl in Hf; each_finding;
      try apply Hsg; try apply Hi; apply (Herr ProvEC2).
  - destruct (scanIAM_cases (iamClient cloud)) as [[us [sm [_ E]]] | [e [_ E]]];
      rewrite E in Hf; simpl in Hf; each_finding;
      try apply Hu; try apply Hm; apply (Herr ProvIAM).
  - destruct (scanRDS_cases (rdsClient cloud)) as [[ins [_ E]] | [e [_ E]]];
      rewrite E in Hf; simpl in Hf; each_finding;
      try apply Hdb; apply (Herr ProvRDS).
Qed.

Lemma collected_by_provider (cloud : Cloud) :
  collected cloud =
  (settled (scanner ProvS3 cloud) ++ settled (scanner ProvEC2 cloud)
   ++ settled (scanner ProvIAM cloud) ++ settled (scanner ProvRDS cloud))%list.
Proof. reflexivity. Qed.

Lemma collected_in (cloud : Cloud) (f : SecurityFinding) :
  In f (collected cloud) -> exists p, In f (settled (scanner p cloud)).
Proof.
  rewrite collected_by_provider, !in_app_iff.
  intros [H | [H | [H | H]]]; eauto.
Qed.

Lemma scanner_never_rejects (p : Provider) (cloud : Cloud) :
  exists fs, scanner p cloud = Ok fs.
Proof.
  destruct p; simpl.
  - destruct (scanS3Buckets_cases (s3Client cloud)) as [[? [_ E]] | [? [_ E]]]; eauto.
  - destruct (scanEC2_cases (ec2Client cloud)) as [[? [? [_ E]]] | [? [_ E]]]; eauto.
  - destruct (scanIAM_cases (iamClient cloud)) as [[? [? [_ E]]] | [? [_ E]]]; eauto.
  - destruct (scanRDS_cases (rdsClient cloud)) as [[? [_ E]] | [? [_ E]]]; eauto.
Qed.

Lemma scanner_on_failure (p : Provider) (cloud : Cloud) (e : JsError) :
  collectionRaises cloud p e -> scanner p cloud = Ok [scanError p e].
Proof.
  destruct p; simpl; intros H.
  - unfold S3Scanner.scanS3Buckets. rewrite H. reflexivity.
  - unfold EC2Scanner.scanEC2. rewrite H. reflexivity.
  - unfold IAMScanner.scanIAM. rewrite H. reflexivity.
  - unfold RDSScanner.scanRDS. rewrite H. reflexivity.
Qed.

Lemma scanner_provider (p : Provider) (cloud : Cloud) (f : SecurityFinding) :
  In f (settled (scanner p cloud)) -> providerOf f = p.
Proof.
  apply (scanner_findings (fun q g => providerOf g = q));
    try (intros q e; destruct q); try intros ?; repeat split.
  unfold IAMScanner.checkMFAEnabled. destruct (negb _); reflexivity.
Qed.

Lemma providerEqb_eq (a b : Provider) : providerEqb a b = true <-> a = b.
Proof. destruct a, b; simpl; split; intros H; congruence. Qed.

Lemma contributed_own (p q : Provider) (fs : list SecurityFinding) :
  (forall f, In f fs -> providerOf f = p) ->
  contributed q fs = if providerEqb p q then fs else [].
Proof.
  unfold contributed. induction fs as [| f fs IH]; intros H.
  - destruct (providerEqb p q); reflexivity.
  - simpl. rewrite (H f (or_introl eq_refl)), IH by (intros g Hg; apply H; right; exact Hg).
    destruct (providerEqb p q); reflexivity.
Qed.

Lemma contributed_app (q : Provider) (a b : list SecurityFinding) :
  contributed q (a ++ b) = (contributed q a ++ contributed q b)%list.
Proof. apply filter_app. Qed.

Lemma contributed_collected (q : Provider) (cloud : Cloud) :
  contributed q (collected cloud) = settled (scanner q cloud).
Proof.
  rewrite collected_by_provider, !contributed_app.
  rewrite (contributed_own ProvS3), (contributed_own ProvEC2),
    (contributed_own ProvIAM), (contributed_own ProvRDS)
    by (intros f; apply scanner_provider).
  destruct q; simpl; rewrite ?app_nil_r; reflexivity.
Qed.

Lemma contributed_stamped (q : Provider) (t : DateValue) (fs : list SecurityFinding) :
  contributed q (map (ScanService.setTimestamp t) fs) =
  map (ScanService.setTimestamp t) (contributed q fs).
Proof.
  unfold contributed. induction fs as [| f fs IH]; [reflexivity |].
  simpl. change (providerOf (ScanService.setTimestamp t f)) with (providerOf f).
  destruct (providerEqb (providerOf f) q); simpl; rewrite IH; reflexivity.
Qed.

Lemma run_findings (cloud : Cloud) (w : World) (q : Provider) :
  contributed q (findings (scanOf cloud w)) =
  if abortsEarly w then []
  else map (ScanService.setTimestamp (reading w 2)) (settled (scanner q cloud)).
Proof.
  unfold scanOf, tryOutcome, abortsEarly.
  change (abort (started w)) with (abort w).
  destruct (abort w) as [[[|[|[|n]]] e]|]; cbn [fst]; try reflexivity;
    change (findings (completedScan cloud (started w) (initialScan w)))
      with (map (ScanService.setTimestamp (reading w 2)) (collected cloud));
    try change (findings (failedScan (completedScan cloud (started w) (initialScan w))
                            (reading (started w) 3)))
      with (map (ScanService.setTimestamp (reading w 2)) (collected cloud));
    rewrite contributed_stamped, contributed_collected; reflexivity.
Qed.

Lemma completed_not_early (cloud : Cloud) (w : World) :
  scanStatus (scanOf cloud w) = completed -> abortsEarly w = false.
Proof.
  unfold scanOf, tryOutcome, abortsEarly.
  change (abort (started w)) with (abort w).
  destruct (abort w) as [[[|[|[|n]]] e]|]; cbn; intros H;
    try discriminate; reflexivity.
Qed.

Lemma sameElsewhere_scanner (p q : Provider) (a b : Cloud) :
  sameElsewhere p a b -> q <> p -> scanner q a = scanner q b.
Proof.
  intros [H1 [H2 [H3 H4]]] Hq.
  destruct q; simpl;
    [ rewrite H1 | rewrite H2 | rewrite H3 | rewrite H4 ]; congruence.
Qed.

(** C3. When the collection of a provider rejects, the scanner of that
    provider still returns: its result is the single finding that
    reports the failure, with status ERROR, severity HIGH, the sentinel
    identifier of the provider and a message that ends with the text of
    the error.  No scanner ever rejects.  In a scan during which the
    runtime does not raise, the scan completes and that finding, stamped
    like the others, is all that the provider contributes to the
    findings of the scan; every provider contributes the findings of its
    scanner, stamped, and every other provider contributes the same
    findings as in a scan of any cloud that differs for the failed
    provider only. *)
Theorem failed_collection_yields_one_error_finding
    (cloud : Cloud) (w : World) (p : Provider) (e : JsError) :
  collectionRaises cloud p e ->
  abort w = None ->
  exists r w',
    ScanService.runFullScan cloud w = (Ok r, w')
    /\ scanStatus r = completed
    /\ scanner p cloud = Ok [scanError p e]
    /\ contributed p (findings r) =
       [ScanService.setTimestamp (reading w 2) (scanError p e)]
    /\ (forall f, In f (findings r) -> providerOf f = p ->
          status f = ERROR /\ severity f = HIGH
          /\ Types.resourceId f = sentinel p
          /\ contains (message f) (errText e))
    /\ status (scanError p e) = ERROR
    /\ severity (scanError p e) = HIGH
    /\ Types.resourceId (scanError p e) = sentinel p
    /\ contains (message (scanError p e)) (errText e)
    /\ (forall (c : Cloud) (q : Provider), exists fs, scanner q c = Ok fs)
    /\ (forall q : Provider,
          exists fs,
            scanner q cloud = Ok fs
            /\ contributed q (findings r) =
               map (ScanService.setTimestamp (reading w 2)) fs)
    /\ (forall (cloud' : Cloud) (q : Provider),
          q <> p -> sameElsewhere p cloud cloud' ->
          exists r' w'',
            ScanService.runFullScan cloud' w = (Ok r', w'')
            /\ contributed q (findings r') = contributed q (findings r)).
Proof.
  intros He Ha.
  exists (scanOf cloud w).
  exists (putPending (storedItem (scanOf cloud w)) (beforeSave cloud w)).
  pose proof (scanner_on_failure p cloud e He) as Hp.
  assert (Hearly : abortsEarly w = false) by (unfold abortsEarly; rewrite Ha; reflexivity).
  assert (Hown : contributed p (findings (scanOf cloud w)) =
                 [ScanService.setTimestamp (reading w 2) (scanError p e)]).
  { rewrite run_findings, Hearly, Hp. reflexivity. }
  assert (Hmsg : contains (message (scanError p e)) (errText e)).
  { destruct p;
      [ exists "Error scanning S3 buckets: "
      | exists "Error scanning EC2: "
      | exists "Error scanning IAM: "
      | exists "Error scanning RDS: " ];
      exists EmptyString; rewrite append_empty_r; reflexivity. }
  split; [apply runFullScan_run |].
  split.
  { pose proof (scanOf_status cloud w) as [Hst _]. rewrite Ha in Hst. exact Hst. }
  split; [exact Hp |].
  split; [exact Hown |].
  split.
  { intros f Hf Hpf.
    assert (Hin : In f (contributed p (findings (scanOf cloud w)))).
    { unfold contributed. apply filter_In. split; [exact Hf |].
      rewrite Hpf. destruct p; reflexivity. }
    rewrite Hown in Hin. destruct Hin as [<- | []].
    repeat split; try (destruct p; reflexivity). exact Hmsg. }
  split; [destruct p; reflexivity |].
  split; [destruct p; reflexivity |].
  split; [destruct p; reflexivity |].
  split; [exact Hmsg |].
  split; [intros c q; apply scanner_never_rejects |].
  split.
  { intros q. destruct (scanner_never_rejects q cloud) as [fs Hfs].
    exists fs. split; [exact Hfs |].
    rewrite run_findings, Hearly, Hfs. reflexivity. }
  intros cloud' q Hq Hsame.
  exists (scanOf cloud' w).
  exists (putPending (storedItem (scanOf cloud' w)) (beforeSave cloud' w)).
  split; [apply runFullScan_run |].
  rewrite !run_findings.
  rewrite (sameElsewhere_scanner p q cloud cloud' Hsame Hq). reflexivity.
Qed.

Lemma scanOf_findings_from (cloud : Cloud) (w : World) (f : SecurityFinding) :
  In f (findings (scanOf cloud w)) ->
  exists g, In g (collected cloud) /\ f = ScanService.setTimestamp (reading w 2) g.
Proof.
  unfold scanOf, tryOutcome.
  destruct (abort (started w)) as [[[|[|[|n]]] e]|]; cbn;
    try contradiction; unfold stamped; rewrite in_map_iff;
    intros [g [<- Hg]]; eauto.
Qed.

(** C10. Every check function of every scanner returns severity LOW
    whenever it returns status PASS, and so does every finding of every
    scan result returned by [runFullScan]. *)
Theorem passing_findings_have_low_severity :
  (forall b, passLow (S3Scanner.checkPublicAccess b)
             /\ passLow (S3Scanner.checkEncryption b)
             /\ passLow (S3Scanner.checkVersioning b))
  /\ (forall sg, passLow (EC2Scanner.checkSSHExposure sg)
                 /\ passLow (EC2Scanner.checkRDPExposure sg)
                 /\ passLow (EC2Scanner.checkOpenToWorld sg))
  /\ (forall i, passLow (EC2Scanner.checkPublicIPExposure i))
  /\ (forall u, passLow (IAMScanner.checkMFAEnabled u)
                /\ passLow (IAMScanner.checkAdminAccess u))
  /\ (forall m, passLow (IAMScanner.checkRootMFA m))
  /\ (forall db, passLow (RDSScanner.checkPublicAccessibility db)
                 /\ passLow (RDSScanner.checkEncryption db)
                 /\ passLow (RDSScanner.checkBackupEnabled db)
                 /\ passLow (RDSScanner.checkMultiAZ db))
  /\ (forall (cloud : Cloud) (w w' : World) (r : ScanResult) (f : SecurityFinding),
         ScanService.runFullScan cloud w = (Ok r, w') ->
         In f (findings r) ->
         status f = PASS -> severity f = LOW).
Proof.
  pose proof ec2_checks_passLow as [Hsg Hi].
  pose proof iam_checks_passLow as [Hu Hm].
  repeat apply conj; try apply s3_checks_passLow; try apply rds_checks_passLow;
    try apply Hsg; try apply Hu; try assumption.
  intros cloud w w' r f Hrun Hf.
  rewrite runFullScan_run in Hrun. injection Hrun as <- _.
  apply scanOf_findings_from in Hf as [g [Hg ->]].
  apply collected_in in Hg as [p Hg].
  change (passLow g).
  revert g Hg.
  apply (scanner_findings (fun _ => passLow)); try assumption;
    try apply s3_checks_passLow; try apply rds_checks_passLow.
  intros q e; destruct q; unfold passLow; simpl; discriminate.
Qed.

End Scanners.

(* ================================================================== *)
(** * Public access of buckets (aws/s3.ts, scanners/s3Scanner.ts) *)
(* ================================================================== *)

Section PublicAccess.

Import Types.

Lemma getPublicAccessBlock_flags
    (c : AwsS3.Client) (bucketName : string) (pa : AwsS3.PublicAccess) :
  AwsS3.getPublicAccessBlock c bucketName = Ok pa ->
  AwsS3.isFullyBlocked pa =
  AwsS3.blockPublicAcls pa && AwsS3.blockPublicPolicy pa
  && AwsS3.ignorePublicAcls pa && AwsS3.restrictPublicBuckets pa.
Proof.
  unfold AwsS3.getPublicAccessBlock.
  destruct (AwsS3.GetPublicAccessBlock c bucketName) as [response | e]; simpl.
  - intros H. injection H as <-. reflexivity.
  - destruct (String.eqb _ _); intros H; injection H as <-; reflexivity.
Qed.

Lemma bucketInfo_publicAccess
    (c : AwsS3.Client) (bucket : AwsS3.Bucket) (bucketName : string)
    (b : AwsS3.S3BucketInfo) :
  AwsS3.bucketInfo c bucket bucketName = Ok b ->
  AwsS3.getPublicAccessBlock c (AwsS3.name b) = Ok (AwsS3.publicAccess b).
Proof.
  unfold AwsS3.bucketInfo.
  destruct (AwsS3.getBucketRegion c bucketName); simpl; [| discriminate].
  destruct (AwsS3.getBucketEncryption c bucketName); simpl; [| discriminate].
  destruct (AwsS3.getBucketVersioning c bucketName); simpl; [| discriminate].
  destruct (AwsS3.getPublicAccessBlock c bucketName) eqn:E; simpl; [| discriminate].
  intros H. injection H as <-. exact E.
Qed.

Lemma bucketsInfo_publicAccess
    (c : AwsS3.Client) (buckets : list AwsS3.Bucket)
    (infos : list AwsS3.S3BucketInfo) (b : AwsS3.S3BucketInfo) :
  AwsS3.bucketsInfo c buckets = Ok infos -> In b infos ->
  AwsS3.getPublicAccessBlock c (AwsS3.name b) = Ok (AwsS3.publicAccess b).
Proof.
  revert infos. induction buckets as [| bucket rest IH]; intros infos; simpl.
  - intros H. injection H as <-. contradiction.
  - destruct (Js.truthyStr (AwsS3.Name bucket)); [| apply IH].
    destruct (AwsS3.bucketInfo c bucket _) as [info | e] eqn:E; simpl; [| discriminate].
    destruct (AwsS3.bucketsInfo c rest) as [infos' | e]; simpl; [| discriminate].
    intros H. injection H as <-. intros [<- | Hin].
    + apply (bucketInfo_publicAccess _ _ _ _ E).
    + apply (IH infos' eq_refl Hin).
Qed.

(** C9. For every bucket record that the collector builds, the
    public-access part is what [getPublicAccessBlock] returns for the
    bucket, and the public-access check passes with severity LOW exactly
    when the four flags [blockPublicAcls], [blockPublicPolicy],
    [ignorePublicAcls] and [restrictPublicBuckets] are all true; when one
    of them is false it fails with severity HIGH. *)
Theorem public_access_check_follows_the_four_flags
    (c : AwsS3.Client) (buckets : list AwsS3.S3BucketInfo) (b : AwsS3.S3BucketInfo) :
  AwsS3.getAllBucketsInfo c = Ok buckets ->
  In b buckets ->
  let pa := AwsS3.publicAccess b in
  let f := S3Scanner.checkPublicAccess b in
  AwsS3.getPublicAccessBlock c (AwsS3.name b) = Ok pa
  /\ ((status f = PASS /\ severity f = LOW) <->
      (AwsS3.blockPublicAcls pa = true /\ AwsS3.blockPublicPolicy pa = true
       /\ AwsS3.ignorePublicAcls pa = true /\ AwsS3.restrictPublicBuckets pa = true))
  /\ ((AwsS3.blockPublicAcls pa = false \/ AwsS3.blockPublicPolicy pa = false
       \/ AwsS3.ignorePublicAcls pa = false \/ AwsS3.restrictPublicBuckets pa = false) ->
      status f = FAIL /\ severity f = HIGH).
Proof.
  unfold AwsS3.getAllBucketsInfo.
  destruct (AwsS3.listBuckets c) as [raw | e]; simpl; [| discriminate].
  intros Hall Hin.
  pose proof (bucketsInfo_publicAccess _ _ _ _ Hall Hin) as Hpa.
  pose proof (getPublicAccessBlock_flags _ _ _ Hpa) as Hflags.
  split; [exact Hpa |].
  rewrite Hflags.
  destruct (AwsS3.blockPublicAcls _), (AwsS3.blockPublicPolicy _),
    (AwsS3.ignorePublicAcls _), (AwsS3.restrictPublicBuckets _); simpl;
    (split; [split; [intros [H1 H2] | intros [H1 [H2 [H3 H4]]]] | intros H]);
    try discriminate; try (repeat split; reflexivity);
    try (destruct H as [H | [H | [H | H]]]; discriminate).
Qed.

End PublicAccess.

(* ================================================================== *)
(** * The result store (storage/dynamodb.ts) *)
(* ================================================================== *)

Section ResultStore.

Import Types.

(** ** Reading back by key *)

Lemma find_after_filter (id rid : string) (tbl : list Storage.StorageItem)
    (it : Storage.StorageItem) :
  DynamoDB.hasKey id rid it = true ->
  find (DynamoDB.hasKey id rid)
       (filter (fun x => negb (DynamoDB.hasKey id rid x)) tbl ++ [it]) = Some it.
Proof.
  intros Hk. induction tbl as [| x tbl IH]; simpl.
  - rewrite Hk. reflexivity.
  - destruct (DynamoDB.hasKey id rid x) eqn:E; simpl; [exact IH |].
    rewrite E. exact IH.
Qed.

Lemma getItem_putItem (it : Storage.StorageItem) (tbl : list Storage.StorageItem) :
  DynamoDB.getItem (scanId (Storage.scan it)) (Storage.resourceId it)
    (DynamoDB.putItem it tbl) = Some it.
Proof.
  unfold DynamoDB.getItem, DynamoDB.putItem. apply find_after_filter.
  unfold DynamoDB.hasKey. rewrite !String.eqb_refl. reflexivity.
Qed.

Lemma getScanResult_run (id : string) (w : World) :
  DynamoDB.getScanResult id w =
  (Ok (match ddbFault w (List.length (sent w)) with
       | Some _ => None
       | None => DynamoDB.getItem id "METADATA" (table w)
       end),
   withSent w (Storage.GetItemCommand id "METADATA" :: sent w)).
Proof.
  unfold DynamoDB.getScanResult, Run.tryCatch, Run.bind, DynamoDB.send, Run.ret.
  destruct (ddbFault w (List.length (sent w))); [reflexivity |].
  cbn. destruct (DynamoDB.getItem id "METADATA" (table w)); reflexivity.
Qed.

Lemma getLatestScanResult_run (w : World) :
  DynamoDB.getLatestScanResult w =
  (Ok (match ddbFault w (List.length (sent w)) with
       | Some _ => None
       | None => DynamoDB.newest
                   (filter (fun it => String.eqb (Storage.recordType it) "SCAN")
                           (table w))
       end),
   withSent w (Storage.QueryCommand DynamoDB.GSI_NAME "SCAN" :: sent w)).
Proof.
  unfold DynamoDB.getLatestScanResult, Run.tryCatch, Run.bind, DynamoDB.send,
    Run.ret, DynamoDB.queryNewest.
  destruct (ddbFault w (List.length (sent w))); [reflexivity |].
  cbn. destruct (DynamoDB.newest _); reflexivity.
Qed.

Lemma save_run (r : ScanResult) (w : World) :
  storable r = true ->
  DynamoDB.saveScanResult r w = (Ok tt, afterPut (storedItem r) w).
Proof.
  intros H. rewrite saveScanResult_run, (prepareForStorage_view r H). reflexivity.
Qed.

Lemma saveThen_run {A} (r : ScanResult) (k : M World A) (w : World) :
  storable r = true ->
  saveThen r k w = k (afterPut (storedItem r) w).
Proof. intros H. unfold saveThen, Run.bind. rewrite (save_run r w H). reflexivity. Qed.

Lemma afterPut_up (it : Storage.StorageItem) (w : World) :
  ddbFault w (List.length (sent w)) = None ->
  table (afterPut it w) = DynamoDB.putItem it (table w)
  /\ sent (afterPut it w) = Storage.PutItemCommand it :: sent w
  /\ ddbFault (afterPut it w) = ddbFault w.
Proof. unfold afterPut. intros ->. repeat split. Qed.

Lemma storeUp_next (it : Storage.StorageItem) (w : World) (n : nat) :
  storeUp w (S n) ->
  table (afterPut it w) = DynamoDB.putItem it (table w)
  /\ storeUp (afterPut it w) n.
Proof.
  intros H.
  destruct (afterPut_up it w (H 0%nat ltac:(lia))) as [Ht [Hs Hf]].
  split; [exact Ht |].
  intros k Hk. rewrite Hs, Hf. simpl List.length.
  replace (k + S (List.length (sent w)))%nat
    with (S k + List.length (sent w))%nat by lia.
  apply H. lia.
Qed.

(** ** Round trip *)

Lemma isoView_inj (d d' : DateValue) :
  validDate d -> validDate d' -> isoView d = isoView d' -> d = d'.
Proof.
  intros [t [-> Ht]] [t' [-> Ht']]. simpl. intros E. injection E as E.
  rewrite (toISOString_valid_inj t t' Ht Ht' E). reflexivity.
Qed.

Lemma isoViewOpt_inj (d d' : option DateValue) :
  validDateOpt d -> validDateOpt d' ->
  option_map isoView d = option_map isoView d' -> d = d'.
Proof.
  destruct d as [d|], d' as [d'|]; simpl; intros H H' E;
    try discriminate; [| reflexivity].
  injection E as E. rewrite (isoView_inj d d' H H' E). reflexivity.
Qed.

Lemma storedFinding_inj (f f' : SecurityFinding) :
  validDateOpt (timestamp f) -> validDateOpt (timestamp f') ->
  storedFinding f = storedFinding f' -> f = f'.
Proof.
  destruct f, f'. unfold storedFinding. simpl. intros H H' E.
  injection E as -> -> -> -> -> -> E ->.
  rewrite (isoViewOpt_inj _ _ H H' E). reflexivity.
Qed.

Lemma storedFindings_inj (fs fs' : list SecurityFinding) :
  Forall (fun f => validDateOpt (timestamp f)) fs ->
  Forall (fun f => validDateOpt (timestamp f)) fs' ->
  map storedFinding fs = map storedFinding fs' -> fs = fs'.
Proof.
  intros H. revert fs'. induction H as [| f fs Hf Hfs IH]; intros fs' H' E.
  - destruct fs'; [reflexivity | discriminate].
  - destruct fs' as [| f' fs']; [discriminate |].
    inversion H' as [| ? ? Hf' Hfs']; subst.
    pose proof (f_equal (hd (storedFinding f)) E) as E1.
    pose proof (f_equal (@tl _) E) as E2.
    cbn [map hd tl] in E1, E2.
    rewrite (storedFinding_inj f f' Hf Hf' E1), (IH fs' Hfs' E2). reflexivity.
Qed.

Lemma storedForm_inj (r r' : ScanResult) :
  validDates r -> validDates r' -> storedForm r = storedForm r' -> r = r'.
Proof.
  destruct r as [id sm fs st en ss], r' as [id' sm' fs' st' en' ss'].
  destruct sm as [a1 a2 a3 a4 a5 a6 a7], sm' as [b1 b2 b3 b4 b5 b6 b7].
  unfold validDates, storedForm. simpl.
  intros [H1 [H2 [H3 H4]]] [H1' [H2' [H3' H4']]] E.
  injection E as -> -> -> -> -> -> -> E7 Ef Es Ee ->.
  rewrite (isoView_inj _ _ H3 H3' E7), (storedFindings_inj _ _ H4 H4' Ef),
    (isoView_inj _ _ H1 H1' Es), (isoViewOpt_inj _ _ H2 H2' Ee).
  reflexivity.
Qed.

(** C7 as amended. When no date field of the scan result holds an
    invalid date and the store answers the put and the get, saving a
    scan result and reading it back by its identifier returns the stored
    record: every field that is not a date is the one saved; every date
    field holds the ISO string of the date saved, and is not turned back
    into a date; the record carries the three attributes [recordType],
    [createdAt] and [resourceId] as well.  Nothing is lost in the
    strings: two scan results whose date fields hold valid dates, of
    any year, and that have the same stored form are the same. *)
Theorem read_back_is_the_stored_form (r : ScanResult) (w : World) :
  storable r = true ->
  storeUp w 2 ->
  (exists w',
      saveThen r (DynamoDB.getScanResult (scanId r)) w = (Ok (Some (storedItem r)), w'))
  /\ Storage.scan (storedItem r) = storedForm r
  /\ scanId (storedForm r) = scanId r
  /\ scanStatus (storedForm r) = scanStatus r
  /\ totalResources (summary (storedForm r)) = totalResources (summary r)
  /\ passed (summary (storedForm r)) = passed (summary r)
  /\ failed (summary (storedForm r)) = failed (summary r)
  /\ errors (summary (storedForm r)) = errors (summary r)
  /\ highSeverity (summary (storedForm r)) = highSeverity (summary r)
  /\ criticalSeverity (summary (storedForm r)) = criticalSeverity (summary r)
  /\ findings (storedForm r) = map storedFinding (findings r)
  /\ (forall t, startTime r = DateObj (Some t) ->
        startTime (storedForm r) = DateStr (Js.toISOString t))
  /\ (forall t, endTime r = Some (DateObj (Some t)) ->
        endTime (storedForm r) = Some (DateStr (Js.toISOString t)))
  /\ (forall t, scanTime (summary r) = DateObj (Some t) ->
        scanTime (summary (storedForm r)) = DateStr (Js.toISOString t))
  /\ (forall r', validDates r -> validDates r' ->
        storedForm r' = storedForm r -> r' = r).
Proof.
  intros Hst Hup.
  split.
  { rewrite (saveThen_run _ _ _ Hst), getScanResult_run.
    destruct (storeUp_next (storedItem r) w 1 Hup) as [Ht Hup'].
    pose proof (Hup' 0%nat ltac:(lia)) as Hget. simpl in Hget.
    rewrite Hget, Ht.
    change (scanId r) with (scanId (Storage.scan (storedItem r))).
    change "METADATA" with (Storage.resourceId (storedItem r)).
    rewrite getItem_putItem. eexists. reflexivity. }
  repeat split.
  - intros t E. simpl. rewrite E. reflexivity.
  - intros t E. simpl. rewrite E. reflexivity.
  - intros t E. simpl. rewrite E. reflexivity.
  - intros r' H H' E. apply storedForm_inj; assumption.
Qed.

(** ** The latest scan *)

Lemma startedAt_key (it : Storage.StorageItem) (t : Z) :
  startedAt it t -> DynamoDB.sortKey it = Js.toISOString t.
Proof. intros [_ [H _]]. unfold DynamoDB.sortKey. rewrite H. reflexivity. Qed.

Lemma startedAt_fun (it : Storage.StorageItem) (t t' : Z) :
  startedAt it t -> startedAt it t' -> t = t'.
Proof.
  intros H H'. apply toISOString_inj.
  - apply H.
  - apply H'.
  - rewrite <- (startedAt_key it t H). apply (startedAt_key it t' H').
Qed.

Lemma startedAt_ltb (x y : Storage.StorageItem) (tx ty : Z) :
  startedAt x tx -> startedAt y ty ->
  String.ltb (DynamoDB.sortKey x) (DynamoDB.sortKey y) = (tx <? ty).
Proof.
  intros Hx Hy. rewrite (startedAt_key x tx Hx), (startedAt_key y ty Hy).
  apply toISOString_ltb; [apply Hx | apply Hy].
Qed.

Lemma stored_startedAt (r : ScanResult) (t : Z) :
  startTime r = DateObj (Some t) -> fourDigitYear t -> startedAt (storedItem r) t.
Proof.
  intros Hs Ht. unfold startedAt, storedItem. simpl. rewrite Hs. simpl. auto.
Qed.

Lemma newest_spec (items : list Storage.StorageItem) :
  (forall it, In it items -> exists t, startedAt it t) ->
  match DynamoDB.newest items with
  | None => items = []
  | Some m =>
      exists before after,
        items = (before ++ m :: after)%list
        /\ (forall o t tm, In o before -> startedAt o t -> startedAt m tm -> t <= tm)
        /\ (forall o t tm, In o after -> startedAt o t -> startedAt m tm -> t < tm)
  end.
Proof.
  induction items as [| x rest IH]; intros Hall; [reflexivity |].
  assert (Hrest : forall it, In it rest -> exists t, startedAt it t)
    by (intros it Hit; apply Hall; right; exact Hit).
  specialize (IH Hrest). simpl.
  destruct (Hall x (or_introl eq_refl)) as [tx Hx].
  destruct (DynamoDB.newest rest) as [y |].
  - destruct IH as [before [after [E [Hb Ha]]]].
    assert (Hiny : In y rest) by (rewrite E; apply in_elt).
    destruct (Hrest y Hiny) as [ty Hy].
    rewrite (startedAt_ltb y x ty tx Hy Hx).
    destruct (Z.ltb_spec ty tx) as [Hlt | Hge].
    + exists [], rest. split; [reflexivity |]. split; [intros o t tm [] |].
      intros o t tm Ho Hot Hxm.
      rewrite (startedAt_fun x tm tx Hxm Hx).
      rewrite E in Ho. apply in_app_or in Ho as [Ho | [<- | Ho]].
      * pose proof (Hb o t ty Ho Hot Hy). lia.
      * rewrite (startedAt_fun y t ty Hot Hy). exact Hlt.
      * pose proof (Ha o t ty Ho Hot Hy). lia.
    + exists (x :: before), after. split; [rewrite E; reflexivity |].
      split; [| exact Ha].
      intros o t tm [<- | Ho] Hot Hym.
      * rewrite (startedAt_fun x t tx Hot Hx), (startedAt_fun y tm ty Hym Hy).
        exact Hge.
      * apply (Hb o t tm Ho Hot Hym).
  - subst rest. exists [], []. split; [reflexivity |].
    split; intros o t tm [].
Qed.

Lemma scan_records (tbl : list Storage.StorageItem) :
  (forall it, In it tbl -> exists t, startedAt it t) ->
  filter (fun it => String.eqb (Storage.recordType it) "SCAN") tbl = tbl.
Proof.
  induction tbl as [| x tbl IH]; intros H; [reflexivity |].
  simpl. destruct (H x (or_introl eq_refl)) as [t [Hr _]].
  rewrite Hr. simpl. rewrite IH; [reflexivity |].
  intros it Hit. apply H. right. exact Hit.
Qed.

Lemma latest_of_two (a b : ScanResult) (ta tb : Z) (w : World) :
  table w = [] -> storeUp w 3 ->
  storable a = true -> storable b = true ->
  startTime a = DateObj (Some ta) -> startTime b = DateObj (Some tb) ->
  fourDigitYear ta -> fourDigitYear tb ->
  fst (saveThen a (saveThen b DynamoDB.getLatestScanResult) w) =
  Ok (if String.eqb (scanId a) (scanId b) then Some (storedItem b)
      else if ta <? tb then Some (storedItem b)
      else if tb <? ta then Some (storedItem a)
      else Some (storedItem b)).
Proof.
  intros Hempty Hup Ha Hb Hsa Hsb Hta Htb.
  rewrite (saveThen_run _ _ _ Ha).
  destruct (storeUp_next (storedItem a) w 2 Hup) as [Ht1 Hup1].
  rewrite (saveThen_run _ _ _ Hb).
  destruct (storeUp_next (storedItem b) _ 1 Hup1) as [Ht2 Hup2].
  rewrite getLatestScanResult_run.
  pose proof (Hup2 0%nat ltac:(lia)) as Hq. simpl in Hq. rewrite Hq.
  rewrite Ht2, Ht1, Hempty. cbn [fst].
  unfold DynamoDB.putItem, DynamoDB.hasKey.
  cbn [filter app storedItem Storage.scan Storage.resourceId storedForm scanId].
  rewrite String.eqb_refl, andb_true_r.
  pose proof (stored_startedAt a ta Hsa Hta) as Hat.
  pose proof (stored_startedAt b tb Hsb Htb) as Hbt.
  destruct (String.eqb (scanId a) (scanId b)); cbn.
  - reflexivity.
  - rewrite (startedAt_ltb _ _ _ _ Hbt Hat).
    destruct (Z.ltb_spec tb ta) as [H1 | H1].
    + destruct (Z.ltb_spec ta tb); [lia | reflexivity].
    + destruct (ta <? tb); reflexivity.
Qed.

(** C8 as amended. Let every record of the table be that of a scan
    started at an instant of the years 0 to 9999, and let the query of
    the index succeed.  Then [getLatestScanResult] returns no record
    when the table is empty, and otherwise the record of a scan started
    no earlier than the scans written before it and later than the scans
    written after it, whatever the status of any of them.  The record of
    a saved scan result is such a record.  After saving two scans
    started at [t1 < t2], in either order when their identifiers differ,
    it returns the record of the second.  When the query fails it
    returns no record, whatever the table holds. *)
Theorem latest_is_most_recently_started :
  (forall w : World,
      (forall it, In it (table w) -> exists t, startedAt it t) ->
      storeUp w 1 ->
      (table w = [] -> fst (DynamoDB.getLatestScanResult w) = Ok None)
      /\ (table w <> [] ->
          exists it before after,
            fst (DynamoDB.getLatestScanResult w) = Ok (Some it)
            /\ table w = (before ++ it :: after)%list
            /\ (forall o t tm, In o before -> startedAt o t -> startedAt it tm ->
                  t <= tm)
            /\ (forall o t tm, In o after -> startedAt o t -> startedAt it tm ->
                  t < tm)))
  /\ (forall (r : ScanResult) (t : Z),
         startTime r = DateObj (Some t) -> fourDigitYear t ->
         startedAt (storedItem r) t)
  /\ (forall (w : World) (r1 r2 : ScanResult) (t1 t2 : Z),
         table w = [] -> storeUp w 3 ->
         storable r1 = true -> storable r2 = true ->
         startTime r1 = DateObj (Some t1) -> startTime r2 = DateObj (Some t2) ->
         fourDigitYear t1 -> fourDigitYear t2 -> t1 < t2 ->
         fst (saveThen r1 (saveThen r2 DynamoDB.getLatestScanResult) w)
         = Ok (Some (storedItem r2))
         /\ (scanId r1 <> scanId r2 ->
             fst (saveThen r2 (saveThen r1 DynamoDB.getLatestScanResult) w)
             = Ok (Some (storedItem r2))))
  /\ (forall (w : World) (e : JsError),
         ddbFault w (List.length (sent w)) = Some e ->
         fst (DynamoDB.getLatestScanResult w) = Ok None).
Proof.
  split; [| split; [| split]].
  - intros w Hall Hup.
    pose proof (Hup 0%nat ltac:(lia)) as Hq. simpl in Hq.
    rewrite getLatestScanResult_run, Hq, (scan_records _ Hall). cbn [fst].
    pose proof (newest_spec (table w) Hall) as Hn.
    destruct (DynamoDB.newest (table w)) as [m |].
    + split; [intros E; rewrite E in Hn; destruct Hn as [b [a [Hn _]]];
              destruct b; discriminate |].
      intros _. destruct Hn as [before [after Hn]].
      exists m, before, after. split; [reflexivity | exact Hn].
    + split; [reflexivity | intros Hne; contradiction].
  - apply stored_startedAt.
  - intros w r1 r2 t1 t2 He Hup H1 H2 Hs1 Hs2 Ht1 Ht2 Hlt. split.
    + rewrite (latest_of_two r1 r2 t1 t2 w He Hup H1 H2 Hs1 Hs2 Ht1 Ht2).
      destruct (String.eqb _ _); [reflexivity |].
      destruct (Z.ltb_spec t1 t2); [reflexivity | lia].
    + intros Hid.
      rewrite (latest_of_two r2 r1 t2 t1 w He Hup H2 H1 Hs2 Hs1 Ht2 Ht1).
      destruct (String.eqb_spec (scanId r2) (scanId r1)) as [E | _];
        [congruence |].
      destruct (Z.ltb_spec t2 t1); [lia |].
      destruct (Z.ltb_spec t1 t2); [reflexivity | lia].
  - intros w e Hf. rewrite getLatestScanResult_run, Hf. reflexivity.
Qed.

End ResultStore.

(* ================================================================== *)
(** * Worked runs *)
(* ================================================================== *)

Section WorkedRuns.

Import Types.

Lemma sampleWorld_up (n : nat) : storeUp sampleWorld n.
Proof. intros k _. reflexivity. Defined.

Lemma in_2023 : fourDigitYear 1700000000000.
Proof. unfold fourDigitYear, isoFirst, isoLimit. lia. Defined.

Lemma in_2023_later : fourDigitYear 1700000000500.
Proof. unfold fourDigitYear, isoFirst, isoLimit. lia. Defined.

(** C2, on the aborted world: the scan fails, and is returned; its
    record is the one command sent, and reaches the table once the put
    is answered. *)
Lemma runFullScan_never_raises_witness :
  exists r w',
    ScanService.runFullScan sampleCloud abortedWorld = (Ok r, w')
    /\ scanStatus r = failed_
    /\ sent w' = [Storage.PutItemCommand (storedItem r)]
    /\ table w' = []
    /\ table (DynamoDB.settle w') = [storedItem r].
Proof.
  destruct (runFullScan_never_raises sampleCloud abortedWorld)
    as [r [w' [item [H1 [H2 [_ [H4 [H5 [_ [_ [_ [_ [_ [_ [_ [_ [_ [_ [_ [H11 [_ [H13 _]]]]]]]]]]]]]]]]]]]]]].
  subst item.
  exists r, w'. split; [exact H1 |]. split.
  - apply (H2 1%nat accessDenied); [reflexivity | lia].
  - split; [exact H4 |]. split; [exact H11 |].
    rewrite (H13 eq_refl). reflexivity.
Defined.

(** C3, on the sample account, whose listing of users is refused: the
    scan completes, the one finding for IAM reports the refusal, and the
    three findings for the bucket are there. *)
Lemma failed_collection_witness :
  collectionRaises sampleCloud ProvIAM accessDenied
  /\ abort sampleWorld = None
  /\ exists r w',
       ScanService.runFullScan sampleCloud sampleWorld = (Ok r, w')
       /\ scanStatus r = completed
       /\ contributed ProvIAM (findings r) =
          [ScanService.setTimestamp (DateObj (Some 1700000000002))
             (scanError ProvIAM accessDenied)]
       /\ List.length (contributed ProvS3 (findings r)) = 3%nat.
Proof.
  split; [reflexivity |]. split; [reflexivity |].
  destruct (failed_collection_yields_one_error_finding
              sampleCloud sampleWorld ProvIAM accessDenied eq_refl eq_refl)
    as [r [w' [H1 [H2 [_ [H4 [_ [_ [_ [_ [_ [_ [H11 _]]]]]]]]]]]]].
  exists r, w'. split; [exact H1 |]. split; [exact H2 |]. split; [exact H4 |].
  destruct (H11 ProvS3) as [fs [Hfs Hc]].
  rewrite Hc, length_map.
  assert (E : Ok fs = scanner ProvS3 sampleCloud) by (symmetry; exact Hfs).
  vm_compute in E. injection E as ->. reflexivity.
Defined.

(** C4, on the rule parsed from the private range. *)
Lemma open_to_world_witness :
  In privateRule (AwsEC2.parseInboundRules samplePermissions)
  /\ AwsEC2.isOpenToWorld_ privateRule = false
  /\ AwsEC2.ruleOpensPort 22 privateRule = false.
Proof.
  assert (Hin : In privateRule (AwsEC2.parseInboundRules samplePermissions))
    by (right; left; reflexivity).
  split; [exact Hin |].
  destruct (open_to_world_iff_wildcard_cidr samplePermissions privateRule Hin)
    as [_ H].
  destruct (H eq_refl) as [H1 H2].
  split; [exact H1 | apply H2].
Defined.


(** C6, on the scan of the sample account. *)
Lemma one_timestamp_witness :
  exists r w',
    ScanService.runFullScan sampleCloud sampleWorld = (Ok r, w')
    /\ List.length (findings r) = 7%nat
    /\ forall f, In f (findings r) ->
                 timestamp f = Some (DateObj (Some 1700000000002)).
Proof.
  pose proof (runFullScan_run sampleCloud sampleWorld) as Hrun.
  eexists. eexists. split; [exact Hrun |].
  split; [vm_compute; reflexivity |].
  apply (findings_share_one_timestamp _ _ _ _ Hrun).
Defined.

(** C9, on the bucket of the sample account. *)
Lemma public_access_witness :
  exists b,
    AwsS3.getAllBucketsInfo sampleS3 = Ok [b]
    /\ status (S3Scanner.checkPublicAccess b) = PASS
    /\ severity (S3Scanner.checkPublicAccess b) = LOW.
Proof.
  eexists. split; [reflexivity |].
  match goal with
  | |- status (S3Scanner.checkPublicAccess ?b) = _ /\ _ =>
      destruct (public_access_check_follows_the_four_flags
                  sampleS3 [b] b eq_refl (or_introl eq_refl)) as [_ [H _]]
  end.
  apply H. repeat split.
Defined.

(** C10, on the first finding of the scan of the sample account. *)
Lemma passing_findings_witness :
  exists r w' f,
    ScanService.runFullScan sampleCloud sampleWorld = (Ok r, w')
    /\ In f (findings r)
    /\ status f = PASS
    /\ severity f = LOW.
Proof.
  destruct passing_findings_have_low_severity as [_ [_ [_ [_ [_ [_ H]]]]]].
  pose proof (runFullScan_run sampleCloud sampleWorld) as Hrun.
  eexists. eexists. eexists. split; [exact Hrun |].
  assert (Hin : In (hd (S3Scanner.scanError accessDenied)
                       (findings (scanOf sampleCloud sampleWorld)))
                   (findings (scanOf sampleCloud sampleWorld)))
    by (vm_compute; left; reflexivity).
  split; [exact Hin |].
  split; [vm_compute; reflexivity |].
  apply (H sampleCloud sampleWorld _ _ _ Hrun Hin).
  vm_compute. reflexivity.
Defined.

Lemma scanOf10000_valid : validDates scanOf10000.
Proof.
  assert (Hd : validDate (DateObj (Some 253402300800000)))
    by (eexists; split; [reflexivity | unfold validTime; lia]).
  split; [exact Hd |]. split; [exact Hd |]. split; [exact Hd | constructor].
Defined.

(** C7, on a scan of 2023: read back, the start time is a string; and
    on a scan of the year 10000, which its stored form determines. *)
Lemma read_back_witness :
  storable scanOf2023 = true
  /\ storeUp sampleWorld 2
  /\ (exists w',
         saveThen scanOf2023 (DynamoDB.getScanResult (scanId scanOf2023)) sampleWorld
         = (Ok (Some (storedItem scanOf2023)), w'))
  /\ validDates scanOf10000
  /\ (forall r', validDates r' -> storedForm r' = storedForm scanOf10000 ->
                 r' = scanOf10000).
Proof.
  split; [reflexivity |]. split; [apply sampleWorld_up |].
  split.
  - apply (read_back_is_the_stored_form scanOf2023 sampleWorld eq_refl
             (sampleWorld_up 2)).
  - split; [exact scanOf10000_valid |].
    intros r' Hr' E.
    destruct (read_back_is_the_stored_form scanOf10000 sampleWorld eq_refl
                (sampleWorld_up 2))
      as [_ [_ [_ [_ [_ [_ [_ [_ [_ [_ [_ [_ [_ [_ H]]]]]]]]]]]]]].
    exact (H r' scanOf10000_valid Hr' E).
Defined.

(** C7 as stated fails: the scan result read back is not the one saved;
    its start time is the string [2023-11-14T22:13:20.000Z] where the
    scan saved holds a date. *)
Lemma read_back_differs_from_saved :
  exists item w',
    saveThen scanOf2023 (DynamoDB.getScanResult (scanId scanOf2023)) sampleWorld
    = (Ok (Some item), w')
    /\ startTime scanOf2023 = DateObj (Some 1700000000000)
    /\ startTime (Storage.scan item) = DateStr "2023-11-14T22:13:20.000Z"
    /\ Storage.scan item <> scanOf2023.
Proof.
  eexists. eexists. split; [reflexivity |].
  split; [reflexivity |]. split; [reflexivity |].
  intros E. apply (f_equal startTime) in E. discriminate E.
Qed.

(** C8, on a completed scan and a failed scan started half a second
    later: the failed one is the latest, in whichever order the two are
    saved. *)
Lemma latest_witness :
  fst (saveThen scanOf2023 (saveThen laterScan DynamoDB.getLatestScanResult)
         sampleWorld) = Ok (Some (storedItem laterScan))
  /\ fst (saveThen laterScan (saveThen scanOf2023 DynamoDB.getLatestScanResult)
            sampleWorld) = Ok (Some (storedItem laterScan))
  /\ scanStatus laterScan = failed_.
Proof.
  destruct latest_is_most_recently_started as [_ [_ [H _]]].
  destruct (H sampleWorld scanOf2023 laterScan 1700000000000 1700000000500
              eq_refl (sampleWorld_up 3) eq_refl eq_refl eq_refl eq_refl
              in_2023 in_2023_later ltac:(lia)) as [H1 H2].
  split; [exact H1 |]. split; [| reflexivity].
  apply H2. discriminate.
Defined.

(** C8 as stated fails twice.  With a scan in the table and a store
    that refuses the query, no scan is returned.  And of a scan of 2023
    and a scan of the year 10000, the scan of 2023 is returned: the
    string of the year 10000 starts with a sign, which sorts before
    every digit. *)
Lemma latest_is_not_always_the_most_recent :
  (table storeDownWorld = [storedItem scanOf2023]
   /\ fst (DynamoDB.getLatestScanResult storeDownWorld) = Ok None)
  /\ (startTime scanOf2023 = DateObj (Some 1700000000000)
      /\ startTime scanOf10000 = DateObj (Some 253402300800000)
      /\ fst (saveThen scanOf2023
                (saveThen scanOf10000 DynamoDB.getLatestScanResult) sampleWorld)
         = Ok (Some (storedItem scanOf2023))
      /\ Storage.createdAt (storedItem scanOf10000)
         = DateStr "+010000-01-01T00:00:00.000Z").
Proof. repeat split. Qed.

End WorkedRuns.

(* ================================================================== *)
(** * The collectors and their scanners, resource by resource *)
(* ================================================================== *)

Section Buckets.

Import Types.

Lemma truthy_not_empty (s : option string) :
  Js.truthyStr s = true -> Js.strOr s "" <> "".
Proof.
  destruct s as [x |]; simpl; [| discriminate].
  destruct (String.eqb_spec x ""); simpl; [discriminate | auto].
Qed.

Lemma getBucketRegion_run (c : AwsS3.Client) (n : string) :
  AwsS3.getBucketRegion c n =
  Ok (match AwsS3.GetBucketLocation c n with
      | Ok response => Js.strOr response "us-east-1"
      | Throw _ => "unknown"
      end).
Proof.
  unfold AwsS3.getBucketRegion. destruct (AwsS3.GetBucketLocation c n); reflexivity.
Qed.

Lemma getBucketEncryption_ok (c : AwsS3.Client) (n : string) :
  exists x, AwsS3.getBucketEncryption c n = Ok x
            /\ (forall e, AwsS3.GetBucketEncryption c n = Throw e ->
                          AwsS3.enabled x = false).
Proof.
  unfold AwsS3.getBucketEncryption.
  destruct (AwsS3.GetBucketEncryption c n) as [response | e]; simpl.
  - destruct (Js.listOr _); eexists; (split; [reflexivity | discriminate]).
  - destruct (String.eqb _ _); eexists; (split; [reflexivity | reflexivity]).
Qed.

Lemma getBucketVersioning_ok (c : AwsS3.Client) (n : string) :
  exists x, AwsS3.getBucketVersioning c n = Ok x
            /\ (forall e, AwsS3.GetBucketVersioning c n = Throw e ->
                          AwsS3.versioningEnabled x = false).
Proof.
  unfold AwsS3.getBucketVersioning.
  destruct (AwsS3.GetBucketVersioning c n) as [response | e]; simpl;
    eexists; (split; [reflexivity |]); [discriminate | reflexivity].
Qed.

Lemma getPublicAccessBlock_ok (c : AwsS3.Client) (n : string) :
  exists x, AwsS3.getPublicAccessBlock c n = Ok x
            /\ (forall e, AwsS3.GetPublicAccessBlock c n = Throw e ->
                          AwsS3.isFullyBlocked x = false).
Proof.
  unfold AwsS3.getPublicAccessBlock.
  destruct (AwsS3.GetPublicAccessBlock c n) as [response | e]; simpl.
  - eexists; (split; [reflexivity | discriminate]).
  - destruct (String.eqb _ _); eexists; (split; [reflexivity | reflexivity]).
Qed.

Lemma bucketsInfo_ok (c : AwsS3.Client) (buckets : list AwsS3.Bucket) :
  exists infos,
    AwsS3.bucketsInfo c buckets = Ok infos
    /\ map AwsS3.name infos = named AwsS3.Name buckets
    /\ (forall b, In b infos -> bucketFrom c b).
Proof.
  unfold named.
  induction buckets as [| bucket rest [infos [E [Hn Hall]]]]; simpl.
  - exists []. split; [reflexivity |]. split; [reflexivity |]. intros x [].
  - destruct (Js.truthyStr (AwsS3.Name bucket)) eqn:Ht.
    + unfold AwsS3.bucketInfo.
      pose proof (getBucketRegion_run c (Js.strOr (AwsS3.Name bucket) "")) as Hr.
      destruct (getBucketEncryption_ok c (Js.strOr (AwsS3.Name bucket) ""))
        as [en [He _]].
      destruct (getBucketVersioning_ok c (Js.strOr (AwsS3.Name bucket) ""))
        as [ve [Hv _]].
      destruct (getPublicAccessBlock_ok c (Js.strOr (AwsS3.Name bucket) ""))
        as [pa [Hp _]].
      rewrite Hr, He, Hv, Hp, E. simpl.
      eexists. split; [reflexivity |]. split; [simpl; rewrite Hn; reflexivity |].
      intros b [<- | Hb]; [| apply Hall; exact Hb].
      unfold bucketFrom. simpl.
      split; [apply truthy_not_empty; exact Ht |]. auto.
    + exists infos. split; [exact E |]. split; [exact Hn | exact Hall].
Qed.

(** X1. The collection of buckets rejects exactly when the listing of
    buckets does: no lookup on one bucket can make it fail.  When the
    listing succeeds, there is one record for each bucket listed with a
    name, in the order of the listing, and no record has an empty
    name. *)
Theorem bucket_collection_fails_only_with_the_listing (c : AwsS3.Client) :
  (forall e, AwsS3.getAllBucketsInfo c = Throw e <-> AwsS3.ListBuckets c = Throw e)
  /\ (forall response,
         AwsS3.ListBuckets c = Ok response ->
         exists infos,
           AwsS3.getAllBucketsInfo c = Ok infos
           /\ map AwsS3.name infos = named AwsS3.Name (Js.listOr response)
           /\ (forall b, In b infos -> AwsS3.name b <> "")).
Proof.
  unfold AwsS3.getAllBucketsInfo, AwsS3.listBuckets.
  destruct (AwsS3.ListBuckets c) as [response | e0]; simpl.
  - destruct (bucketsInfo_ok c (Js.listOr response)) as [infos [E [Hn Hall]]].
    rewrite E. split.
    + intros e. split; discriminate.
    + intros r H. injection H as <-. exists infos.
      split; [reflexivity |]. split; [exact Hn |].
      intros b Hb. apply (Hall b Hb).
  - split.
    + intros e. split; intros H; injection H as ->; reflexivity.
    + intros r H. discriminate.
Qed.

Lemma collected_bucket (c : AwsS3.Client) (buckets : list AwsS3.S3BucketInfo)
    (b : AwsS3.S3BucketInfo) :
  AwsS3.getAllBucketsInfo c = Ok buckets -> In b buckets -> bucketFrom c b.
Proof.
  unfold AwsS3.getAllBucketsInfo, AwsS3.listBuckets.
  destruct (AwsS3.ListBuckets c) as [response | e0]; simpl; [| discriminate].
  destruct (bucketsInfo_ok c (Js.listOr response)) as [infos [E [_ Hall]]].
  rewrite E. intros H. injection H as <-. apply Hall.
Qed.

(** X2. A lookup that fails for a bucket is read as the unsafe answer:
    when the public-access lookup rejects, the public-access check of
    the bucket fails with severity HIGH; when the encryption lookup
    rejects, the encryption check fails with severity MEDIUM; when the
    versioning lookup rejects, the versioning check fails with severity
    LOW; when the location lookup rejects, the region is [unknown]. *)
Theorem failed_bucket_lookup_fails_the_check
    (c : AwsS3.Client) (buckets : list AwsS3.S3BucketInfo) (b : AwsS3.S3BucketInfo) :
  AwsS3.getAllBucketsInfo c = Ok buckets ->
  In b buckets ->
  (forall e, AwsS3.GetPublicAccessBlock c (AwsS3.name b) = Throw e ->
             status (S3Scanner.checkPublicAccess b) = FAIL
             /\ severity (S3Scanner.checkPublicAccess b) = HIGH)
  /\ (forall e, AwsS3.GetBucketEncryption c (AwsS3.name b) = Throw e ->
                status (S3Scanner.checkEncryption b) = FAIL
                /\ severity (S3Scanner.checkEncryption b) = MEDIUM)
  /\ (forall e, AwsS3.GetBucketVersioning c (AwsS3.name b) = Throw e ->
                status (S3Scanner.checkVersioning b) = FAIL
                /\ severity (S3Scanner.checkVersioning b) = LOW)
  /\ (forall e, AwsS3.GetBucketLocation c (AwsS3.name b) = Throw e ->
                AwsS3.region b = "unknown"
                /\ region (S3Scanner.checkPublicAccess b) = Some "unknown").
Proof.
  intros Hall Hin.
  destruct (collected_bucket c buckets b Hall Hin) as [_ [Hr [He [Hv Hp]]]].
  repeat apply conj; intros e Hthrow.
  - destruct (getPublicAccessBlock_ok c (AwsS3.name b)) as [x [Hx Hf]].
    rewrite Hp in Hx. injection Hx as <-.
    unfold S3Scanner.checkPublicAccess. simpl. rewrite (Hf e Hthrow). auto.
  - destruct (getBucketEncryption_ok c (AwsS3.name b)) as [x [Hx Hf]].
    rewrite He in Hx. injection Hx as <-.
    unfold S3Scanner.checkEncryption. simpl. rewrite (Hf e Hthrow). auto.
  - destruct (getBucketVersioning_ok c (AwsS3.name b)) as [x [Hx Hf]].
    rewrite Hv in Hx. injection Hx as <-.
    unfold S3Scanner.checkVersioning. simpl. rewrite (Hf e Hthrow). auto.
  - rewrite getBucketRegion_run, Hthrow in Hr. injection Hr as Hr.
    simpl. rewrite <- Hr. auto.
Qed.

End Buckets.

Section Users.

Import Types.

Lemma userHasMFA_run (c : AwsIAM.Client) (n : string) :
  AwsIAM.userHasMFA c n =
  Ok (match AwsIAM.ListMFADevices c n with
      | Ok (Some (_ :: _)) => true
      | _ => false
      end).
Proof.
  unfold AwsIAM.userHasMFA.
  destruct (AwsIAM.ListMFADevices c n) as [[[| d ds] |] | e]; reflexivity.
Qed.

Lemma userHasConsoleAccess_run (c : AwsIAM.Client) (n : string) :
  AwsIAM.userHasConsoleAccess c n =
  Ok (match AwsIAM.GetLoginProfile c n with
      | Ok _ => true
      | Throw _ => false
      end).
Proof.
  unfold AwsIAM.userHasConsoleAccess.
  destruct (AwsIAM.GetLoginProfile c n) as [[] | e]; simpl; [reflexivity |].
  destruct (String.eqb _ _); reflexivity.
Qed.

Lemma getUserAttachedPolicies_run (c : AwsIAM.Client) (n : string) :
  AwsIAM.getUserAttachedPolicies c n =
  Ok (match AwsIAM.ListAttachedUserPolicies c n with
      | Ok response => Js.listOr response
      | Throw _ => []
      end).
Proof.
  unfold AwsIAM.getUserAttachedPolicies.
  destruct (AwsIAM.ListAttachedUserPolicies c n); reflexivity.
Qed.

Lemma usersInfo_ok (c : AwsIAM.Client) (users : list AwsIAM.User) :
  exists infos,
    AwsIAM.usersInfo c users = Ok infos
    /\ map AwsIAM.userName infos = named AwsIAM.UserName users
    /\ (forall u, In u infos -> userFrom c u).
Proof.
  unfold named.
  induction users as [| user rest [infos [E [Hn Hall]]]]; simpl.
  - exists []. split; [reflexivity |]. split; [reflexivity |]. intros x [].
  - destruct (Js.truthyStr (AwsIAM.UserName user)) eqn:Ht.
    + unfold AwsIAM.userInfo.
      rewrite userHasMFA_run, userHasConsoleAccess_run, getUserAttachedPolicies_run.
      simpl. rewrite E. simpl.
      eexists. split; [reflexivity |]. split; [simpl; rewrite Hn; reflexivity |].
      intros u [<- | Hu]; [| apply Hall; exact Hu].
      unfold userFrom. simpl.
      rewrite userHasMFA_run, userHasConsoleAccess_run, getUserAttachedPolicies_run.
      split; [apply truthy_not_empty; exact Ht |].
      split; [reflexivity |]. split; [reflexivity |].
      split; [eexists; split; reflexivity | reflexivity].
    + exists infos. split; [exact E |]. split; [exact Hn | exact Hall].
Qed.

Lemma collected_user (c : AwsIAM.Client) (users : list AwsIAM.IAMUserInfo)
    (u : AwsIAM.IAMUserInfo) :
  AwsIAM.getAllUsersInfo c = Ok users -> In u users -> userFrom c u.
Proof.
  unfold AwsIAM.getAllUsersInfo, AwsIAM.listUsers.
  destruct (AwsIAM.ListUsers c) as [response | e0]; simpl; [| discriminate].
  destruct (usersInfo_ok c (Js.listOr response)) as [infos [E [_ Hall]]].
  rewrite E. intros H. injection H as <-. apply Hall.
Qed.

(** X3. For every user record that the collector builds, the user has
    console access exactly when the lookup of a login profile succeeds,
    and has MFA exactly when the listing of MFA devices succeeds with at
    least one device.  The MFA check fails, with severity HIGH, exactly
    when the user has console access and no MFA; a user without console
    access passes with severity LOW whatever the MFA state. *)
Theorem mfa_check_needs_console_access
    (c : AwsIAM.Client) (users : list AwsIAM.IAMUserInfo) (u : AwsIAM.IAMUserInfo) :
  AwsIAM.getAllUsersInfo c = Ok users ->
  In u users ->
  (AwsIAM.hasConsoleAccess u = true <->
   AwsIAM.GetLoginProfile c (AwsIAM.userName u) = Ok tt)
  /\ (AwsIAM.hasMFA u = true <->
      exists d ds, AwsIAM.ListMFADevices c (AwsIAM.userName u) = Ok (Some (d :: ds)))
  /\ (status (IAMScanner.checkMFAEnabled u) = FAIL <->
      AwsIAM.hasConsoleAccess u = true /\ AwsIAM.hasMFA u = false)
  /\ (status (IAMScanner.checkMFAEnabled u) = FAIL ->
      severity (IAMScanner.checkMFAEnabled u) = HIGH)
  /\ (AwsIAM.hasConsoleAccess u = false ->
      status (IAMScanner.checkMFAEnabled u) = PASS
      /\ severity (IAMScanner.checkMFAEnabled u) = LOW).
Proof.
  intros Hall Hin.
  destruct (collected_user c users u Hall Hin) as [_ [Hm [Hc _]]].
  rewrite userHasMFA_run in Hm. rewrite userHasConsoleAccess_run in Hc.
  injection Hm as Hm. injection Hc as Hc.
  split.
  { rewrite <- Hc. destruct (AwsIAM.GetLoginProfile c _) as [[] | e];
      split; intros H; try reflexivity; discriminate. }
  split.
  { rewrite <- Hm.
    destruct (AwsIAM.ListMFADevices c _) as [[[| d ds] |] | e];
      split; intros H; try discriminate H; try reflexivity;
      try (match type of H with
           | exists _, _ => destruct H as [d' [ds' H']]; discriminate H'
           end).
    exists d, ds. reflexivity. }
  unfold IAMScanner.checkMFAEnabled.
  destruct (AwsIAM.hasConsoleAccess u), (AwsIAM.hasMFA u); simpl;
    repeat split; intros; try discriminate; try tauto;
    match goal with H : _ /\ _ |- _ => destruct H; discriminate end.
Qed.

Lemma isAdminPolicy_spec (arn : string) :
  AwsIAM.isAdminPolicy arn = true <->
  arn = "arn:aws:iam::aws:policy/AdministratorAccess"
  \/ arn = "arn:aws:iam::aws:policy/PowerUserAccess"
  \/ arn = "arn:aws:iam::aws:policy/IAMFullAccess".
Proof.
  unfold AwsIAM.isAdminPolicy, Js.includes, AwsIAM.ADMIN_POLICY_ARNS.
  cbn [existsb]. rewrite !orb_true_iff, !String.eqb_eq.
  intuition discriminate.
Qed.

(** X4. For every user record that the collector builds, the attached
    policies are those that the listing of attached policies returns
    (none when it fails), and the user has admin access exactly when one
    of them is, character for character, one of the three ARNs
    [AdministratorAccess], [PowerUserAccess] and [IAMFullAccess].  The
    admin check fails, with severity HIGH, exactly then. *)
Theorem admin_check_matches_three_arns
    (c : AwsIAM.Client) (users : list AwsIAM.IAMUserInfo) (u : AwsIAM.IAMUserInfo) :
  AwsIAM.getAllUsersInfo c = Ok users ->
  In u users ->
  AwsIAM.attachedPolicies u =
    map (fun p => Js.strOr (AwsIAM.PolicyArn p) "")
        (match AwsIAM.ListAttachedUserPolicies c (AwsIAM.userName u) with
         | Ok response => Js.listOr response
         | Throw _ => []
         end)
  /\ (AwsIAM.hasAdminAccess u = true <->
      exists arn,
        In arn (AwsIAM.attachedPolicies u)
        /\ (arn = "arn:aws:iam::aws:policy/AdministratorAccess"
            \/ arn = "arn:aws:iam::aws:policy/PowerUserAccess"
            \/ arn = "arn:aws:iam::aws:policy/IAMFullAccess"))
  /\ (status (IAMScanner.checkAdminAccess u) = FAIL <->
      AwsIAM.hasAdminAccess u = true)
  /\ (status (IAMScanner.checkAdminAccess u) = FAIL ->
      severity (IAMScanner.checkAdminAccess u) = HIGH).
Proof.
  intros Hall Hin.
  destruct (collected_user c users u Hall Hin)
    as [_ [_ [_ [[attached [Ha Hp]] Hadmin]]]].
  rewrite getUserAttachedPolicies_run in Ha. injection Ha as Ha.
  split; [rewrite Hp, Ha; reflexivity |].
  split.
  { rewrite Hadmin, existsb_exists.
    split; intros [arn [H1 H2]]; exists arn; (split; [exact H1 |]);
      apply isAdminPolicy_spec; exact H2. }
  unfold IAMScanner.checkAdminAccess. simpl.
  destruct (AwsIAM.hasAdminAccess u); repeat split; intros; try discriminate;
    reflexivity.
Qed.

End Users.

Section Listings.

Import Types.

(** X5. Each of the other collections rejects exactly when one of its
    listings does: the users with [ListUsers]; the databases with
    [DescribeDBInstances]; the instances and security groups together
    when either [DescribeInstances] or [DescribeSecurityGroups] rejects;
    the users and the account summary together when either [ListUsers]
    or [GetAccountSummary] rejects. *)
Theorem collections_fail_only_with_a_listing :
  (forall c e, AwsIAM.getAllUsersInfo c = Throw e <-> AwsIAM.ListUsers c = Throw e)
  /\ (forall c e, AwsRDS.getAllRDSInfo c = Throw e <->
                  AwsRDS.DescribeDBInstances c = Throw e)
  /\ (forall c,
         (exists e, AwsEC2.getEC2SecurityInfo c = Throw e) <->
         (exists e, AwsEC2.DescribeInstances c = Throw e)
         \/ (exists e, AwsEC2.DescribeSecurityGroups c = Throw e))
  /\ (forall c,
         (exists e, IAMScanner.collect c = Throw e) <->
         (exists e, AwsIAM.ListUsers c = Throw e)
         \/ (exists e, AwsIAM.GetAccountSummary c = Throw e)).
Proof.
  split; [| split; [| split]].
  - intros c e. unfold AwsIAM.getAllUsersInfo, AwsIAM.listUsers.
    destruct (AwsIAM.ListUsers c) as [response | e0]; simpl.
    + destruct (usersInfo_ok c (Js.listOr response)) as [infos [E _]].
      rewrite E. split; discriminate.
    + split; intros H; injection H as ->; reflexivity.
  - intros c e. unfold AwsRDS.getAllRDSInfo, AwsRDS.listDBInstances.
    destruct (AwsRDS.DescribeDBInstances c) as [response | e0]; simpl.
    + split; discriminate.
    + split; intros H; injection H as ->; reflexivity.
  - intros c.
    unfold AwsEC2.getEC2SecurityInfo, AwsEC2.listInstances,
      AwsEC2.listSecurityGroups, Js.promiseAll2.
    destruct (AwsEC2.DescribeInstances c) as [r1 | e1],
      (AwsEC2.DescribeSecurityGroups c) as [r2 | e2]; simpl;
      split; intros H; eauto;
      repeat match goal with
        | H : _ \/ _ |- _ => destruct H
        | H : exists _, _ |- _ => destruct H
        end; discriminate.
  - intros c.
    unfold IAMScanner.collect, AwsIAM.getAllUsersInfo, AwsIAM.listUsers,
      AwsIAM.getAccountSummary, Js.promiseAll2.
    destruct (AwsIAM.ListUsers c) as [r1 | e1]; simpl.
    + destruct (usersInfo_ok c (Js.listOr r1)) as [infos [E _]]. rewrite E.
      destruct (AwsIAM.GetAccountSummary c) as [r2 | e2]; simpl;
        split; intros H; eauto;
        repeat match goal with
          | H : _ \/ _ |- _ => destruct H
          | H : exists _, _ |- _ => destruct H
          end; discriminate.
    + destruct (AwsIAM.GetAccountSummary c) as [r2 | e2]; simpl;
        split; intros H; eauto.
Qed.

End Listings.

Section Databases.

Import Types.

Lemma collected_db (c : AwsRDS.Client) (dbs : list AwsRDS.RDSInstanceInfo)
    (db : AwsRDS.RDSInstanceInfo) :
  AwsRDS.getAllRDSInfo c = Ok dbs -> In db dbs ->
  exists response instance,
    AwsRDS.DescribeDBInstances c = Ok response
    /\ In instance (Js.listOr response)
    /\ Js.truthyStr (AwsRDS.DBInstanceIdentifier instance) = true
    /\ db = AwsRDS.instanceInfo instance
              (Js.strOr (AwsRDS.DBInstanceIdentifier instance) "").
Proof.
  unfold AwsRDS.getAllRDSInfo, AwsRDS.listDBInstances.
  destruct (AwsRDS.DescribeDBInstances c) as [response | e]; simpl; [| discriminate].
  intros H. injection H as <-. rewrite in_flat_map.
  intros [instance [Hin Hdb]].
  destruct (Js.truthyStr (AwsRDS.DBInstanceIdentifier instance)) eqn:Ht;
    [| destruct Hdb].
  destruct Hdb as [<- | []]. exists response, instance. auto.
Qed.

(** X6. For every database record that the collector builds there is a
    listed instance from which it is read, and its four checks follow
    what the provider reports for that instance: public accessibility
    fails, with severity HIGH, exactly when the instance is reported
    publicly accessible, and passes when nothing is reported; encryption
    passes exactly when storage is reported encrypted, and fails with
    severity MEDIUM otherwise; backups pass exactly when a retention of
    more than zero days is reported, the record then holding that
    number of days and the message naming it, and fail with severity
    MEDIUM otherwise; Multi-AZ passes exactly when it is reported on. *)
Theorem database_checks_follow_the_listing
    (c : AwsRDS.Client) (dbs : list AwsRDS.RDSInstanceInfo) (db : AwsRDS.RDSInstanceInfo) :
  AwsRDS.getAllRDSInfo c = Ok dbs ->
  In db dbs ->
  exists response instance,
    AwsRDS.DescribeDBInstances c = Ok response
    /\ In instance (Js.listOr response)
    /\ AwsRDS.DBInstanceIdentifier instance = Some (AwsRDS.dbInstanceId db)
    /\ AwsRDS.dbInstanceId db <> ""
    /\ (status (RDSScanner.checkPublicAccessibility db) = FAIL <->
        AwsRDS.PubliclyAccessible instance = Some true)
    /\ (status (RDSScanner.checkPublicAccessibility db) = FAIL ->
        severity (RDSScanner.checkPublicAccessibility db) = HIGH)
    /\ (status (RDSScanner.checkEncryption db) = PASS <->
        AwsRDS.StorageEncrypted instance = Some true)
    /\ (status (RDSScanner.checkEncryption db) = FAIL ->
        severity (RDSScanner.checkEncryption db) = MEDIUM)
    /\ (status (RDSScanner.checkBackupEnabled db) = PASS <->
        exists days, AwsRDS.BackupRetentionPeriod instance = Some days /\ 0 < days)
    /\ (forall days,
          AwsRDS.BackupRetentionPeriod instance = Some days -> 0 < days ->
          AwsRDS.backupRetentionPeriod db = days
          /\ message (RDSScanner.checkBackupEnabled db)
             = "Automated backups enabled with " ++ Js.showZ days
               ++ " day retention")
    /\ (status (RDSScanner.checkBackupEnabled db) = FAIL ->
        severity (RDSScanner.checkBackupEnabled db) = MEDIUM)
    /\ (status (RDSScanner.checkMultiAZ db) = PASS <->
        AwsRDS.MultiAZ instance = Some true).
Proof.
  intros Hall Hin.
  destruct (collected_db c dbs db Hall Hin) as [response [instance [Hr [Hi [Ht ->]]]]].
  exists response, instance.
  split; [exact Hr |]. split; [exact Hi |].
  split.
  { cbn [AwsRDS.instanceInfo AwsRDS.dbInstanceId].
    destruct (AwsRDS.DBInstanceIdentifier instance) as [x |]; [| discriminate].
    simpl in *. destruct (String.eqb x ""); [discriminate | reflexivity]. }
  split; [apply truthy_not_empty; exact Ht |].
  unfold RDSScanner.checkPublicAccessibility, RDSScanner.checkEncryption,
    RDSScanner.checkBackupEnabled, RDSScanner.checkMultiAZ.
  cbn [status severity message AwsRDS.instanceInfo AwsRDS.isPubliclyAccessible
       AwsRDS.isEncrypted AwsRDS.hasBackupEnabled AwsRDS.backupRetentionPeriod
       AwsRDS.multiAZ].
  split.
  { destruct (AwsRDS.PubliclyAccessible instance) as [[|] |]; simpl;
      split; intros H; try reflexivity; discriminate. }
  split.
  { destruct (Js.boolOr (AwsRDS.PubliclyAccessible instance)); intros H;
      [reflexivity | discriminate]. }
  split.
  { destruct (AwsRDS.StorageEncrypted instance) as [[|] |]; simpl;
      split; intros H; try reflexivity; discriminate. }
  split.
  { destruct (Js.boolOr (AwsRDS.StorageEncrypted instance)); intros H;
      [discriminate | reflexivity]. }
  split.
  { destruct (AwsRDS.BackupRetentionPeriod instance) as [days |]; simpl.
    - destruct (Z.gtb_spec days 0) as [Hd | Hd]; split; intros H.
      + exists days. split; [reflexivity | lia].
      + reflexivity.
      + discriminate.
      + destruct H as [d [E Hpos]]. injection E as ->. lia.
    - split; intros H; [discriminate | destruct H as [d [E _]]; discriminate]. }
  split.
  { intros days E Hpos. rewrite E. cbn [Js.numOr0].
    destruct (Z.gtb_spec days 0) as [Hd | Hd]; [| lia].
    split; reflexivity. }
  split.
  { destruct (Js.numOr0 (AwsRDS.BackupRetentionPeriod instance) >? 0);
      intros H; [discriminate | reflexivity]. }
  destruct (AwsRDS.MultiAZ instance) as [[|] |]; simpl;
    split; intros H; try reflexivity; discriminate.
Qed.

End Databases.

Section Network.

Import Types.

Lemma collected_group (c : AwsEC2.Client) (groups : list AwsEC2.SecurityGroupInfo)
    (sg : AwsEC2.SecurityGroupInfo) :
  AwsEC2.listSecurityGroups c = Ok groups -> In sg groups ->
  exists raw id, sg = AwsEC2.securityGroupInfo raw id.
Proof.
  unfold AwsEC2.listSecurityGroups.
  destruct (AwsEC2.DescribeSecurityGroups c) as [response | e]; simpl; [| discriminate].
  intros H. injection H as <-. rewrite in_flat_map.
  intros [raw [_ Hsg]].
  destruct (Js.truthyStr (AwsEC2.GroupId raw)); [| destruct Hsg].
  destruct Hsg as [<- | []]. eauto.
Qed.

Lemma open_port_open_rule (rules : list AwsEC2.SecurityGroupRule) (port : Z) :
  AwsEC2.hasPortOpenToWorld rules port = true ->
  existsb AwsEC2.isOpenToWorld_ rules = true.
Proof.
  unfold AwsEC2.hasPortOpenToWorld. rewrite !existsb_exists.
  intros [r [Hin Hr]]. exists r. split; [exact Hin |].
  unfold AwsEC2.ruleOpensPort in Hr.
  destruct (AwsEC2.isOpenToWorld_ r); [reflexivity | discriminate].
Qed.

Lemma existsb_filter_length {A} (f : A -> bool) (l : list A) :
  existsb f l = true -> (0 < List.length (filter f l))%nat.
Proof.
  induction l as [| x l IH]; simpl; [discriminate |].
  destruct (f x); simpl; [lia | exact IH].
Qed.

(** X7. For every security group record that the collector builds, the
    three flags are computed from its parsed rules, and they agree: a
    group with SSH or RDP open to the world is open to the world.  So
    when the check of unrestricted access passes, the SSH and RDP checks
    pass too, and when it fails its message counts at least one open
    rule. *)
Theorem group_flags_agree
    (c : AwsEC2.Client) (groups : list AwsEC2.SecurityGroupInfo)
    (sg : AwsEC2.SecurityGroupInfo) :
  AwsEC2.listSecurityGroups c = Ok groups ->
  In sg groups ->
  AwsEC2.hasOpenSSH sg = AwsEC2.hasPortOpenToWorld (AwsEC2.inboundRules sg) 22
  /\ AwsEC2.hasOpenRDP sg = AwsEC2.hasPortOpenToWorld (AwsEC2.inboundRules sg) 3389
  /\ AwsEC2.hasOpenToWorld sg = existsb AwsEC2.isOpenToWorld_ (AwsEC2.inboundRules sg)
  /\ (AwsEC2.hasOpenSSH sg = true \/ AwsEC2.hasOpenRDP sg = true ->
      AwsEC2.hasOpenToWorld sg = true)
  /\ (status (EC2Scanner.checkOpenToWorld sg) = PASS ->
      status (EC2Scanner.checkSSHExposure sg) = PASS
      /\ status (EC2Scanner.checkRDPExposure sg) = PASS)
  /\ (status (EC2Scanner.checkOpenToWorld sg) = FAIL ->
      (0 < List.length (filter AwsEC2.isOpenToWorld_ (AwsEC2.inboundRules sg)))%nat).
Proof.
  intros Hall Hin.
  destruct (collected_group c groups sg Hall Hin) as [raw [id ->]].
  cbn [AwsEC2.securityGroupInfo AwsEC2.hasOpenSSH AwsEC2.hasOpenRDP
       AwsEC2.hasOpenToWorld AwsEC2.inboundRules].
  set (rules := AwsEC2.parseInboundRules (Js.listOr (AwsEC2.IpPermissions raw))).
  split; [reflexivity |]. split; [reflexivity |]. split; [reflexivity |].
  assert (Himp : AwsEC2.hasPortOpenToWorld rules 22 = true
                 \/ AwsEC2.hasPortOpenToWorld rules 3389 = true ->
                 existsb AwsEC2.isOpenToWorld_ rules = true)
    by (intros [H | H]; apply (open_port_open_rule _ _ H)).
  split; [exact Himp |].
  unfold EC2Scanner.checkOpenToWorld, EC2Scanner.checkSSHExposure,
    EC2Scanner.checkRDPExposure.
  cbn [status AwsEC2.securityGroupInfo AwsEC2.hasOpenSSH AwsEC2.hasOpenRDP
       AwsEC2.hasOpenToWorld AwsEC2.inboundRules].
  fold rules.
  destruct (existsb AwsEC2.isOpenToWorld_ rules) eqn:Eo.
  - split; [discriminate |]. intros _. apply existsb_filter_length. exact Eo.
  - split; [| discriminate]. intros _.
    destruct (AwsEC2.hasPortOpenToWorld rules 22) eqn:E1;
      [specialize (Himp (or_introl eq_refl)); discriminate |].
    destruct (AwsEC2.hasPortOpenToWorld rules 3389) eqn:E2;
      [specialize (Himp (or_intror eq_refl)); discriminate |].
    auto.
Qed.

Lemma parse_app (ps qs : list AwsEC2.IpPermission) :
  AwsEC2.parseInboundRules (ps ++ qs) =
  (AwsEC2.parseInboundRules ps ++ AwsEC2.parseInboundRules qs)%list.
Proof. unfold AwsEC2.parseInboundRules. apply flat_map_app. Qed.

(** X8. Parsing makes one rule for each address range of each
    permission, IPv4 ranges first, and goes permission by permission: the
    rules of two lists of permissions put together are the rules of the
    first followed by those of the second, and a port is open for the
    whole exactly when it is open for one of the two.  Permissions that
    name no address range, such as those that admit another security
    group, give no rule and open no port. *)
Theorem parsing_goes_range_by_range :
  (forall ps,
      List.length (AwsEC2.parseInboundRules ps) =
      list_sum (map (fun p => (List.length (Js.listOr (AwsEC2.IpRanges p))
                               + List.length (Js.listOr (AwsEC2.Ipv6Ranges p)))%nat)
                    ps))
  /\ (forall ps qs port,
         AwsEC2.hasPortOpenToWorld (AwsEC2.parseInboundRules (ps ++ qs)) port =
         AwsEC2.hasPortOpenToWorld (AwsEC2.parseInboundRules ps) port
         || AwsEC2.hasPortOpenToWorld (AwsEC2.parseInboundRules qs) port)
  /\ (forall ps,
         (forall p, In p ps -> noRanges p) ->
         AwsEC2.parseInboundRules ps = []
         /\ forall port, AwsEC2.hasPortOpenToWorld (AwsEC2.parseInboundRules ps) port
                         = false).
Proof.
  split; [| split].
  - induction ps as [| p ps IH]; [reflexivity |].
    change (AwsEC2.parseInboundRules (p :: ps))
      with (AwsEC2.rulesOfPermission p ++ AwsEC2.parseInboundRules ps)%list.
    rewrite length_app, IH. unfold AwsEC2.rulesOfPermission.
    rewrite length_app, !length_map. reflexivity.
  - intros ps qs port. rewrite parse_app.
    unfold AwsEC2.hasPortOpenToWorld. apply existsb_app.
  - intros ps Hall.
    assert (E : AwsEC2.parseInboundRules ps = []).
    { induction ps as [| p ps IH]; [reflexivity |].
      change (AwsEC2.parseInboundRules (p :: ps))
        with (AwsEC2.rulesOfPermission p ++ AwsEC2.parseInboundRules ps)%list.
      rewrite IH by (intros q Hq; apply Hall; right; exact Hq).
      destruct (Hall p (or_introl eq_refl)) as [H4 H6].
      unfold AwsEC2.rulesOfPermission. rewrite H4, H6. reflexivity. }
    split; [exact E |]. intros port. rewrite E. reflexivity.
Qed.

Lemma collected_instance (c : AwsEC2.Client) (instances : list AwsEC2.EC2InstanceInfo)
    (i : AwsEC2.EC2InstanceInfo) :
  AwsEC2.listInstances c = Ok instances -> In i instances ->
  exists raw, Js.truthyStr (AwsEC2.InstanceId raw) = true
              /\ i = AwsEC2.instanceInfo raw (Js.strOr (AwsEC2.InstanceId raw) "").
Proof.
  unfold AwsEC2.listInstances.
  destruct (AwsEC2.DescribeInstances c) as [response | e]; simpl; [| discriminate].
  intros H. injection H as <-. rewrite in_flat_map.
  intros [reservation [_ Hi]]. rewrite in_flat_map in Hi.
  destruct Hi as [raw [_ Hi]].
  destruct (Js.truthyStr (AwsEC2.InstanceId raw)) eqn:Ht; [| destruct Hi].
  destruct Hi as [<- | []]. eauto.
Qed.

(** X9. For every instance record that the collector builds, the
    public-IP check fails, with severity MEDIUM, exactly when the
    provider reports a public address that is not empty, and its message
    then holds that address; an instance without one passes. *)
Theorem public_ip_check_reports_the_address
    (c : AwsEC2.Client) (instances : list AwsEC2.EC2InstanceInfo)
    (i : AwsEC2.EC2InstanceInfo) :
  AwsEC2.listInstances c = Ok instances ->
  In i instances ->
  (status (EC2Scanner.checkPublicIPExposure i) = FAIL <->
   exists ip, AwsEC2.publicIp i = Some ip /\ ip <> "")
  /\ (status (EC2Scanner.checkPublicIPExposure i) = FAIL ->
      severity (EC2Scanner.checkPublicIPExposure i) = MEDIUM)
  /\ (forall ip, AwsEC2.publicIp i = Some ip -> ip <> "" ->
                 contains (message (EC2Scanner.checkPublicIPExposure i)) ip)
  /\ AwsEC2.instanceId i <> "".
Proof.
  intros Hall Hin.
  destruct (collected_instance c instances i Hall Hin) as [raw [Ht ->]].
  unfold EC2Scanner.checkPublicIPExposure.
  cbn [status severity message AwsEC2.instanceInfo AwsEC2.hasPublicIp
       AwsEC2.publicIp AwsEC2.instanceId].
  split.
  { destruct (AwsEC2.PublicIpAddress raw) as [ip |]; simpl.
    - destruct (String.eqb_spec ip "") as [-> | Hne]; simpl; split; intros H.
      + discriminate.
      + destruct H as [x [E Hx]]. injection E as <-. contradiction.
      + exists ip. auto.
      + reflexivity.
    - split; intros H; [discriminate | destruct H as [x [E _]]; discriminate]. }
  split.
  { destruct (Js.truthyStr (AwsEC2.PublicIpAddress raw)); intros H;
      [reflexivity | discriminate]. }
  split; [| apply truthy_not_empty; exact Ht].
  intros ip E Hne. rewrite E. simpl.
  destruct (String.eqb_spec ip "") as [-> | _]; [contradiction |]. simpl.
  exists "Instance has a public IP: ", ". Ensure this is intentional". reflexivity.
Qed.

Lemma length_flat_map_three {A B} (f g h : A -> B) (l : list A) :
  List.length (flat_map (fun x => [f x; g x; h x]) l) = (3 * List.length l)%nat.
Proof. induction l as [| x l IH]; [reflexivity |]. simpl. rewrite IH. lia. Qed.

Lemma length_flat_map_if {A B} (p : A -> bool) (f : A -> B) (l : list A) :
  List.length (flat_map (fun x => if p x then [f x] else []) l)
  = List.length (filter p l).
Proof.
  induction l as [| x l IH]; [reflexivity |].
  simpl. destruct (p x); simpl; rewrite IH; reflexivity.
Qed.

(** X10. When both listings succeed, the EC2 scanner returns three
    findings for each security group and one for each instance that is
    running or stopped; an instance in any other state gives none: every
    finding on an instance comes from one that is running or stopped. *)
Theorem instances_out_of_service_are_skipped
    (c : AwsEC2.Client) (instances : list AwsEC2.EC2InstanceInfo)
    (groups : list AwsEC2.SecurityGroupInfo) :
  AwsEC2.getEC2SecurityInfo c = Ok (instances, groups) ->
  exists fs,
    EC2Scanner.scanEC2 c = Ok fs
    /\ List.length fs
       = (3 * List.length groups + List.length (filter scanned instances))%nat
    /\ (forall f, In f fs -> resourceType f = EC2 ->
                  exists i, In i instances /\ scanned i = true
                            /\ f = EC2Scanner.checkPublicIPExposure i)
    /\ (forall i, In i instances -> scanned i = true ->
                  In (EC2Scanner.checkPublicIPExposure i) fs).
Proof.
  intros H. unfold EC2Scanner.scanEC2. rewrite H. simpl.
  eexists. split; [reflexivity |].
  split; [| split].
  - rewrite length_app, length_flat_map_three. f_equal.
    apply (length_flat_map_if scanned).
  - intros f Hf Ht. apply in_app_or in Hf as [Hf | Hf].
    + apply in_flat_map in Hf as [sg [_ Hf]].
      destruct Hf as [<- | [<- | [<- | []]]]; discriminate Ht.
    + apply in_flat_map in Hf as [i [Hi Hf]].
      exists i. unfold scanned.
      destruct (_ || _); [| destruct Hf].
      destruct Hf as [<- | []]. auto.
  - intros i Hi Hs. apply in_or_app. right. apply in_flat_map.
    exists i. split; [exact Hi |]. unfold scanned in Hs. rewrite Hs. left. reflexivity.
Qed.

End Network.

(* ================================================================== *)
(** * The findings of a scan *)
(* ================================================================== *)

Section Findings.

Import Types.

Lemma keys_nodup (checks : list string) (names : list string) :
  NoDup checks -> NoDup names ->
  NoDup (flat_map (fun n => map (pair n) checks) names).
Proof.
  intros Hc Hn. induction Hn as [| n names Hnotin Hn IH]; simpl; [constructor |].
  apply NoDup_app.
  - clear -Hc. induction Hc as [| x l Hx Hl IH]; simpl; constructor; [| exact IH].
    rewrite in_map_iff. intros [y [E Hy]]. injection E as ->. contradiction.
  - exact IH.
  - intros [a b] Ha Hb. apply in_map_iff in Ha as [x [E _]]. injection E as <- _.
    apply in_flat_map in Hb as [m [Hm Hb]].
    apply in_map_iff in Hb as [y [E _]]. injection E as -> _. contradiction.
Qed.

Lemma three_checks : NoDup ["Public Access Block"; "Server-Side Encryption"; "Versioning"].
Proof.
  repeat constructor; simpl; intros H;
    repeat (destruct H as [H | H]; [discriminate H |]); exact H.
Qed.

Lemma two_checks : NoDup ["MFA Enabled"; "Admin Access Check"].
Proof.
  repeat constructor; simpl; intros H;
    repeat (destruct H as [H | H]; [discriminate H |]); exact H.
Qed.

Lemma four_checks :
  NoDup ["Public Accessibility"; "Encryption at Rest"; "Automated Backups";
         "Multi-AZ Deployment"].
Proof.
  repeat constructor; simpl; intros H;
    repeat (destruct H as [H | H]; [discriminate H |]); exact H.
Qed.

Lemma map_flat_map {A B C} (g : B -> C) (f : A -> list B) (l : list A) :
  map g (flat_map f l) = flat_map (fun x => map g (f x)) l.
Proof.
  induction l as [| x l IH]; [reflexivity |].
  simpl. rewrite map_app, IH. reflexivity.
Qed.

Lemma flat_map_map {A B C} (f : A -> B) (g : B -> list C) (l : list A) :
  flat_map g (map f l) = flat_map (fun x => g (f x)) l.
Proof.
  induction l as [| x l IH]; [reflexivity |].
  simpl. rewrite IH. reflexivity.
Qed.

Lemma checkMFAEnabled_key (u : AwsIAM.IAMUserInfo) :
  findingKey (IAMScanner.checkMFAEnabled u) = (AwsIAM.userName u, "MFA Enabled").
Proof.
  unfold IAMScanner.checkMFAEnabled. destruct (negb _); reflexivity.
Qed.

(** X11. When its collection succeeds, a scanner reports each resource
    once under each of its checks, in the order of the collection: three
    findings for a bucket, two for a user after the one finding on the
    root account, four for a database.  So when the names collected are
    all different, no two findings of the scanner share both a resource
    and a check. *)
Theorem one_finding_for_each_resource_and_check :
  (forall c buckets,
      AwsS3.getAllBucketsInfo c = Ok buckets ->
      exists fs,
        S3Scanner.scanS3Buckets c = Ok fs
        /\ map findingKey fs = flat_map s3Keys (map AwsS3.name buckets)
        /\ (NoDup (map AwsS3.name buckets) -> NoDup (map findingKey fs)))
  /\ (forall c users summary,
         IAMScanner.collect c = Ok (users, summary) ->
         exists fs,
           IAMScanner.scanIAM c = Ok fs
           /\ map findingKey fs
              = ("ROOT-ACCOUNT", "Root Account MFA")
                :: flat_map iamKeys (map AwsIAM.userName users)
           /\ (NoDup (map AwsIAM.userName users) -> NoDup (map findingKey fs)))
  /\ (forall c dbs,
         AwsRDS.getAllRDSInfo c = Ok dbs ->
         exists fs,
           RDSScanner.scanRDS c = Ok fs
           /\ map findingKey fs = flat_map rdsKeys (map AwsRDS.dbInstanceId dbs)
           /\ (NoDup (map AwsRDS.dbInstanceId dbs) -> NoDup (map findingKey fs))).
Proof.
  split; [| split].
  - intros c buckets H. unfold S3Scanner.scanS3Buckets. rewrite H. simpl.
    eexists. split; [reflexivity |].
    assert (E : map findingKey
                  (flat_map (fun b => [S3Scanner.checkPublicAccess b;
                                       S3Scanner.checkEncryption b;
                                       S3Scanner.checkVersioning b]) buckets)
                = flat_map s3Keys (map AwsS3.name buckets))
      by (rewrite map_flat_map, flat_map_map; reflexivity).
    split; [exact E |]. intros Hn. rewrite E.
    apply (keys_nodup _ _ three_checks Hn).
  - intros c users summary H. unfold IAMScanner.scanIAM. rewrite H. simpl.
    eexists. split; [reflexivity |].
    assert (E : map findingKey
                  (flat_map (fun u => [IAMScanner.checkMFAEnabled u;
                                       IAMScanner.checkAdminAccess u]) users)
                = flat_map iamKeys (map AwsIAM.userName users)).
    { clear H. induction users as [| u us IH]; [reflexivity |].
      simpl. rewrite IH, checkMFAEnabled_key. reflexivity. }
    split; [simpl; rewrite E; reflexivity |].
    intros Hn. simpl. rewrite E. constructor.
    + rewrite in_flat_map. intros [n [_ Hk]].
      destruct Hk as [Hk | [Hk | []]]; discriminate Hk.
    + apply (keys_nodup _ _ two_checks Hn).
  - intros c dbs H. unfold RDSScanner.scanRDS. rewrite H. simpl.
    eexists. split; [reflexivity |].
    assert (E : map findingKey
                  (flat_map (fun db => [RDSScanner.checkPublicAccessibility db;
                                        RDSScanner.checkEncryption db;
                                        RDSScanner.checkBackupEnabled db;
                                        RDSScanner.checkMultiAZ db]) dbs)
                = flat_map rdsKeys (map AwsRDS.dbInstanceId dbs))
      by (rewrite map_flat_map, flat_map_map; reflexivity).
    split; [exact E |]. intros Hn. rewrite E.
    apply (keys_nodup _ _ four_checks Hn).
Qed.

Lemma append_cons_not_empty (a b : string) (c : ascii) : a ++ String c b <> "".
Proof. destruct a; discriminate. Qed.

Lemma scanner_ids (p : Provider) (cloud : Cloud) (f : SecurityFinding) :
  In f (settled (scanner p cloud)) -> Types.resourceId f <> "".
Proof.
  intros Hf. destruct p; simpl in Hf.
  - destruct (scanS3Buckets_cases (s3Client cloud)) as [[bs [Hc E]] | [e [_ E]]];
      rewrite E in Hf; simpl in Hf.
    + apply in_flat_map in Hf as [b [Hb Hf]].
      destruct (collected_bucket _ _ _ Hc Hb) as [Hn _].
      destruct Hf as [<- | [<- | [<- | []]]]; exact Hn.
    + destruct Hf as [<- | []]. discriminate.
  - destruct (scanEC2_cases (ec2Client cloud)) as [[ins [gs [_ E]]] | [e [_ E]]];
      rewrite E in Hf; simpl in Hf.
    + apply in_app_or in Hf as [Hf | Hf]; apply in_flat_map in Hf as [x [_ Hf]].
      * destruct Hf as [<- | [<- | [<- | []]]]; apply append_cons_not_empty.
      * destruct (_ || _); [| destruct Hf].
        destruct Hf as [<- | []]. apply append_cons_not_empty.
    + destruct Hf as [<- | []]. discriminate.
  - destruct (scanIAM_cases (iamClient cloud)) as [[us [sm [Hc E]]] | [e [_ E]]];
      rewrite E in Hf; simpl in Hf.
    + destruct Hf as [<- | Hf]; [discriminate |].
      apply in_flat_map in Hf as [u [Hu Hf]].
      assert (Hn : AwsIAM.userName u <> "").
      { unfold IAMScanner.collect, Js.promiseAll2 in Hc.
        destruct (AwsIAM.getAllUsersInfo (iamClient cloud)) as [us' |] eqn:Eu;
          destruct (AwsIAM.getAccountSummary (iamClient cloud));
          try discriminate Hc.
        injection Hc as -> _. apply (collected_user _ _ _ Eu Hu). }
      destruct Hf as [<- | [<- | []]]; [| exact Hn].
      unfold IAMScanner.checkMFAEnabled. destruct (negb _); exact Hn.
    + destruct Hf as [<- | []]. discriminate.
  - destruct (scanRDS_cases (rdsClient cloud)) as [[ins [Hc E]] | [e [_ E]]];
      rewrite E in Hf; simpl in Hf.
    + apply in_flat_map in Hf as [db [Hdb Hf]].
      destruct (collected_db _ _ _ Hc Hdb) as [resp [inst [_ [_ [Ht ->]]]]].
      pose proof (truthy_not_empty _ Ht) as Hn.
      destruct Hf as [<- | [<- | [<- | [<- | []]]]]; exact Hn.
    + destruct Hf as [<- | []]. discriminate.
Qed.

(** X12. Every finding of every scan result that [runFullScan] returns
    names its resource: the identifier is never the empty string. *)
Theorem findings_name_their_resource
    (cloud : Cloud) (w w' : World) (r : ScanResult) (f : SecurityFinding) :
  ScanService.runFullScan cloud w = (Ok r, w') ->
  In f (findings r) ->
  Types.resourceId f <> "".
Proof.
  rewrite runFullScan_run. intros H. injection H as <- _. intros Hf.
  apply scanOf_findings_from in Hf as [g [Hg ->]].
  apply collected_in in Hg as [p Hg].
  apply (scanner_ids p cloud g Hg).
Qed.

End Findings.

Section Summaries.

Import Types.

Lemma countFailedWith_le (v : Severity) (fs : list SecurityFinding) :
  (countFailedWith v fs <= countStatus FAIL fs)%nat.
Proof.
  unfold countFailedWith, countStatus.
  induction fs as [| f fs IH]; [simpl; lia |].
  simpl. destruct (statusEqb (status f) FAIL); simpl; [| exact IH].
  destruct (severityEqb (severity f) v); simpl; lia.
Qed.

Lemma high_and_critical_le (fs : list SecurityFinding) :
  (countFailedWith HIGH fs + countFailedWith CRITICAL fs <= countStatus FAIL fs)%nat.
Proof.
  unfold countFailedWith, countStatus.
  induction fs as [| f fs IH]; [simpl; lia |].
  simpl. destruct (status f), (severity f); simpl; lia.
Qed.

(** X13. In the summary computed from any list of findings, the high and
    the critical findings are failed findings: [highSeverity] and
    [criticalSeverity] together are at most [failed], and [failed],
    [passed] and [errors] are each at most [totalResources].  A list
    without failed findings has neither. *)
Theorem severe_counts_are_within_failed (fs : list SecurityFinding) (w : World) :
  exists s w',
    ScanService.calculateSummary fs w = (Ok s, w')
    /\ (highSeverity s + criticalSeverity s <= failed s)%nat
    /\ (failed s <= totalResources s)%nat
    /\ (passed s <= totalResources s)%nat
    /\ (errors s <= totalResources s)%nat
    /\ (failed s = 0%nat -> highSeverity s = 0%nat /\ criticalSeverity s = 0%nat)
    /\ scanTime s = DateObj (Some (clock w (ticks w)))
    /\ ticks w' = S (ticks w).
Proof.
  rewrite calculateSummary_run. eexists. eexists. split; [reflexivity |].
  pose proof (countStatus_partition fs) as Hp.
  pose proof (high_and_critical_le fs) as Hh.
  cbn [summaryOf highSeverity criticalSeverity failed passed errors totalResources
       scanTime].
  repeat split; lia || reflexivity.
Qed.

(** X14. What a scan result holds by its status.  A completed scan has
    the summary computed from its findings, whose total is their number,
    and the findings are all those collected.  A failed scan was either
    interrupted before the findings were combined, and then has no
    finding and the all-zero summary taken at its start; or interrupted
    after, and then has the findings and the summary of the completed
    scan under the status failed.  In every case the identifier is
    [scan-], the first reading of the clock, a dash and the random
    suffix, and the start time is the second reading. *)
Theorem scan_result_by_status (cloud : Cloud) (w : World) :
  exists r w',
    ScanService.runFullScan cloud w = (Ok r, w')
    /\ scanId r = "scan-" ++ Js.showZ (clock w (ticks w)) ++ "-" ++ random w (draws w)
    /\ startTime r = reading w 1
    /\ (scanStatus r = completed \/ scanStatus r = failed_)
    /\ (scanStatus r = completed ->
        summary r = summaryOf (findings r) (reading w 3)
        /\ totalResources (summary r) = List.length (findings r)
        /\ List.length (findings r) = List.length (collected cloud))
    /\ (scanStatus r = failed_ ->
        (findings r = [] /\ summary r = summaryOf [] (reading w 1))
        \/ (List.length (findings r) = List.length (collected cloud)
            /\ summary r = summaryOf (findings r) (reading w 3))).
Proof.
  exists (scanOf cloud w).
  exists (putPending (storedItem (scanOf cloud w)) (beforeSave cloud w)).
  split; [apply runFullScan_run |].
  unfold scanOf, tryOutcome. change (abort (started w)) with (abort w).
  destruct (abort w) as [[[|[|[|n]]] e]|]; cbn;
    (split; [reflexivity |]); (split; [reflexivity |]);
    (split; [auto |]);
    (split; [intros H; try discriminate H;
             repeat split; unfold stamped; rewrite length_map; reflexivity |]);
    intros H; try discriminate H;
    try (left; split; reflexivity);
    right; split; [unfold stamped; rewrite length_map; reflexivity | reflexivity].
Qed.

End Summaries.

(* ================================================================== *)
(** * Saving and reading scans *)
(* ================================================================== *)

Section SavingAndReading.

Import Types.

Lemma hasKey_stored (id : string) (r : ScanResult) :
  DynamoDB.hasKey id "METADATA" (storedItem r) = String.eqb (scanId r) id.
Proof.
  unfold DynamoDB.hasKey. cbn. rewrite andb_true_r. reflexivity.
Qed.

Lemma find_put_other (id : string) (r : ScanResult) (tbl : list Storage.StorageItem) :
  id <> scanId r ->
  DynamoDB.getItem id "METADATA" (DynamoDB.putItem (storedItem r) tbl)
  = DynamoDB.getItem id "METADATA" tbl.
Proof.
  intros Hne. unfold DynamoDB.getItem, DynamoDB.putItem.
  change (scanId (Storage.scan (storedItem r))) with (scanId r).
  change (Storage.resourceId (storedItem r)) with "METADATA".
  induction tbl as [| x tbl IH]; simpl.
  - rewrite hasKey_stored.
    destruct (String.eqb_spec (scanId r) id); [congruence | reflexivity].
  - destruct (DynamoDB.hasKey (scanId r) "METADATA" x) eqn:Ex; simpl.
    + assert (Hx : DynamoDB.hasKey id "METADATA" x = false).
      { unfold DynamoDB.hasKey in *. apply andb_true_iff in Ex as [E1 _].
        apply String.eqb_eq in E1. rewrite E1.
        destruct (String.eqb_spec (scanId r) id); [congruence | reflexivity]. }
      rewrite Hx. exact IH.
    + destruct (DynamoDB.hasKey id "METADATA" x); [reflexivity | exact IH].
Qed.

Lemma copies_put (id : string) (r : ScanResult) (tbl : list Storage.StorageItem) :
  copies id "METADATA" (DynamoDB.putItem (storedItem r) tbl) =
  if String.eqb (scanId r) id then 1%nat else copies id "METADATA" tbl.
Proof.
  unfold copies, DynamoDB.putItem.
  change (scanId (Storage.scan (storedItem r))) with (scanId r).
  change (Storage.resourceId (storedItem r)) with "METADATA".
  rewrite filter_app. cbn [filter]. rewrite hasKey_stored, length_app.
  assert (E : List.length
                (filter (DynamoDB.hasKey id "METADATA")
                   (filter (fun x => negb (DynamoDB.hasKey (scanId r) "METADATA" x))
                      tbl))
              = if String.eqb (scanId r) id then 0%nat
                else List.length (filter (DynamoDB.hasKey id "METADATA") tbl)).
  { induction tbl as [| x tbl IH]; simpl.
    - destruct (String.eqb _ _); reflexivity.
    - destruct (String.eqb_spec (scanId r) id) as [<- | Hne].
      + destruct (DynamoDB.hasKey (scanId r) "METADATA" x) eqn:Ex; simpl;
          [exact IH | rewrite Ex; exact IH].
      + destruct (DynamoDB.hasKey (scanId r) "METADATA" x) eqn:Ex; simpl.
        * assert (Hx : DynamoDB.hasKey id "METADATA" x = false).
          { unfold DynamoDB.hasKey in *. apply andb_true_iff in Ex as [E1 _].
            apply String.eqb_eq in E1. rewrite E1.
            destruct (String.eqb_spec (scanId r) id); [congruence | reflexivity]. }
          rewrite Hx. exact IH.
        * destruct (DynamoDB.hasKey id "METADATA" x); simpl; rewrite IH; reflexivity. }
  rewrite E. destruct (String.eqb (scanId r) id); simpl; lia.
Qed.

Lemma getItem_none (id : string) (tbl : list Storage.StorageItem) :
  (forall it, In it tbl -> scanId (Storage.scan it) <> id) ->
  DynamoDB.getItem id "METADATA" tbl = None.
Proof.
  intros H. unfold DynamoDB.getItem.
  induction tbl as [| x tbl IH]; [reflexivity |].
  simpl. unfold DynamoDB.hasKey at 1.
  destruct (String.eqb_spec (scanId (Storage.scan x)) id) as [E | _].
  - exfalso. apply (H x (or_introl eq_refl) E).
  - simpl. apply IH. intros it Hit. apply H. right. exact Hit.
Qed.

(** Starting a save and letting its put be answered is the save that
    is awaited, when nothing else is in flight. *)
Lemma started_save_settles_as_awaited (r : ScanResult) (w : World) :
  inFlight w = [] ->
  DynamoDB.settle (snd (DynamoDB.saveScanResultStarted r w))
  = snd (DynamoDB.saveScanResult r w).
Proof.
  intros H. rewrite saveScanResultStarted_run, saveScanResult_run.
  destruct w as [c t rd d a tbl s f fl]. cbn in H. subst fl.
  destruct (DynamoDB.prepareForStorage r) as [item | e]; cbn [snd].
  - unfold DynamoDB.settle, putPending, afterPut, DynamoDB.answered. cbn.
    destruct (f (List.length s)); reflexivity.
  - reflexivity.
Qed.

(** X15. Scans are stored independently, one record for each
    identifier.  With a store that answers, saving a scan result does
    not change what is read back under another identifier; saving a
    second scan result with the same identifier replaces the first, so
    that the second is read back and the table holds one record for the
    identifier. *)
Theorem saves_are_keyed_by_scan_id :
  (forall (r : ScanResult) (w : World) (id : string),
      storable r = true -> storeUp w 2 -> id <> scanId r ->
      fst (saveThen r (DynamoDB.getScanResult id) w)
      = fst (DynamoDB.getScanResult id w))
  /\ (forall (r r' : ScanResult) (w : World),
         storable r = true -> storable r' = true -> storeUp w 3 ->
         scanId r = scanId r' ->
         fst (saveThen r (saveThen r' (DynamoDB.getScanResult (scanId r))) w)
         = Ok (Some (storedItem r'))
         /\ copies (scanId r) "METADATA"
              (table (snd (saveThen r (saveThen r' (DynamoDB.getScanResult (scanId r)))
                             w))) = 1%nat).
Proof.
  split.
  - intros r w id Hst Hup Hne.
    rewrite (saveThen_run _ _ _ Hst), !getScanResult_run.
    destruct (storeUp_next (storedItem r) w 1 Hup) as [Ht Hup'].
    pose proof (Hup' 0%nat ltac:(lia)) as Hget. simpl in Hget.
    pose proof (Hup 0%nat ltac:(lia)) as Hget0. simpl in Hget0.
    cbn [fst]. rewrite Hget, Hget0, Ht, (find_put_other id r _ Hne). reflexivity.
  - intros r r' w Hst Hst' Hup Hid.
    rewrite (saveThen_run _ _ _ Hst), (saveThen_run _ _ _ Hst'), getScanResult_run.
    destruct (storeUp_next (storedItem r) w 2 Hup) as [Ht Hup1].
    destruct (storeUp_next (storedItem r') _ 1 Hup1) as [Ht' Hup2].
    pose proof (Hup2 0%nat ltac:(lia)) as Hget. simpl in Hget.
    cbn [fst snd]. rewrite Hget.
    change (table (withSent ?w0 _)) with (table w0).
    cbn [table withSent]. rewrite Ht'. split.
    + rewrite Hid.
      change (scanId r') with (scanId (Storage.scan (storedItem r'))) at 1.
      change "METADATA" with (Storage.resourceId (storedItem r')) at 1.
      rewrite getItem_putItem. reflexivity.
    + rewrite copies_put, Hid, String.eqb_refl. reflexivity.
Qed.

(** X16. Reading by identifier returns nothing when no record of the
    table has the identifier, and also when the store refuses the
    command, whatever the table holds; it never raises. *)
Theorem unknown_scan_reads_as_absent (w : World) (id : string) :
  (exists x w', DynamoDB.getScanResult id w = (Ok x, w') /\ table w' = table w)
  /\ ((forall it, In it (table w) -> scanId (Storage.scan it) <> id) ->
      fst (DynamoDB.getScanResult id w) = Ok None)
  /\ (forall e, ddbFault w (List.length (sent w)) = Some e ->
                fst (DynamoDB.getScanResult id w) = Ok None).
Proof.
  rewrite getScanResult_run. split; [| split].
  - eexists. eexists. split; reflexivity.
  - intros H. cbn [fst]. rewrite (getItem_none id (table w) H).
    destruct (ddbFault w _); reflexivity.
  - intros e H. cbn [fst]. rewrite H. reflexivity.
Qed.

Lemma storable_false_throws (r : ScanResult) :
  storable r = false -> exists e, DynamoDB.prepareForStorage r = Throw e.
Proof.
  unfold storable, DynamoDB.prepareForStorage. intros H.
  destruct (startTime r) as [[t |] | s] eqn:E1; simpl; eauto;
    (destruct (endTime r) as [[[t2 |] | s2] |] eqn:E2; simpl; eauto;
     (destruct (scanTime (summary r)) as [[t3 |] | s3] eqn:E3; simpl; eauto));
    simpl in H;
    (assert (Hf : exists e, DynamoDB.storeFindings (findings r) = Throw e);
     [| destruct Hf as [e ->]; simpl; eauto]);
    clear -H; induction (findings r) as [| f fs IH]; simpl in *;
    try discriminate;
    unfold DynamoDB.storeFinding;
    (destruct (timestamp f) as [[[t4 |] | s4] |]; simpl in *; eauto;
     destruct (IH H) as [e ->]; simpl; eauto).
Qed.

(** X17. A scan result with an invalid date in its start time, its end
    time, the time of its summary or the timestamp of a finding is not
    persisted: saving it sends nothing to the store, leaves the world as
    it was and does not raise.  A scan result without one is sent in one
    put. *)
Theorem invalid_date_is_not_persisted (r : ScanResult) (w : World) :
  (storable r = false -> DynamoDB.saveScanResult r w = (Ok tt, w))
  /\ (storable r = true ->
      exists w', DynamoDB.saveScanResult r w = (Ok tt, w')
                 /\ sent w' = Storage.PutItemCommand (storedItem r) :: sent w).
Proof.
  split; intros H.
  - rewrite saveScanResult_run.
    destruct (storable_false_throws r H) as [e ->]. reflexivity.
  - rewrite (save_run r w H). eexists. split; [reflexivity |].
    unfold afterPut. destruct (ddbFault w _); reflexivity.
Qed.

Lemma isoView_idem (d : DateValue) : isoView (isoView d) = isoView d.
Proof. destruct d as [[t |] | s]; reflexivity. Qed.

Lemma storedForm_idem (r : ScanResult) : storedForm (storedForm r) = storedForm r.
Proof.
  unfold storedForm. cbn. rewrite !isoView_idem. f_equal.
  - rewrite map_map. apply map_ext. intros f. unfold storedFinding. cbn.
    destruct (timestamp f) as [d |]; cbn; [rewrite isoView_idem |]; reflexivity.
  - destruct (endTime r) as [d |]; cbn; [rewrite isoView_idem |]; reflexivity.
Qed.

Lemma storedForm_storable (r : ScanResult) :
  storable r = true -> storable (storedForm r) = true.
Proof.
  unfold storable. rewrite !andb_true_iff. intros [[[H1 H2] H3] H4].
  assert (Hd : forall d, dateOk d = true -> dateOk (isoView d) = true)
    by (intros [[t |] | s]; simpl; auto).
  repeat split; cbn.
  - apply Hd, H1.
  - destruct (endTime r); cbn; [apply Hd, H2 | reflexivity].
  - apply Hd, H3.
  - rewrite forallb_forall in *. intros f Hf.
    apply in_map_iff in Hf as [g [<- Hg]]. cbn.
    specialize (H4 g Hg). destruct (timestamp g); cbn; [apply Hd, H4 | reflexivity].
Qed.

(** X18. A record read back can be saved again as it is: preparing the
    stored form of a scan result for storage gives the same record, the
    strings in its date fields being kept. *)
Theorem stored_form_is_saved_unchanged (r : ScanResult) :
  storable r = true ->
  DynamoDB.prepareForStorage (Storage.scan (storedItem r)) = Ok (storedItem r).
Proof.
  intros H. cbn [storedItem Storage.scan].
  rewrite (prepareForStorage_view _ (storedForm_storable r H)).
  unfold storedItem. rewrite storedForm_idem. cbn [storedForm startTime].
  rewrite isoView_idem. reflexivity.
Qed.

(** X19. The service reads the latest scan through the store and adds
    nothing: [getLatestScan] returns what [getLatestScanResult] returns,
    and [getLatestSummary] returns the summary of that record, or
    nothing when there is none; both leave the table as it is, send one
    command and never raise. *)
Theorem latest_summary_is_of_the_latest_record (w : World) :
  ScanService.getLatestScan w = DynamoDB.getLatestScanResult w
  /\ exists latest w',
       DynamoDB.getLatestScanResult w = (Ok latest, w')
       /\ ScanService.getLatestSummary w
          = (Ok (option_map (fun r => summary (Storage.scan r)) latest), w')
       /\ table w' = table w
       /\ sent w' = Storage.QueryCommand "ScanHistoryIndex" "SCAN" :: sent w.
Proof.
  unfold ScanService.getLatestSummary, ScanService.getLatestScan, Run.bind, Run.ret.
  rewrite getLatestScanResult_run. split.
  - destruct (ddbFault w _); [reflexivity |].
    destruct (DynamoDB.newest _); reflexivity.
  - eexists. eexists. split; [reflexivity |].
    split; [| split; reflexivity].
    destruct (ddbFault w _); [reflexivity |].
    destruct (DynamoDB.newest _); reflexivity.
Qed.

End SavingAndReading.

(* ================================================================== *)
(** * The routes *)
(* ================================================================== *)

Section Routes.

Import Types.


(** X20. [POST /scan] always answers 200 with [success: true] and the
    result of the scan as data, also when the scan failed: the answer
    500 of the handler is never sent. *)
Theorem post_scan_always_answers_200 (cloud : Cloud) (w : World) :
  exists r w',
    ScanService.runFullScan cloud w = (Ok r, w')
    /\ ScanRoutes.postScan cloud w
       = (Ok {| ScanRoutes.statusCode := 200;
                ScanRoutes.success := true;
                ScanRoutes.message := Some "Scan completed successfully";
                ScanRoutes.data := Some r;
                ScanRoutes.error := None |}, w')
    /\ (forall n e, abort w = Some (n, e) -> (n <= 2)%nat ->
                    scanStatus r = failed_).
Proof.
  unfold ScanRoutes.postScan, Run.tryCatch, Run.bind, Run.ret.
  rewrite runFullScan_run. eexists. eexists.
  split; [reflexivity |]. split; [reflexivity |].
  intros n e Ha Hn. pose proof (scanOf_status cloud w) as [Hst _].
  rewrite Ha in Hst. apply Nat.leb_le in Hn. rewrite Hn in Hst. exact Hst.
Qed.

(** X21. [GET /results] answers 200 with the record exactly when
    [getLatestScanResult] returns one, and 404 otherwise; as a failure
    of the store is read as no record, it is answered by 404 too, and
    the answer 500 of the handler is never sent. *)
Theorem get_results_answers_200_or_404 (w : World) :
  exists latest w',
    DynamoDB.getLatestScanResult w = (Ok latest, w')
    /\ ScanRoutes.getResults w
       = (Ok match latest with
             | Some r =>
                 {| ScanRoutes.statusCode := 200;
                    ScanRoutes.success := true;
                    ScanRoutes.message := None;
                    ScanRoutes.data := Some r;
                    ScanRoutes.error := None |}
             | None =>
                 {| ScanRoutes.statusCode := 404;
                    ScanRoutes.success := false;
                    ScanRoutes.message :=
                      Some "No scan results found. Run a scan first.";
                    ScanRoutes.data := None;
                    ScanRoutes.error := None |}
             end, w')
    /\ (forall e, ddbFault w (List.length (sent w)) = Some e -> latest = None).
Proof.
  unfold ScanRoutes.getResults, ScanService.getLatestScan, Run.tryCatch, Run.bind,
    Run.ret.
  rewrite getLatestScanResult_run. eexists. eexists.
  split; [reflexivity |]. split.
  - destruct (ddbFault w _); [reflexivity |].
    destruct (DynamoDB.newest _); reflexivity.
  - intros e ->. reflexivity.
Qed.



End Routes.

(* ================================================================== *)
(** * The catalog of rules *)
(* ================================================================== *)

Section Catalog.

Import Types.

(** X23. A rule of the catalog is found by its identifier, the
    identifiers being distinct; a rule found by an identifier is a rule
    of the catalog with that identifier.  A category holds the rules of
    one resource type: the rules of the category of a rule are the rules
    of its resource type.  No rule is for EC2 instances. *)
Theorem rules_are_found_by_id :
  (forall r, In r Rules.CIS_RULES -> Rules.getRuleById (Rules.id r) = Some r)
  /\ (forall i r, Rules.getRuleById i = Some r ->
                  In r Rules.CIS_RULES /\ Rules.id r = i)
  /\ (forall r, In r Rules.CIS_RULES ->
                Rules.getRulesByCategory (Rules.category r)
                = Rules.getRulesByResourceType (Rules.resourceType r)
                /\ In r (Rules.getRulesByResourceType (Rules.resourceType r)))
  /\ Rules.getRulesByResourceType EC2 = [].
Proof.
  split; [| split; [| split]].
  - intros r Hr. unfold Rules.CIS_RULES in Hr. simpl in Hr.
    repeat (destruct Hr as [<- | Hr]; [vm_compute; reflexivity |]).
    contradiction.
  - intros i r H. unfold Rules.getRuleById in H.
    pose proof (find_some _ _ H) as [Hin He].
    split; [exact Hin |]. apply String.eqb_eq. exact He.
  - intros r Hr. unfold Rules.CIS_RULES in Hr. simpl in Hr.
    repeat (destruct Hr as [<- | Hr];
            [split; [vm_compute; reflexivity | vm_compute; tauto] |]).
    contradiction.
  - reflexivity.
Qed.

End Catalog.

(* ================================================================== *)
(** * The table of findings *)
(* ================================================================== *)

Section Table.

Import Types.

Lemma compareFindings_rank (a b : SecurityFinding) :
  (FindingsTable.compareFindings a b <? 0) = (rank a <? rank b).
Proof.
  unfold FindingsTable.compareFindings, rank.
  destruct (status a), (status b), (severity a), (severity b); reflexivity.
Qed.

Lemma insertBy_perm (x : SecurityFinding) (l : list SecurityFinding) :
  Permutation (FindingsTable.insertBy FindingsTable.compareFindings x l) (x :: l).
Proof.
  induction l as [| y l IH]; simpl; [apply Permutation_refl |].
  destruct (_ <? 0); [| apply Permutation_refl].
  eapply perm_trans; [apply perm_skip, IH | apply perm_swap].
Qed.

Lemma sortBy_perm (l : list SecurityFinding) :
  Permutation (FindingsTable.sortBy FindingsTable.compareFindings l) l.
Proof.
  induction l as [| x l IH]; simpl; [apply perm_nil |].
  eapply perm_trans; [apply insertBy_perm | apply perm_skip, IH].
Qed.

Lemma insertBy_in (x y : SecurityFinding) (l : list SecurityFinding) :
  In y (FindingsTable.insertBy FindingsTable.compareFindings x l) ->
  y = x \/ In y l.
Proof.
  intros H. apply (Permutation_in _ (insertBy_perm x l)) in H.
  destruct H as [<- | H]; auto.
Qed.

Lemma insertBy_sorted (x : SecurityFinding) (l : list SecurityFinding) :
  StronglySorted (fun a b => rank a <= rank b) l ->
  StronglySorted (fun a b => rank a <= rank b)
    (FindingsTable.insertBy FindingsTable.compareFindings x l).
Proof.
  induction 1 as [| y l Hs IH Hy]; simpl.
  - constructor; [constructor | constructor].
  - rewrite compareFindings_rank. destruct (Z.ltb_spec (rank y) (rank x)) as [Hlt | Hge].
    + constructor; [exact IH |].
      rewrite Forall_forall in *. intros z Hz.
      apply insertBy_in in Hz as [-> | Hz]; [lia | apply Hy, Hz].
    + constructor; [constructor; assumption |].
      constructor; [exact Hge |].
      rewrite Forall_forall in *. intros z Hz. specialize (Hy z Hz). lia.
Qed.

Lemma sortBy_sorted (l : list SecurityFinding) :
  StronglySorted (fun a b => rank a <= rank b)
    (FindingsTable.sortBy FindingsTable.compareFindings l).
Proof.
  induction l as [| x l IH]; simpl; [constructor | apply insertBy_sorted, IH].
Qed.

Lemma ofClass_rank (s : CheckStatus) (v : Severity) (a b : SecurityFinding) :
  ofClass s v a = true -> ofClass s v b = true -> rank a = rank b.
Proof.
  unfold ofClass, rank. rewrite !andb_true_iff, !statusEqb_eq, !severityEqb_eq.
  intros [-> ->] [-> ->]. reflexivity.
Qed.

Lemma insertBy_class (s : CheckStatus) (v : Severity) (x : SecurityFinding)
    (l : list SecurityFinding) :
  filter (ofClass s v) (FindingsTable.insertBy FindingsTable.compareFindings x l)
  = filter (ofClass s v) (x :: l).
Proof.
  induction l as [| y l IH]; [reflexivity |].
  simpl FindingsTable.insertBy. rewrite compareFindings_rank.
  destruct (Z.ltb_spec (rank y) (rank x)) as [Hlt | Hge]; [| reflexivity].
  simpl in *. rewrite IH.
  destruct (ofClass s v x) eqn:Ex; [| reflexivity].
  destruct (ofClass s v y) eqn:Ey; [| reflexivity].
  pose proof (ofClass_rank s v x y Ex Ey). lia.
Qed.

Lemma sortBy_class (s : CheckStatus) (v : Severity) (l : list SecurityFinding) :
  filter (ofClass s v) (FindingsTable.sortBy FindingsTable.compareFindings l)
  = filter (ofClass s v) l.
Proof.
  induction l as [| x l IH]; [reflexivity |].
  simpl FindingsTable.sortBy. rewrite insertBy_class. simpl. rewrite IH. reflexivity.
Qed.

Lemma keeps_selects (sev : option Severity) (svc : option ResourceType)
    (st : option CheckStatus) (f : SecurityFinding) :
  FindingsTable.keeps sev svc st f
  = selects severityEqb sev (severity f)
    && selects Rules.resourceTypeEqb svc (resourceType f)
    && selects statusEqb st (status f).
Proof.
  unfold FindingsTable.keeps, selects.
  destruct sev as [a |], svc as [b |], st as [c |]; simpl;
    repeat match goal with
           | |- context [severityEqb ?x ?y] => destruct (severityEqb x y); simpl
           | |- context [Rules.resourceTypeEqb ?x ?y] =>
               destruct (Rules.resourceTypeEqb x y); simpl
           | |- context [statusEqb ?x ?y] => destruct (statusEqb x y); simpl
           end; reflexivity.
Qed.

Lemma filter_twice {A} (p q : A -> bool) (l : list A) :
  filter p (filter q l) = filter (fun x => q x && p x) l.
Proof.
  induction l as [| x l IH]; [reflexivity |].
  simpl. destruct (q x); simpl; [destruct (p x) |]; rewrite IH; reflexivity.
Qed.

(** X24. The rows of the table are the findings that pass the three
    filters, each as often as it is among the findings: a finding passes
    when each filter is ['ALL'] or is its own value.  With the three
    filters at ['ALL'] no finding is left out, and the filters apply one
    after the other in any order. *)
Theorem table_rows_are_the_selected_findings
    (sev : option Severity) (svc : option ResourceType) (st : option CheckStatus)
    (fs : list SecurityFinding) :
  Permutation (FindingsTable.sortedFindings sev svc st fs)
    (filter (fun f => selects severityEqb sev (severity f)
                      && selects Rules.resourceTypeEqb svc (resourceType f)
                      && selects statusEqb st (status f)) fs)
  /\ Permutation (FindingsTable.sortedFindings None None None fs) fs
  /\ FindingsTable.filteredFindings sev svc st fs
     = FindingsTable.filteredFindings None None st
         (FindingsTable.filteredFindings None svc None
            (FindingsTable.filteredFindings sev None None fs)).
Proof.
  unfold FindingsTable.sortedFindings, FindingsTable.filteredFindings.
  split; [| split].
  - eapply perm_trans; [apply sortBy_perm |].
    rewrite (filter_ext _ _ (keeps_selects sev svc st)). apply Permutation_refl.
  - eapply perm_trans; [apply sortBy_perm |].
    rewrite (filter_ext _ (fun _ => true)) by reflexivity.
    induction fs as [| f fs IH]; simpl; [apply perm_nil | apply perm_skip, IH].
  - rewrite !filter_twice. apply filter_ext. intros f.
    rewrite !keeps_selects. simpl. rewrite !andb_true_r, andb_assoc. reflexivity.
Qed.

(** X25. The table is ordered by status first, failures before errors
    before passes, and within a status by severity from critical to low;
    findings of the same status and severity keep the order in which the
    scan gave them. *)
Theorem table_is_ordered_by_status_then_severity
    (sev : option Severity) (svc : option ResourceType) (st : option CheckStatus)
    (fs : list SecurityFinding) :
  StronglySorted
    (fun a b =>
       FindingsTable.statusOrder (status a) < FindingsTable.statusOrder (status b)
       \/ (status a = status b
           /\ FindingsTable.severityOrder (severity a)
              <= FindingsTable.severityOrder (severity b)))
    (FindingsTable.sortedFindings sev svc st fs)
  /\ forall s v,
       filter (ofClass s v) (FindingsTable.sortedFindings sev svc st fs)
       = filter (ofClass s v) (FindingsTable.filteredFindings sev svc st fs).
Proof.
  unfold FindingsTable.sortedFindings. split.
  - pose proof (sortBy_sorted (FindingsTable.filteredFindings sev svc st fs)) as H.
    induction H as [| y l Hs IH Hy]; constructor; [exact IH |].
    rewrite Forall_forall in *. intros z Hz. specialize (Hy z Hz).
    unfold rank in Hy.
    destruct (status y), (status z), (severity y), (severity z);
      simpl in *; try lia; right; split; (reflexivity || lia).
  - intros s v. apply sortBy_class.
Qed.

End Table.

(* ================================================================== *)
(** * Worked runs of the collectors, the store and the routes *)
(* ================================================================== *)

Section MoreWorkedRuns.

Import Types.

(** X1, on the sample bucket listing. *)
Lemma bucket_collection_witness :
  exists infos,
    AwsS3.getAllBucketsInfo sampleS3 = Ok infos
    /\ map AwsS3.name infos = ["logs"].
Proof.
  destruct (bucket_collection_fails_only_with_the_listing sampleS3) as [_ H].
  destruct (H _ eq_refl) as [infos [H1 [H2 _]]].
  exists infos. split; [exact H1 | exact H2].
Defined.

(** X2, on the sample bucket, whose encryption lookup is refused. *)
Lemma failed_bucket_lookup_witness :
  AwsS3.getAllBucketsInfo sampleS3 = Ok [logsInfo]
  /\ status (S3Scanner.checkEncryption logsInfo) = FAIL
  /\ severity (S3Scanner.checkEncryption logsInfo) = MEDIUM.
Proof.
  split; [reflexivity |].
  destruct (failed_bucket_lookup_fails_the_check sampleS3 [logsInfo] logsInfo
              eq_refl (or_introl eq_refl)) as [_ [H _]].
  apply (H accessDenied). reflexivity.
Defined.

(** X3, on the user of the second account: console access, no device. *)
Lemma mfa_check_witness :
  AwsIAM.getAllUsersInfo auditIAM = Ok [aliceInfo]
  /\ status (IAMScanner.checkMFAEnabled aliceInfo) = FAIL
  /\ severity (IAMScanner.checkMFAEnabled aliceInfo) = HIGH.
Proof.
  split; [reflexivity |].
  destruct (mfa_check_needs_console_access auditIAM [aliceInfo] aliceInfo
              eq_refl (or_introl eq_refl)) as [_ [_ [H3 [H4 _]]]].
  assert (Hf : status (IAMScanner.checkMFAEnabled aliceInfo) = FAIL)
    by (apply H3; split; reflexivity).
  split; [exact Hf | exact (H4 Hf)].
Defined.

(** X4, on the same user, who holds the administrator policy. *)
Lemma admin_check_witness :
  AwsIAM.getAllUsersInfo auditIAM = Ok [aliceInfo]
  /\ AwsIAM.hasAdminAccess aliceInfo = true
  /\ status (IAMScanner.checkAdminAccess aliceInfo) = FAIL.
Proof.
  split; [reflexivity |].
  destruct (admin_check_matches_three_arns auditIAM [aliceInfo] aliceInfo
              eq_refl (or_introl eq_refl)) as [_ [H2 [H3 _]]].
  assert (Ha : AwsIAM.hasAdminAccess aliceInfo = true).
  { apply H2. exists "arn:aws:iam::aws:policy/AdministratorAccess".
    split; [left; reflexivity | left; reflexivity]. }
  split; [exact Ha | apply H3, Ha].
Defined.

(** X6, on the database of the second account: a week of backups. *)
Lemma database_checks_witness :
  AwsRDS.getAllRDSInfo auditRDS = Ok [ordersInfo]
  /\ status (RDSScanner.checkPublicAccessibility ordersInfo) = FAIL
  /\ AwsRDS.backupRetentionPeriod ordersInfo = 7
  /\ message (RDSScanner.checkBackupEnabled ordersInfo)
     = "Automated backups enabled with 7 day retention".
Proof.
  split; [reflexivity |].
  destruct (database_checks_follow_the_listing auditRDS [ordersInfo] ordersInfo
              eq_refl (or_introl eq_refl))
    as [response [instance [H1 [H2 [_ [_ [H5 [_ [_ [_ [_ [H10 _]]]]]]]]]]]].
  injection H1 as <-. destruct H2 as [<- | []].
  split; [apply H5; reflexivity |].
  destruct (H10 7 eq_refl ltac:(lia)) as [Hd Hm].
  split; [exact Hd | exact Hm].
Defined.

(** X7, on the group of the sample account, open to the world on the
    port of SSH. *)
Lemma group_flags_witness :
  AwsEC2.listSecurityGroups sampleEC2 = Ok [webGroup]
  /\ AwsEC2.hasOpenSSH webGroup = true
  /\ AwsEC2.hasOpenToWorld webGroup = true.
Proof.
  split; [reflexivity |].
  destruct (group_flags_agree sampleEC2 [webGroup] webGroup
              eq_refl (or_introl eq_refl)) as [H1 [_ [_ [H4 _]]]].
  split; [rewrite H1; reflexivity |].
  apply H4. left. rewrite H1. reflexivity.
Defined.

(** X8, on a permission without ranges. *)
Lemma parsing_witness :
  noRanges emptyPermission
  /\ AwsEC2.parseInboundRules [emptyPermission] = []
  /\ AwsEC2.hasPortOpenToWorld (AwsEC2.parseInboundRules [emptyPermission]) 22
     = false.
Proof.
  assert (Hn : noRanges emptyPermission) by (split; reflexivity).
  split; [exact Hn |].
  destruct parsing_goes_range_by_range as [_ [_ H]].
  destruct (H [emptyPermission]) as [H1 H2].
  - intros p [<- | []]. exact Hn.
  - split; [exact H1 | apply H2].
Defined.

(** X9, on the running instance of the second account. *)
Lemma public_ip_witness :
  AwsEC2.listInstances auditEC2 = Ok [runningInfo; terminatedInfo]
  /\ status (EC2Scanner.checkPublicIPExposure runningInfo) = FAIL
  /\ contains (message (EC2Scanner.checkPublicIPExposure runningInfo))
              "203.0.113.7".
Proof.
  split; [reflexivity |].
  destruct (public_ip_check_reports_the_address auditEC2
              [runningInfo; terminatedInfo] runningInfo
              eq_refl (or_introl eq_refl)) as [H1 [_ [H3 _]]].
  split.
  - apply H1. exists "203.0.113.7". split; [reflexivity | discriminate].
  - apply H3; [reflexivity | discriminate].
Defined.

(** X10, on the second account: one group, one instance in service and
    one terminated. *)
Lemma instances_witness :
  AwsEC2.getEC2SecurityInfo auditEC2 = Ok ([runningInfo; terminatedInfo], [webGroup])
  /\ exists fs,
       EC2Scanner.scanEC2 auditEC2 = Ok fs
       /\ List.length fs = 4%nat
       /\ In (EC2Scanner.checkPublicIPExposure runningInfo) fs.
Proof.
  split; [reflexivity |].
  destruct (instances_out_of_service_are_skipped auditEC2
              [runningInfo; terminatedInfo] [webGroup] eq_refl)
    as [fs [H1 [H2 [_ H4]]]].
  exists fs. split; [exact H1 |]. split; [exact H2 |].
  apply H4; [left; reflexivity | reflexivity].
Defined.

(** X11, on the three collections of the second account. *)
Lemma one_finding_witness :
  (exists fs,
      S3Scanner.scanS3Buckets sampleS3 = Ok fs
      /\ map findingKey fs = s3Keys "logs" /\ NoDup (map findingKey fs))
  /\ (exists fs,
         RDSScanner.scanRDS auditRDS = Ok fs
         /\ map findingKey fs = rdsKeys "orders" /\ NoDup (map findingKey fs)).
Proof.
  destruct one_finding_for_each_resource_and_check as [H1 [_ H3]].
  split.
  - destruct (H1 sampleS3 [logsInfo] eq_refl) as [fs [Ha [Hb Hc]]].
    exists fs. split; [exact Ha |]. split; [exact Hb |].
    apply Hc. constructor; [intros [] | constructor].
  - destruct (H3 auditRDS [ordersInfo] eq_refl) as [fs [Ha [Hb Hc]]].
    exists fs. split; [exact Ha |]. split; [exact Hb |].
    apply Hc. constructor; [intros [] | constructor].
Defined.

(** X12, on the scan of the second account. *)
Lemma findings_name_witness :
  exists r w',
    ScanService.runFullScan auditCloud sampleWorld = (Ok r, w')
    /\ forall f, In f (findings r) -> Types.resourceId f <> "".
Proof.
  pose proof (runFullScan_run auditCloud sampleWorld) as Hrun.
  eexists. eexists. split; [exact Hrun |].
  intros f Hf.
  exact (findings_name_their_resource auditCloud sampleWorld _ _ f Hrun Hf).
Defined.

(** X14, on the aborted world: the failed scan has no finding. *)
Lemma scan_result_witness :
  exists r w',
    ScanService.runFullScan sampleCloud abortedWorld = (Ok r, w')
    /\ scanStatus r = failed_
    /\ ((findings r = [] /\ summary r = summaryOf [] (reading abortedWorld 1))
        \/ (List.length (findings r) = List.length (collected sampleCloud)
            /\ summary r = summaryOf (findings r) (reading abortedWorld 3))).
Proof.
  destruct (scan_result_by_status sampleCloud abortedWorld)
    as [r [w' [H1 [_ [_ [_ [_ H6]]]]]]].
  pose proof (runFullScan_run sampleCloud abortedWorld) as Hrun.
  rewrite H1 in Hrun. injection Hrun as Hr _.
  assert (Hs : scanStatus r = failed_) by (rewrite Hr; reflexivity).
  exists r, w'. split; [exact H1 |]. split; [exact Hs | exact (H6 Hs)].
Defined.

Lemma scanOf2023_storable : storable scanOf2023 = true.
Proof. reflexivity. Defined.

Lemma rerunOf2023_storable : storable rerunOf2023 = true.
Proof. reflexivity. Defined.

(** X15, on the scan of 2023 saved twice under one identifier: the
    second record is the one read back. *)
Lemma saves_witness :
  fst (saveThen scanOf2023
         (saveThen rerunOf2023 (DynamoDB.getScanResult "scan-1700000000000-k3x9q2a"))
         sampleWorld)
  = Ok (Some (storedItem rerunOf2023))
  /\ fst (saveThen scanOf2023 (DynamoDB.getScanResult "scan-1700000000500-k3x9q2a")
            sampleWorld)
     = fst (DynamoDB.getScanResult "scan-1700000000500-k3x9q2a" sampleWorld).
Proof.
  destruct saves_are_keyed_by_scan_id as [H1 H2].
  split.
  - exact (proj1 (H2 scanOf2023 rerunOf2023 sampleWorld scanOf2023_storable
                    rerunOf2023_storable (sampleWorld_up 3) eq_refl)).
  - apply (H1 scanOf2023 sampleWorld "scan-1700000000500-k3x9q2a"
             scanOf2023_storable (sampleWorld_up 2)).
    discriminate.
Defined.

(** X16, on the world whose store is down: the record of the table is
    not read. *)
Lemma unknown_scan_witness :
  table storeDownWorld = [storedItem scanOf2023]
  /\ fst (DynamoDB.getScanResult "scan-1700000000000-k3x9q2a" storeDownWorld)
     = Ok None.
Proof.
  split; [reflexivity |].
  destruct (unknown_scan_reads_as_absent storeDownWorld "scan-1700000000000-k3x9q2a")
    as [_ [_ H]].
  apply (H accessDenied). reflexivity.
Defined.

(** X17, on a scan without a valid start time. *)
Lemma invalid_date_witness :
  storable undatedScan = false
  /\ DynamoDB.saveScanResult undatedScan sampleWorld = (Ok tt, sampleWorld).
Proof.
  split; [reflexivity |].
  apply (proj1 (invalid_date_is_not_persisted undatedScan sampleWorld)).
  reflexivity.
Defined.

(** X18, on the scan of 2023. *)
Lemma stored_form_witness :
  DynamoDB.prepareForStorage (Storage.scan (storedItem scanOf2023))
  = Ok (storedItem scanOf2023).
Proof. exact (stored_form_is_saved_unchanged scanOf2023 scanOf2023_storable). Defined.

(** X20, on the aborted world: the failed scan is answered by 200. *)
Lemma post_scan_witness :
  exists r w',
    ScanRoutes.postScan sampleCloud abortedWorld
    = (Ok {| ScanRoutes.statusCode := 200;
             ScanRoutes.success := true;
             ScanRoutes.message := Some "Scan completed successfully";
             ScanRoutes.data := Some r;
             ScanRoutes.error := None |}, w')
    /\ scanStatus r = failed_.
Proof.
  destruct (post_scan_always_answers_200 sampleCloud abortedWorld)
    as [r [w' [_ [H2 H3]]]].
  exists r, w'. split; [exact H2 |].
  apply (H3 1%nat accessDenied); [reflexivity | lia].
Defined.

(** X21, on the world whose store is down: 404, with a record in the
    table. *)
Lemma get_results_witness :
  exists latest w',
    DynamoDB.getLatestScanResult storeDownWorld = (Ok latest, w')
    /\ latest = None.
Proof.
  destruct (get_results_answers_200_or_404 storeDownWorld)
    as [latest [w' [H1 [_ H3]]]].
  exists latest, w'. split; [exact H1 |].
  apply (H3 accessDenied). reflexivity.
Defined.





(** X23, on the rule for SSH. *)
Lemma rules_witness :
  exists r, Rules.getRuleById "CIS-5.1" = Some r
            /\ In r Rules.CIS_RULES
            /\ Rules.id r = "CIS-5.1".
Proof.
  destruct rules_are_found_by_id as [_ [H _]].
  eexists. split; [reflexivity |]. apply H. reflexivity.
Defined.

End MoreWorkedRuns.
